(** * Carbon Code Generator: a shallow embedding of [backend/server.js]

    The development follows the class [CarbonGenerator]: the HTML template
    builder [generateHTMLTemplate] with its escaping function [escapeHTML],
    the cache helpers [getFromCache] and [setToCache], the validators and
    the handler of POST /api/generate, the handlers of
    POST /api/generate/fallback, GET /api/download and GET /api/health,
    the origins of the CORS configuration, and the life of the instance:
    [initRedis], [initBrowser] and [shutdown].

    Conventions of the model.
    - A JavaScript string is a [string]; each character stands for one
      UTF-16 code unit in the range U+0000..U+00FF.  The cache key is
      modelled for every code, given by its code units ([cacheKeyOf]).
    - A value read from a JSON request body is a [json]; [undefined] is the
      [None] of [option json].  A number is modelled when it is an integer
      that a double holds exactly (of absolute value below 2^53); an object
      lists its properties in the order in which it received them.
    - Code that can throw returns an [outcome]; code with effects (cache
      store, browser pages, clock, console) runs in the monad [M] over an
      explicit [World], against the answers of its collaborators, [Env].
    - Some library functions are taken as given:
      [String.prototype.toUpperCase], the double arithmetic of the minimum
      line height, [JSON.parse], the conversion to text that
      express-validator applies to a value that is not a string, and the
      base64 decoder [Buffer.from(text, 'base64')].  A statement that needs
      what one of them returns says so in a hypothesis.
    - Two rules of the libraries are part of the model: puppeteer checks
      the options of [page.screenshot] before it asks the browser for the
      image, and express-validator selects the field of a chain with
      lodash's [get].
    - Line 392 of the source holds a backquote inside the template literal;
      it is read as a literal character of the generated script. *)

From Stdlib Require Import String Ascii List Bool Arith ZArith NArith Lia.
From Stdlib Require Import DecimalString DecimalZ DecimalPos DecimalFacts ZifyNat.
From Stdlib Require Import QArith Qround.
Import ListNotations.

Local Close Scope Q_scope.
Local Open Scope list_scope.
Local Open Scope string_scope.

(* ------------------------------------------------------------------ *)
(** ** JavaScript values and exceptions                                *)
(* ------------------------------------------------------------------ *)

#[local] Set Warnings "-register-all,-abstract-large-number".

Inductive json : Type :=
| JNull
| JBool (b : bool)
| JNum (n : Z)
| JStr (s : string)
| JArr (items : list json)
| JObj (props : list (string * json)).

Inductive exn : Type :=
| TypeError
| SyntaxError
| Error (message : string)
| ExternalError (message : string).

Inductive outcome (A : Type) : Type :=
| Ok (a : A)
| Throw (e : exn).
Arguments Ok {A} a.
Arguments Throw {A} e.

Definition obind {A B} (x : outcome A) (k : A -> outcome B) : outcome B :=
  match x with
  | Ok a => k a
  | Throw e => Throw e
  end.

Declare Scope outcome_scope.
Delimit Scope outcome_scope with outcome.
Notation "x <- c ;; k" := (obind c (fun x => k))
  (at level 61, c at next level, right associativity) : outcome_scope.

(** Characters the source names by escape sequences. *)
Definition chr (n : nat) : ascii := ascii_of_nat n.
Definition dq : string := String (chr 34) "".
Definition LF : ascii := chr 10.
Definition TAB : ascii := chr 9.
Definition CR : ascii := chr 13.

(** [ToBoolean] on the values above. *)
Definition truthy (v : json) : bool :=
  match v with
  | JNull => false
  | JBool b => b
  | JNum n => negb (n =? 0)%Z
  | JStr s => negb (s =? "")
  | JArr _ | JObj _ => true
  end.

Definition truthy_opt (v : option json) : bool :=
  match v with
  | None => false
  | Some v => truthy v
  end.

(** Own property of an object; the first binding of a key wins. *)
Fixpoint lookup (k : string) (props : list (string * json)) : option json :=
  match props with
  | [] => None
  | (k', v) :: rest => if k' =? k then Some v else lookup k rest
  end.

(** [obj.name] for the property names the builder reads: none of them is
    inherited from a prototype, so only an object's own properties count. *)
Definition getProp (o : json) (name : string) : option json :=
  match o with
  | JObj props => lookup name props
  | _ => None
  end.

(** Decimal text of an integer, as [Number::toString] prints it. *)
Definition Z_to_string (n : Z) : string :=
  NilZero.string_of_int (Z.to_int n).

(** [l.join(sep)]. *)
Fixpoint joinTail (sep : string) (l : list string) : string :=
  match l with
  | [] => ""
  | y :: rest => sep ++ y ++ joinTail sep rest
  end.

Definition join (sep : string) (l : list string) : string :=
  match l with
  | [] => ""
  | x :: rest => x ++ joinTail sep rest
  end.

Fixpoint sequence {A} (l : list (outcome A)) : outcome (list A) :=
  match l with
  | [] => Ok []
  | x :: rest =>
      match x, sequence rest with
      | Ok a, Ok r => Ok (a :: r)
      | Throw e, _ => Throw e
      | _, Throw e => Throw e
      end
  end.

(** [ToString].  An array joins its elements with commas, [null] elements
    giving the empty text; a plain object prints as [[object Object]]
    unless an own (hence not callable) [toString] shadows the inherited
    method, in which case the conversion throws. *)
Fixpoint ToString (v : json) : outcome string :=
  match v with
  | JNull => Ok "null"
  | JBool true => Ok "true"
  | JBool false => Ok "false"
  | JNum n => Ok (Z_to_string n)
  | JStr s => Ok s
  | JArr items =>
      match sequence (map (fun x => match x with
                                    | JNull => Ok ""
                                    | _ => ToString x
                                    end) items) with
      | Ok parts => Ok (join "," parts)
      | Throw e => Throw e
      end
  | JObj props =>
      match lookup "toString" props with
      | Some _ => Throw TypeError
      | None => Ok "[object Object]"
      end
  end.

(* ------------------------------------------------------------------ *)
(** ** String helpers                                                  *)
(* ------------------------------------------------------------------ *)

(** [s.replace(/c/g, rep)] for a pattern of one literal character. *)
Fixpoint replaceAll (c : ascii) (rep : string) (s : string) : string :=
  match s with
  | EmptyString => EmptyString
  | String a rest =>
      if Ascii.eqb a c then rep ++ replaceAll c rep rest
      else String a (replaceAll c rep rest)
  end.

(** [s.includes(c)] for a one-character needle. *)
Fixpoint includesChar (c : ascii) (s : string) : bool :=
  match s with
  | EmptyString => false
  | String a rest => Ascii.eqb a c || includesChar c rest
  end.

Fixpoint flat_map_string (f : ascii -> string) (s : string) : string :=
  match s with
  | EmptyString => EmptyString
  | String a rest => f a ++ flat_map_string f rest
  end.

(** [s.substring(0, n)]. *)
Fixpoint take (n : nat) (s : string) : string :=
  match n, s with
  | O, _ => EmptyString
  | S _, EmptyString => EmptyString
  | S n', String a rest => String a (take n' rest)
  end.

(** Number of (possibly overlapping) occurrences of [pat] in [s]. *)
Fixpoint occurrences (pat s : string) : nat :=
  match s with
  | EmptyString => if pat =? "" then 1 else 0
  | String _ rest =>
      (if prefix pat s then 1 else 0) + occurrences pat rest
  end.

(* ------------------------------------------------------------------ *)
(** ** escapeHTML                                                      *)
(* ------------------------------------------------------------------ *)

(** The eight chained [replace] calls on a string. *)
Definition escapeText (str : string) : string :=
  replaceAll " " "&nbsp;"
    (replaceAll TAB "&nbsp;&nbsp;&nbsp;&nbsp;"
      (replaceAll LF "<br>"
        (replaceAll "'" "&#039;"
          (replaceAll (chr 34) "&quot;"
            (replaceAll ">" "&gt;"
              (replaceAll "<" "&lt;"
                (replaceAll "&" "&amp;" str))))))).

(** [escapeHTML(str)]: a falsy argument gives the empty string; a truthy
    argument that is not a string has no callable [replace]. *)
Definition escapeHTML (str : option json) : outcome string :=
  if negb (truthy_opt str) then Ok ""
  else match str with
       | Some (JStr s) => Ok (escapeText s)
       | _ => Throw TypeError
       end.

(* ------------------------------------------------------------------ *)
(** ** Theme palettes                                                  *)
(* ------------------------------------------------------------------ *)

Record ThemePalette : Type := {
  c_background : string;
  c_text : string;
  c_comment : string;
  c_keyword : string;
  c_string : string;
  c_number : string;
  c_function : string;
  c_class : string;
  c_variable : string;
  c_operator : string
}.

Definition theme_dark : ThemePalette := {|
  c_background := "#262424"; c_text := "#f8f8f2"; c_comment := "#6272a4";
  c_keyword := "#ff79c6"; c_string := "#f1fa8c"; c_number := "#bd93f9";
  c_function := "#50fa7b"; c_class := "#8be9fd"; c_variable := "#ffb86c";
  c_operator := "#ff79c6" |}.

Definition theme_light : ThemePalette := {|
  c_background := "#ffffff"; c_text := "#383a42"; c_comment := "#a0a1a7";
  c_keyword := "#a626a4"; c_string := "#50a14f"; c_number := "#986801";
  c_function := "#4078f2"; c_class := "#c18401"; c_variable := "#e45649";
  c_operator := "#a626a4" |}.

Definition theme_solarized : ThemePalette := {|
  c_background := "#002b36"; c_text := "#839496"; c_comment := "#586e75";
  c_keyword := "#859900"; c_string := "#2aa198"; c_number := "#d33682";
  c_function := "#b58900"; c_class := "#268bd2"; c_variable := "#cb4b16";
  c_operator := "#859900" |}.

(** What [themes[key]] evaluates to.  [themes] is an object literal, so a key
    that is not one of its own three is looked up on [Object.prototype]. *)
Inductive themeEntry : Type :=
| Colors (p : ThemePalette)   (* one of the three palettes *)
| Inherited                   (* a member of Object.prototype: truthy, no colour role *)
| Missing.                    (* undefined *)

Definition objectPrototypeNames : list string :=
  [ "constructor"; "hasOwnProperty"; "isPrototypeOf"; "propertyIsEnumerable";
    "toLocaleString"; "toString"; "valueOf"; "__proto__";
    "__defineGetter__"; "__defineSetter__"; "__lookupGetter__";
    "__lookupSetter__" ].

Definition themes (key : string) : themeEntry :=
  if key =? "dark" then Colors theme_dark
  else if key =? "light" then Colors theme_light
  else if key =? "solarized" then Colors theme_solarized
  else if existsb (String.eqb key) objectPrototypeNames then Inherited
  else Missing.

(** [themes[theme] || themes.dark]. *)
Definition resolveTheme (key : string) : themeEntry :=
  match themes key with
  | Missing => Colors theme_dark
  | found => found
  end.

(** [themeColors.role] inside a template literal: a property that does not
    exist interpolates as the text [undefined]. *)
Definition role (r : ThemePalette -> string) (themeColors : themeEntry) : string :=
  match themeColors with
  | Colors p => r p
  | _ => "undefined"
  end.

(* ------------------------------------------------------------------ *)
(** ** generateHTMLTemplate                                            *)
(* ------------------------------------------------------------------ *)

(** The character U+2022 of the window title, in UTF-8. *)
Definition bullet : string :=
  String (chr 226) (String (chr 128) (String (chr 162) "")).

(** A destructured option with its default: the default applies when the
    property is undefined, not when it is [null]. *)
Definition optionOr (options : json) (name : string) (dflt : json) : json :=
  match getProp options name with
  | Some v => v
  | None => dflt
  end.

(** ASCII stand-in for [String.prototype.toUpperCase], used where a closed
    instance of the builder is evaluated. *)
Definition upperAscii (s : string) : string :=
  flat_map_string
    (fun c => let n := nat_of_ascii c in
              String (if (97 <=? n)%nat && (n <=? 122)%nat
                      then ascii_of_nat (n - 32) else c) "") s.

(** The literal text of the template, cut at its substitutions:
    [text_A_B] runs from the substitution on line A of the source to the
    next one, on line B. *)
Definition text_216_223 : string :=
"
<!DOCTYPE html>
<html lang=" ++ dq ++ "en" ++ dq ++ ">
<head>
    <meta charset=" ++ dq ++ "UTF-8" ++ dq ++ ">
    <meta name=" ++ dq ++ "viewport" ++ dq ++ " content=" ++ dq ++ "width=device-width, initial-scale=1.0" ++ dq ++ ">
    <title>Carbon Code</title>
    <link href=" ++ dq ++ "https://fonts.googleapis.com/css2?family=".

Definition text_223_232 : string :=
"&display=swap" ++ dq ++ " rel=" ++ dq ++ "stylesheet" ++ dq ++ ">
    <style>
        * {
            margin: 0;
            padding: 0;
            box-sizing: border-box;
        }
        
        body {
            background: ".

Definition text_232_233 : string :=
";
            font-family: ".

Definition text_233_234 : string :=
", monospace;
            font-size: ".

Definition text_234_235 : string :=
";
            line-height: ".

Definition text_235_236 : string :=
";
            color: ".

Definition text_236_237 : string :=
";
            padding: ".

Definition text_237_247 : string :=
";
            min-height: 100vh;
            display: flex;
            align-items: center;
            justify-content: center;
        }
        
        .carbon-container {
            width: 100%;
            max-width: 900px;
            background: ".

Definition text_247_251 : string :=
";
            border-radius: 12px;
            overflow: hidden;
            box-shadow: 0 20px 60px rgba(0, 0, 0, 0.3);
            border: 1px solid ".

Definition text_251_254 : string :=
";
        }
        
        ".

Definition text_254_256 : string :=
"
        .window-header {
            background: ".

Definition text_256_261 : string :=
";
            padding: 16px 24px;
            display: flex;
            align-items: center;
            justify-content: space-between;
            border-bottom: 1px solid ".

Definition text_261_287 : string :=
";
        }
        
        .window-controls {
            display: flex;
            gap: 10px;
        }
        
        .window-dot {
            width: 14px;
            height: 14px;
            border-radius: 50%;
            cursor: pointer;
            transition: all 0.2s ease;
        }
        
        .window-dot:hover {
            transform: scale(1.1);
        }
        
        .dot-close { background: #ff5f56; }
        .dot-minimize { background: #ffbd2e; }
        .dot-maximize { background: #27ca3f; }
        
        .window-title {
            font-size: 0.9em;
            color: ".

Definition text_287_290 : string :=
";
            font-weight: 500;
        }
        ".

Definition text_290_301 : string :=
"
        
        .code-wrapper {
            padding: 32px;
            overflow: auto;
        }
        
        pre {
            margin: 0;
            white-space: pre-wrap;
            word-wrap: break-word;
            tab-size: ".

Definition text_301_311 : string :=
";
        }
        
        code {
            font-family: inherit;
            display: block;
        }
        
        .line {
            display: flex;
            min-height: ".

Definition text_311_314 : string :=
"px;
        }
        
        ".

Definition text_314_316 : string :=
"
        .line-number {
            color: ".

Definition text_316_321 : string :=
";
            user-select: none;
            text-align: right;
            min-width: 40px;
            padding-right: 16px;
            border-right: 1px solid ".

Definition text_321_324 : string :=
";
            margin-right: 16px;
        }
        ".

Definition text_324_326 : string :=
"
        
        .token.comment { color: ".

Definition text_326_327 : string :=
"; font-style: italic; }
        .token.keyword { color: ".

Definition text_327_328 : string :=
"; font-weight: 600; }
        .token.string { color: ".

Definition text_328_329 : string :=
"; }
        .token.number { color: ".

Definition text_329_330 : string :=
"; }
        .token.function { color: ".

Definition text_330_331 : string :=
"; }
        .token.class { color: ".

Definition text_331_332 : string :=
"; }
        .token.variable { color: ".

Definition text_332_333 : string :=
"; }
        .token.operator { color: ".

Definition text_333_334 : string :=
"; }
        .token.punctuation { color: ".

Definition text_334_358 : string :=
"; opacity: 0.8; }
        
        .grid-bg {
            position: absolute;
            top: 0;
            left: 0;
            right: 0;
            bottom: 0;
            background-image: 
                linear-gradient(rgba(255, 255, 255, 0.03) 1px, transparent 1px),
                linear-gradient(90deg, rgba(255, 255, 255, 0.03) 1px, transparent 1px);
            background-size: 30px 30px;
            pointer-events: none;
            z-index: 0;
        }
        
        .content {
            position: relative;
            z-index: 1;
        }
    </style>
</head>
<body>
    <div class=" ++ dq ++ "carbon-container" ++ dq ++ ">
        ".

Definition text_358_365 : string :=
"
        <div class=" ++ dq ++ "window-header" ++ dq ++ ">
            <div class=" ++ dq ++ "window-controls" ++ dq ++ ">
                <div class=" ++ dq ++ "window-dot dot-close" ++ dq ++ " title=" ++ dq ++ "Close" ++ dq ++ "></div>
                <div class=" ++ dq ++ "window-dot dot-minimize" ++ dq ++ " title=" ++ dq ++ "Minimize" ++ dq ++ "></div>
                <div class=" ++ dq ++ "window-dot dot-maximize" ++ dq ++ " title=" ++ dq ++ "Maximize" ++ dq ++ "></div>
            </div>
            <div class=" ++ dq ++ "window-title" ++ dq ++ ">".

Definition text_365_368 : string :=
" " ++ bullet ++ " Carbon Generator</div>
            <div style=" ++ dq ++ "width: 60px;" ++ dq ++ "></div>
        </div>
        ".

Definition text_368_373 : string :=
"
        
        <div class=" ++ dq ++ "code-wrapper" ++ dq ++ ">
            <div class=" ++ dq ++ "grid-bg" ++ dq ++ "></div>
            <div class=" ++ dq ++ "content" ++ dq ++ ">
                <pre><code>".

Definition text_373_385 : string :=
"</code></pre>
            </div>
        </div>
    </div>
    
    <script>
        (function highlightSyntax() {
            const codeElement = document.querySelector('code');
            if (!codeElement) return;
            
            let code = codeElement.textContent;
            const lines = code.split('\n');
            const language = '".

Definition text_385_426 : string :=
"';
            
            // Basic syntax highlighting patterns
            const patterns = {
                javascript: [
                    { regex: /\/\/.*$/gm, className: 'comment' },
                    { regex: /\/\*[\s\S]*?\*\//g, className: 'comment' },
                    { regex: /([" ++ dq ++ "'`])(?:\\.|[^\\])*?\1/g, className: 'string' },
                    { regex: /\b(\d+\.?\d*|0x[\da-fA-F]+)\b/g, className: 'number' },
                    { regex: /\b(const|let|var|function|return|if|else|for|while|switch|case|break|continue|class|extends|import|export|default|async|await|try|catch|finally|throw|new|this|super)\b/g, className: 'keyword' },
                    { regex: /\b(console|Math|Date|String|Number|Array|Object|Promise|JSON)\b/g, className: 'class' },
                    { regex: /(=|\+|\-|\*|\/|%|==|===|!=|!==|>|<|>=|<=|&&|\|\||!|\?:|\.\.\.)\b/g, className: 'operator' },
                    { regex: /([{}()\[\];:,])/g, className: 'punctuation' }
                ],
                python: [
                    { regex: /#.*$/gm, className: 'comment' },
                    { regex: /([" ++ dq ++ "'" ++ dq ++ "])(?:\\.|[^\\])*?\1/g, className: 'string' },
                    { regex: /\b(\d+\.?\d*" ++ ")\b/g, className: 'number' },
                    { regex: /\b(def|class|return|if|elif|else|for|while|try|except|finally|with|import|from|as|lambda|pass|break|continue|raise|yield|async|await)\b/g, className: 'keyword' },
                    { regex: /\b(print|len|range|str|int|float|list|dict|tuple|set|True|False|None)\b/g, className: 'class' }
                ],
                html: [
                    { regex: /&lt;!--[\s\S]*?--&gt;/g, className: 'comment' },
                    { regex: /&lt;\/?[a-zA-Z][^&lt;&gt;]*&gt;/g, className: 'keyword' },
                    { regex: /([" ++ dq ++ "'])(?:\\.|[^\\])*?\1/g, className: 'string' }
                ],
                css: [
                    { regex: /\/\*[\s\S]*?\*\//g, className: 'comment' },
                    { regex: /([" ++ dq ++ "'])(?:\\.|[^\\])*?\1/g, className: 'string' },
                    { regex: /\b(\d+)(px|em|rem|%|s|ms)?\b/g, className: 'number' },
                    { regex: /\b(@media|@import|@keyframes|@font-face|@page)\b/g, className: 'keyword' }
                ]
            };
            
            const langPatterns = patterns[language] || patterns.javascript;
            
            langPatterns.forEach(({ regex, className }) => {
                code = code.replace(regex, '<span class=" ++ dq ++ "token ' + className + '" ++ dq ++ ">$&</span>');
            });
            
            // Add line numbers
            if (".

Definition text_426_443 : string :=
") {
                let numberedCode = '';
                lines.forEach((line, i) => {
                    const lineNumber = i + 1;
                    const lineContent = line || ' ';
                    numberedCode += '<div class=" ++ dq ++ "line" ++ dq ++ ">';
                    numberedCode += '<span class=" ++ dq ++ "line-number" ++ dq ++ ">' + lineNumber + '</span>';
                    numberedCode += '<span class=" ++ dq ++ "line-content" ++ dq ++ ">' + lineContent + '</span>';
                    numberedCode += '</div>';
                });
                code = numberedCode;
            }
            
            codeElement.innerHTML = code;
        })();
    </script>
</body>
</html>".

Section Builder.

(** [String.prototype.toUpperCase] (Unicode case mapping) and the text of
    [parseInt(fontSize) * parseFloat(lineHeight)] (double arithmetic) are
    taken as given. *)
Variable toUpperCase : string -> string.
Variable lineMinHeight : string -> string -> string.

(** The template literal, once every substitution is a string. *)
Definition document
    (fontFamily fontFamilyCSS backgroundColor_s fontSize_s lineHeight_s
     padding_s tabSize_s language_s language_upper showLineNumbers_s : string)
    (isDark : bool) (themeColors : themeEntry)
    (showWindowControls showLineNumbers : json)
    (escaped : string) : string :=
    text_216_223 ++
    replaceAll " " "+" fontFamily ++
    text_223_232 ++
    backgroundColor_s ++
    text_232_233 ++
    fontFamilyCSS ++
    text_233_234 ++
    fontSize_s ++
    text_234_235 ++
    lineHeight_s ++
    text_235_236 ++
    role c_text themeColors ++
    text_236_237 ++
    padding_s ++
    text_237_247 ++
    (if isDark then "rgba(0, 0, 0, 0.3)" else "rgba(0, 0, 0, 0.05)") ++
    text_247_251 ++
    (if isDark then "rgba(255, 255, 255, 0.1)" else "rgba(0, 0, 0, 0.1)") ++
    text_251_254 ++
    (if truthy showWindowControls then
       text_254_256 ++
       (if isDark then "rgba(0, 0, 0, 0.4)" else "rgba(0, 0, 0, 0.1)") ++
       text_256_261 ++
       (if isDark then "rgba(255, 255, 255, 0.1)" else "rgba(0, 0, 0, 0.1)") ++
       text_261_287 ++
       role c_comment themeColors ++
       text_287_290
     else "") ++
    text_290_301 ++
    tabSize_s ++
    text_301_311 ++
    lineMinHeight fontSize_s lineHeight_s ++
    text_311_314 ++
    (if truthy showLineNumbers then
       text_314_316 ++
       role c_comment themeColors ++
       text_316_321 ++
       (if isDark then "rgba(255, 255, 255, 0.1)" else "rgba(0, 0, 0, 0.1)") ++
       text_321_324
     else "") ++
    text_324_326 ++
    role c_comment themeColors ++
    text_326_327 ++
    role c_keyword themeColors ++
    text_327_328 ++
    role c_string themeColors ++
    text_328_329 ++
    role c_number themeColors ++
    text_329_330 ++
    role c_function themeColors ++
    text_330_331 ++
    role c_class themeColors ++
    text_331_332 ++
    role c_variable themeColors ++
    text_332_333 ++
    role c_operator themeColors ++
    text_333_334 ++
    role c_text themeColors ++
    text_334_358 ++
    (if truthy showWindowControls then
       text_358_365 ++
       language_upper ++
       text_365_368
     else "") ++
    text_368_373 ++
    escaped ++
    text_373_385 ++
    language_s ++
    text_385_426 ++
    showLineNumbers_s ++
    text_426_443.

Definition generateHTMLTemplate (code : option json) (options : option json)
  : outcome string :=
  let options := match options with Some o => o | None => JObj [] end in
  match options with
  | JNull => Throw TypeError
  | _ =>
    let theme := optionOr options "theme" (JStr "dark") in
    let backgroundColor := optionOr options "backgroundColor" (JStr "#262424") in
    let fontFamily := optionOr options "fontFamily" (JStr "Fira Code") in
    let fontSize := optionOr options "fontSize" (JStr "14px") in
    let language := optionOr options "language" (JStr "auto") in
    let showLineNumbers := optionOr options "showLineNumbers" (JBool true) in
    let showWindowControls := optionOr options "showWindowControls" (JBool true) in
    let padding := optionOr options "padding" (JStr "40px") in
    let lineHeight := optionOr options "lineHeight" (JStr "1.6") in
    let tabSize := optionOr options "tabSize" (JNum 2) in
    (themeKey <- ToString theme ;;
     let themeColors := resolveTheme themeKey in
     let isDark := match theme with JStr t => t =? "dark" | _ => false end in
     (* fontFamily.includes(' ') and fontFamily.replace(/ /g, '+') *)
     fontFamily <- match fontFamily with
                   | JStr f => Ok f
                   | _ => Throw TypeError
                   end ;;
     let fontFamilyCSS :=
       if includesChar " " fontFamily then "'" ++ fontFamily ++ "'"
       else fontFamily in
     backgroundColor_s <- ToString backgroundColor ;;
     fontSize_s <- ToString fontSize ;;
     lineHeight_s <- ToString lineHeight ;;
     padding_s <- ToString padding ;;
     tabSize_s <- ToString tabSize ;;
     (* language.toUpperCase() is reached only inside the window header *)
     language_upper <- (if truthy showWindowControls
                        then match language with
                             | JStr l => Ok (toUpperCase l)
                             | _ => Throw TypeError
                             end
                        else Ok "") ;;
     escaped <- escapeHTML code ;;
     language_s <- ToString language ;;
     showLineNumbers_s <- ToString showLineNumbers ;;
     Ok (document fontFamily fontFamilyCSS backgroundColor_s fontSize_s
           lineHeight_s padding_s tabSize_s language_s language_upper
           showLineNumbers_s isDark themeColors
           showWindowControls showLineNumbers escaped))%outcome
  end.

End Builder.

(* ------------------------------------------------------------------ *)
(** ** Vocabulary of the escaped text                                  *)
(* ------------------------------------------------------------------ *)

Fixpoint stripPrefix (p s : string) : option string :=
  match p, s with
  | EmptyString, _ => Some s
  | String a p', String b s' => if Ascii.eqb a b then stripPrefix p' s' else None
  | String _ _, EmptyString => None
  end.

Fixpoint forallb_string (p : ascii -> bool) (s : string) : bool :=
  match s with
  | EmptyString => true
  | String a rest => p a && forallb_string p rest
  end.

(** One character of the code as [escapeText] leaves it. *)
Definition escapeChar (c : ascii) : string :=
  if Ascii.eqb c "&" then "&amp;"
  else if Ascii.eqb c "<" then "&lt;"
  else if Ascii.eqb c ">" then "&gt;"
  else if Ascii.eqb c (chr 34) then "&quot;"
  else if Ascii.eqb c "'" then "&#039;"
  else if Ascii.eqb c LF then "<br>"
  else if Ascii.eqb c TAB then "&nbsp;&nbsp;&nbsp;&nbsp;"
  else if Ascii.eqb c " " then "&nbsp;"
  else String c "".



Definition isDigit (c : ascii) : bool :=
  let n := nat_of_ascii c in (48 <=? n)%nat && (n <=? 57)%nat.

(* ------------------------------------------------------------------ *)
(** ** The cache key                                                   *)
(* ------------------------------------------------------------------ *)

(** The code of a request can hold any character, and its key depends on
    how the platform encodes it: here a JavaScript string is the list of
    its UTF-16 code units, numbers below 65536. *)
Definition wellFormedUnits (units : list N) : bool :=
  forallb (fun u => u <? 65536)%N units.

(** The code units of a string of the model. *)
Definition unitsOf (s : string) : list N :=
  map N_of_ascii (list_ascii_of_string s).

Definition isHighSurrogate (u : N) : bool := ((0xD800 <=? u) && (u <=? 0xDBFF))%N.

Definition isLowSurrogate (u : N) : bool := ((0xDC00 <=? u) && (u <=? 0xDFFF))%N.

(** The code points [Buffer.from(code)] encodes: a high surrogate followed
    by a low one stands for one code point above U+FFFF, and every other
    surrogate is replaced by U+FFFD. *)
Fixpoint scalars (units : list N) : list N :=
  match units with
  | [] => []
  | u :: rest =>
      if isHighSurrogate u then
        match rest with
        | v :: rest' =>
            if isLowSurrogate v
            then (0x10000 + (u - 0xD800) * 0x400 + (v - 0xDC00))%N
                 :: scalars rest'
            else 0xFFFD%N :: scalars rest
        | [] => [0xFFFD%N]
        end
      else if isLowSurrogate u then 0xFFFD%N :: scalars rest
      else u :: scalars rest
  end.

(** UTF-8 of one code point: one to four bytes. *)
Definition utf8Scalar (p : N) : list ascii :=
  (if p <? 0x80 then [ascii_of_N p]
   else if p <? 0x800 then
     [ascii_of_N (0xC0 + p / 0x40); ascii_of_N (0x80 + p mod 0x40)]
   else if p <? 0x10000 then
     [ascii_of_N (0xE0 + p / 0x1000);
      ascii_of_N (0x80 + (p / 0x40) mod 0x40);
      ascii_of_N (0x80 + p mod 0x40)]
   else
     [ascii_of_N (0xF0 + p / 0x40000);
      ascii_of_N (0x80 + (p / 0x1000) mod 0x40);
      ascii_of_N (0x80 + (p / 0x40) mod 0x40);
      ascii_of_N (0x80 + p mod 0x40)])%N.

(** [Buffer.from(code)]: the UTF-8 bytes of the string. *)
Definition utf8Units (units : list N) : list ascii :=
  flat_map utf8Scalar (scalars units).

Definition utf8 (s : string) : list ascii := utf8Units (unitsOf s).

Definition base64Alphabet : string :=
  "ABCDEFGHIJKLMNOPQRSTUVWXYZabcdefghijklmnopqrstuvwxyz0123456789+/".

Definition base64Digit (n : nat) : ascii :=
  match String.get n base64Alphabet with
  | Some c => c
  | None => "="
  end.

(** [buffer.toString('base64')]. *)
Fixpoint base64 (bytes : list ascii) : string :=
  match bytes with
  | [] => EmptyString
  | [a] =>
      let x := nat_of_ascii a in
      String (base64Digit (x / 4))
        (String (base64Digit ((x mod 4) * 16)) "==")
  | [a; b] =>
      let x := nat_of_ascii a in
      let y := nat_of_ascii b in
      String (base64Digit (x / 4))
        (String (base64Digit ((x mod 4) * 16 + y / 16))
          (String (base64Digit ((y mod 16) * 4)) "="))
  | a :: b :: c :: rest =>
      let x := nat_of_ascii a in
      let y := nat_of_ascii b in
      let z := nat_of_ascii c in
      String (base64Digit (x / 4))
        (String (base64Digit ((x mod 4) * 16 + y / 16))
          (String (base64Digit ((y mod 16) * 4 + z / 64))
            (String (base64Digit (z mod 64)) (base64 rest))))
  end.

Definition hexDigit (n : nat) : ascii :=
  match String.get n "0123456789abcdef" with
  | Some c => c
  | None => "0"
  end.

Definition backslash : string := "\".

(** [QuoteJSONString] on one code unit. *)
Definition quoteChar (c : ascii) : string :=
  let n := nat_of_ascii c in
  if Ascii.eqb c (chr 34) then backslash ++ dq
  else if Ascii.eqb c "\" then backslash ++ backslash
  else if (n =? 8)%nat then backslash ++ "b"
  else if (n =? 12)%nat then backslash ++ "f"
  else if (n =? 10)%nat then backslash ++ "n"
  else if (n =? 13)%nat then backslash ++ "r"
  else if (n =? 9)%nat then backslash ++ "t"
  else if (n <? 32)%nat then
    backslash ++ "u00" ++ String (hexDigit (n / 16)) (String (hexDigit (n mod 16)) "")
  else String c "".

Definition quote (s : string) : string :=
  dq ++ flat_map_string quoteChar s ++ dq.

(** The value of a text of digits. *)
Fixpoint digitsValue (acc : N) (s : string) : N :=
  match s with
  | EmptyString => acc
  | String c rest => digitsValue (10 * acc + (N_of_ascii c - 48))%N rest
  end.

(** A property name that is an array index: the decimal text, without
    leading zeros, of an integer below 2^32 - 1. *)
Definition arrayIndex (name : string) : option N :=
  match name with
  | EmptyString => None
  | String c rest =>
      if forallb_string isDigit name
         && (negb (Ascii.eqb c "0") || (rest =? ""))
      then let n := digitsValue 0 name in
           if (n <? 4294967295)%N then Some n else None
      else None
  end.

Definition isIndexed {A} (kv : string * A) : bool :=
  match arrayIndex (fst kv) with
  | Some _ => true
  | None => false
  end.

Definition indexOfName (name : string) : N :=
  match arrayIndex name with
  | Some n => n
  | None => 0
  end.

Fixpoint insertByIndex {A} (kv : string * A) (l : list (string * A))
  : list (string * A) :=
  match l with
  | [] => [kv]
  | kv' :: rest =>
      if (indexOfName (fst kv) <=? indexOfName (fst kv'))%N then kv :: l
      else kv' :: insertByIndex kv rest
  end.

(** The own properties of an object in the order in which the engine
    enumerates them: the array indices in ascending order, then the
    other names in the order in which the object received them.  [props]
    lists the properties in that order of reception. *)
Definition ownOrder {A} (props : list (string * A)) : list (string * A) :=
  (fold_right insertByIndex [] (filter isIndexed props)
   ++ filter (fun kv => negb (isIndexed kv)) props)%list.

(** [JSON.stringify] on a value of the request body: no white space, the
    properties of an object in the order of their enumeration, an integer
    in decimal digits (as the engine prints a number whose absolute value
    is below 2^53). *)
Fixpoint JSON_stringify (v : json) : string :=
  match v with
  | JNull => "null"
  | JBool true => "true"
  | JBool false => "false"
  | JNum n => Z_to_string n
  | JStr s => quote s
  | JArr items => "[" ++ join "," (map JSON_stringify items) ++ "]"
  | JObj props =>
      "{" ++ join ","
               (map snd
                  (ownOrder
                     (map (fun kv => (fst kv,
                                      quote (fst kv) ++ ":"
                                      ++ JSON_stringify (snd kv)))
                          props))) ++ "}"
  end.

(** Line 540: [`carbon:${Buffer.from(code).toString('base64')}:${JSON.stringify(options)}`]. *)
Definition cacheKey (code : string) (options : json) : string :=
  "carbon:" ++ base64 (utf8 code) ++ ":" ++ JSON_stringify options.

(** The same line for a code given by its code units. *)
Definition cacheKeyOf (code : list N) (options : json) : string :=
  "carbon:" ++ base64 (utf8Units code) ++ ":" ++ JSON_stringify options.


(** A value as the engine holds it: the properties of every object
    enumerated in order. *)
Fixpoint enumerated (v : json) : json :=
  match v with
  | JArr items => JArr (map enumerated items)
  | JObj props =>
      JObj (ownOrder (map (fun kv => (fst kv, enumerated (snd kv))) props))
  | _ => v
  end.



(* ------------------------------------------------------------------ *)
(** ** The world of a request                                          *)
(* ------------------------------------------------------------------ *)

Record DOMRect : Type := {
  rect_x : Q; rect_y : Q; rect_width : Q; rect_height : Q
}.

Record Dimensions : Type := {
  dim_x : Z; dim_y : Z; dim_width : Z; dim_height : Z
}.

Record Clip : Type := {
  clip_x : Z; clip_y : Z; clip_width : Z; clip_height : Z
}.

(** The options of [page.screenshot] that the source sets. *)
Record ScreenshotOptions : Type := {
  shot_type : string;
  shot_encoding : string;
  shot_clip : Clip;
  shot_omitBackground : bool;
  shot_quality : option Z
}.

(** What a request does to the outside, in order. *)
Inductive event : Type :=
| RedisGet (key : string)
| RedisSet (key value : string) (ttl : Z)
| ConsoleLog (text : string)
| ConsoleError (label : string)
| PageOpened                    (* browser.newPage() resolved *)
| SetContent (html : string)
| WaitForFunction
| Evaluate
| Screenshot (clip : Clip)
| PageClose.                    (* page.close() was called *)

(** What the collaborators answer during one request. *)
Record Env : Type := {
  redisClient : bool;                       (* this.redisClient is set *)
  redisGetRejects : string -> bool;
  redisSetRejects : string -> bool;
  isBrowserReady : bool;
  browser : bool;                           (* this.browser is set *)
  newPageRejects : bool;
  setContentRejects : string -> bool;       (* load error or the 10 s timeout *)
  waitForFunctionRejects : bool;            (* the 5 s timeout *)
  boundingRect : outcome (option DOMRect);  (* rectangle of .carbon-container *)
  screenshotResult : Clip -> outcome string; (* of a call the library accepts *)
  closeRejects : bool;
  clock : nat -> string;                    (* n-th new Date().toISOString() *)
  development : bool;                       (* NODE_ENV === 'development' *)
  engineMessage : exn -> string             (* error.message *)
}.

Record World : Type := {
  store : string -> option string;          (* contents of the cache store *)
  livePages : nat;
  ticks : nat;
  trace : list event
}.

Definition M (A : Type) : Type := World -> outcome A * World.

Definition ret {A} (a : A) : M A := fun w => (Ok a, w).

Definition bind {A B} (m : M A) (k : A -> M B) : M B :=
  fun w => match m w with
           | (Ok a, w') => k a w'
           | (Throw e, w') => (Throw e, w')
           end.

Definition throw {A} (e : exn) : M A := fun w => (Throw e, w).

(** [try { m } catch (e) { h e }]. *)
Definition try_catch {A} (m : M A) (h : exn -> M A) : M A :=
  fun w => match m w with
           | (Ok a, w') => (Ok a, w')
           | (Throw e, w') => h e w'
           end.

Definition lift {A} (o : outcome A) : M A := fun w => (o, w).

Definition emit (e : event) : M unit :=
  fun w => (Ok tt, {| store := store w; livePages := livePages w;
                      ticks := ticks w; trace := (trace w ++ [e])%list |}).

Declare Scope M_scope.
Delimit Scope M_scope with M.
Notation "x <- c ;; k" := (bind c (fun x => k))
  (at level 61, c at next level, right associativity) : M_scope.
Notation "c ;; k" := (bind c (fun _ => k))
  (at level 61, right associativity) : M_scope.

Record Response : Type := { status : nat; body : json }.

(** One error of [validationResult(req).array()]. *)
Record FieldError : Type := {
  err_path : string;
  err_msg : string;
  err_value : option json
}.

Definition errorJson (e : FieldError) : json :=
  JObj ([("type", JStr "field")]
        ++ match err_value e with Some v => [("value", v)] | None => [] end
        ++ [("msg", JStr (err_msg e)); ("path", JStr (err_path e));
            ("location", JStr "body")])%list.

(** [{...v}]: the own enumerable properties of a value. *)
Fixpoint indexed (i : nat) (items : list json) : list (string * json) :=
  match items with
  | [] => []
  | x :: rest => (Z_to_string (Z.of_nat i), x) :: indexed (S i) rest
  end.

Fixpoint chars (s : string) : list json :=
  match s with
  | EmptyString => []
  | String c rest => JStr (String c "") :: chars rest
  end.

Definition ownEntries (v : json) : list (string * json) :=
  match v with
  | JObj props => props
  | JArr items => indexed 0 items
  | JStr s => indexed 0 (chars s)
  | _ => []
  end.

(** A property written after a spread: it replaces the property of the
    same name where it stands, or is added at the end. *)
Fixpoint setProp (k : string) (v : json) (props : list (string * json))
  : list (string * json) :=
  match props with
  | [] => [(k, v)]
  | (k', v') :: rest =>
      if k' =? k then (k, v) :: rest else (k', v') :: setProp k v rest
  end.

Fixpoint dropDigits (s : string) : string :=
  match s with
  | String c rest => if isDigit c then dropDigits rest else s
  | EmptyString => s
  end.

(** [/^\d+(px|em|rem)$/] *)
Definition matchesCssLength (t : string) : bool :=
  match t with
  | String c _ =>
      isDigit c &&
      (let u := dropDigits t in (u =? "px") || (u =? "em") || (u =? "rem"))
  | EmptyString => false
  end.

Definition maxCodeLength : nat := 10000.


(** A world in which nothing has happened yet. *)
Definition freshWorld (contents : string -> option string) : World :=
  {| store := contents; livePages := 0; ticks := 0; trace := [] |}.

(* ------------------------------------------------------------------ *)
(** ** Vocabulary of the statements                                    *)
(* ------------------------------------------------------------------ *)

Definition isPageClose (e : event) : bool :=
  match e with
  | PageClose => true
  | _ => false
  end.

(** Every [PageOpened] of a trace is followed by a [PageClose]. *)
Fixpoint closedAfterOpen (t : list event) : bool :=
  match t with
  | [] => true
  | PageOpened :: rest => existsb isPageClose rest && closedAfterOpen rest
  | _ :: rest => closedAfterOpen rest
  end.

(** Options whose present fields have the documented types. *)
Definition hasType (name : string) (v : json) : bool :=
  match v with
  | JStr _ =>
      existsb (String.eqb name)
        ["theme"; "backgroundColor"; "fontFamily"; "fontSize"; "language";
         "padding"; "lineHeight"]
  | JBool _ => existsb (String.eqb name) ["showLineNumbers"; "showWindowControls"]
  | JNum _ => existsb (String.eqb name) ["lineHeight"; "tabSize"]
  | _ => false
  end.

Definition optionNames : list string :=
  ["theme"; "backgroundColor"; "fontFamily"; "fontSize"; "language";
   "showLineNumbers"; "showWindowControls"; "padding"; "lineHeight"; "tabSize"].

Definition wellTyped (options : option json) : bool :=
  match options with
  | None => true
  | Some (JObj props) =>
      forallb (fun name => match lookup name props with
                           | Some v => hasType name v
                           | None => true
                           end) optionNames
  | Some _ => false
  end.


(** A closed stand-in for the text of
    [parseInt(fontSize) * parseFloat(lineHeight)]: the value of 14 * 1.6 in
    doubles, which the default options give. *)
Definition fixedMinHeight (fontSize lineHeight : string) : string :=
  "22.400000000000002".

(** The options of the closed instances. *)
Definition constructorOptions : option json :=
  Some (JObj [("theme", JStr "constructor")]).




(* ------------------------------------------------------------------ *)
(** ** Strings cut at a separator                                      *)
(* ------------------------------------------------------------------ *)

(** [s.split(c)] for a separator of one character: the pieces between
    the separators, the empty string giving one empty piece. *)
Fixpoint split (c : ascii) (s : string) : list string :=
  match s with
  | EmptyString => [EmptyString]
  | String a rest =>
      if Ascii.eqb a c then EmptyString :: split c rest
      else match split c rest with
           | piece :: more => String a piece :: more
           | [] => [String a EmptyString]
           end
  end.

(** Lines 122-124: [process.env.CORS_ORIGIN ? process.env.CORS_ORIGIN.split(',')
    : ['http://localhost:3000', 'http://localhost:5500']]. *)
Definition corsOrigins (CORS_ORIGIN : option string) : list string :=
  match CORS_ORIGIN with
  | Some s =>
      if s =? "" then ["http://localhost:3000"; "http://localhost:5500"]
      else split "," s
  | None => ["http://localhost:3000"; "http://localhost:5500"]
  end.

(* ------------------------------------------------------------------ *)
(** ** GET /api/download                                               *)
(* ------------------------------------------------------------------ *)

(** The characters [/[^a-zA-Z0-9._-]/] leaves in place. *)
Definition isFileNameChar (c : ascii) : bool :=
  let n := nat_of_ascii c in
  ((97 <=? n)%nat && (n <=? 122)%nat)
  || ((65 <=? n)%nat && (n <=? 90)%nat)
  || ((48 <=? n)%nat && (n <=? 57)%nat)
  || Ascii.eqb c "." || Ascii.eqb c "_" || Ascii.eqb c "-".

(** [filename.replace(/[^a-zA-Z0-9._-]/g, '_')]. *)
Fixpoint safeFilename (filename : string) : string :=
  match filename with
  | EmptyString => EmptyString
  | String c rest =>
      String (if isFileNameChar c then c else "_"%char) (safeFilename rest)
  end.

(** What a handler calls on [res] and on the console, in order. *)
Inductive call : Type :=
| SetHeader (name : string) (value : json)
| Status (code : nat)
| Json (body : json)
| Send (buffer : list ascii)
| LogError (label : string).

Definition imagePrefix : string := "data:image/png;base64,".

Definition refusal (message : string) : list call :=
  [Status 400; Json (JObj [("success", JBool false); ("error", JStr message)])].

Section Download.

(** [Buffer.from(text, 'base64')], the decoder of the platform, is taken as
    given. *)
Variable fromBase64 : string -> list ascii.

(** The body of the [try] block (lines 651-684): the calls it makes, and
    the exception that ends it, if any.  [query] holds the own properties
    of [req.query]. *)
Definition downloadBody (query : list (string * json))
  : list call * option exn :=
  let url := lookup "url" query in
  let filename := match lookup "filename" query with
                  | Some v => v
                  | None => JStr "carbon-code.png"
                  end in
  if negb (truthy_opt url) then (refusal "Invalid image URL", None)
  else
    match url with
    | Some (JStr url) =>
        if negb (prefix imagePrefix url) then (refusal "Invalid image URL", None)
        else
          match nth_error (split "," url) 1 with
          | None => (refusal "Invalid base64 data", None)
          | Some base64Data =>
              if base64Data =? "" then (refusal "Invalid base64 data", None)
              else
                let buffer := fromBase64 base64Data in
                if (List.length buffer <? 8)%nat
                then (refusal "Invalid image data", None)
                else
                  match filename with
                  | JStr filename =>
                      ([SetHeader "Content-Type" (JStr "image/png");
                        SetHeader "Content-Disposition"
                          (JStr ("attachment; filename=" ++ dq
                                 ++ safeFilename filename ++ dq));
                        SetHeader "Content-Length"
                          (JNum (Z.of_nat (List.length buffer)));
                        SetHeader "Cache-Control" (JStr "no-store");
                        Send buffer], None)
                  | _ =>
                      (* filename.replace is not a function *)
                      ([SetHeader "Content-Type" (JStr "image/png")],
                       Some TypeError)
                  end
          end
    | _ => ([], Some TypeError)   (* url.startsWith is not a function *)
    end.

(** The handler: the [try] block, and the [catch] block after an
    exception. *)
Definition download (query : list (string * json)) : list call :=
  match downloadBody query with
  | (calls, None) => calls
  | (calls, Some _) =>
      (calls ++ [LogError "Download error:"; Status 500;
                 Json (JObj [("success", JBool false);
                             ("error", JStr "Download failed")])])%list
  end.

End Download.

(** The data of a download that was served: the buffer sent. *)
Fixpoint sentBuffer (calls : list call) : option (list ascii) :=
  match calls with
  | [] => None
  | Send buffer :: _ => Some buffer
  | _ :: rest => sentBuffer rest
  end.

Fixpoint headerOf (name : string) (calls : list call) : option json :=
  match calls with
  | [] => None
  | SetHeader n v :: rest => if n =? name then Some v else headerOf name rest
  | _ :: rest => headerOf name rest
  end.

Fixpoint statusOf (calls : list call) : option nat :=
  match calls with
  | [] => None
  | Status code :: _ => Some code
  | _ :: rest => statusOf rest
  end.

(* ------------------------------------------------------------------ *)
(** ** The life of the server: initRedis, initBrowser, shutdown        *)
(* ------------------------------------------------------------------ *)

(** The fields of the instance the handlers read. *)
Record Generator : Type := {
  this_redisClient : bool;      (* this.redisClient is not null *)
  this_browser : bool;          (* this.browser is not null *)
  this_isBrowserReady : bool
}.

(** The state the constructor leaves before the two asynchronous
    initialisations run (lines 25-27). *)
Definition constructed : Generator :=
  {| this_redisClient := false; this_browser := false;
     this_isBrowserReady := false |}.

(** What the three methods do to the outside, in order.  The texts of the
    console are given without the pictograph that starts them in the
    source. *)
Inductive lifeEvent : Type :=
| Logged (text : string)
| Warned (text : string)
| Errored (label : string)
| BrowserClosed            (* this.browser.close() was called *)
| RedisQuit                (* this.redisClient.quit() was called *)
| Exited (code : Z).

(** Lines 36-54.  [createClient] may throw; [connect] may reject, after
    the client was stored. *)
Definition initRedis (REDIS_URL : option string)
    (createClientThrows connectRejects : bool) (this : Generator)
  : Generator * list lifeEvent :=
  match REDIS_URL with
  | None => (this, [])
  | Some url =>
      if url =? "" then (this, [])
      else if createClientThrows
      then (this, [Warned "Redis connection failed, using memory cache"])
      else
        let this := {| this_redisClient := true;
                       this_browser := this_browser this;
                       this_isBrowserReady := this_isBrowserReady this |} in
        if connectRejects
        then (this, [Warned "Redis connection failed, using memory cache"])
        else (this, [Logged "Redis connected successfully"])
  end.

(** Lines 56-104.  [puppeteer] tells whether the module was loaded. *)
Definition initBrowser (puppeteer launchRejects : bool) (this : Generator)
  : Generator * list lifeEvent :=
  if negb puppeteer
  then (this, [Warned "Puppeteer not available, running in API-only mode"])
  else if launchRejects
  then ({| this_redisClient := this_redisClient this;
           this_browser := this_browser this;
           this_isBrowserReady := false |},
        [Errored "Failed to launch browser:"])
  else ({| this_redisClient := this_redisClient this;
           this_browser := true;
           this_isBrowserReady := true |},
        [Logged "Browser instance ready"]).

(** Lines 745-757.  A rejected [close] or [quit] is handed to
    [console.error] by the [catch] on its promise. *)
Definition shutdown (closeRejects quitRejects : bool) (this : Generator)
  : list lifeEvent :=
  ([Logged "Shutting down gracefully..."]
   ++ (if this_browser this
       then BrowserClosed :: (if closeRejects then [Errored ""] else [])
       else [])
   ++ (if this_redisClient this
       then RedisQuit :: (if quitRejects then [Errored ""] else [])
       else [])
   ++ [Exited 0])%list.

(** The calls among the events, without what was written to the console. *)
Fixpoint withoutConsole (events : list lifeEvent) : list lifeEvent :=
  match events with
  | [] => []
  | (Logged _ | Warned _ | Errored _) :: rest => withoutConsole rest
  | e :: rest => e :: withoutConsole rest
  end.

(** A request sees the instance through the flags of its [Env]. *)
Definition serves (this : Generator) (env : Env) : Prop :=
  redisClient env = this_redisClient this
  /\ browser env = this_browser this
  /\ isBrowserReady env = this_isBrowserReady this.

(* ------------------------------------------------------------------ *)
(** ** Auxiliary definitions of the proofs                             *)
(* ------------------------------------------------------------------ *)

Definition headFails (p : ascii -> bool) (k : string) : Prop :=
  match k with
  | EmptyString => True
  | String c _ => p c = false
  end.

Definition isScalar (p : N) : Prop := (p < 0x110000)%N.

(** One code point read back from its UTF-8 bytes. *)
Definition utf8Decode1 (bytes : list ascii) : option (N * list ascii) :=
  match bytes with
  | [] => None
  | b0 :: rest =>
      let n0 := N_of_ascii b0 in
      (if n0 <? 0x80 then Some (n0, rest)
       else if n0 <? 0xE0 then
         match rest with
         | b1 :: r => Some ((n0 - 0xC0) * 0x40 + (N_of_ascii b1 - 0x80), r)
         | _ => None
         end
       else if n0 <? 0xF0 then
         match rest with
         | b1 :: b2 :: r =>
             Some ((n0 - 0xE0) * 0x1000 + (N_of_ascii b1 - 0x80) * 0x40
                   + (N_of_ascii b2 - 0x80), r)
         | _ => None
         end
       else
         match rest with
         | b1 :: b2 :: b3 :: r =>
             Some ((n0 - 0xF0) * 0x40000 + (N_of_ascii b1 - 0x80) * 0x1000
                   + (N_of_ascii b2 - 0x80) * 0x40 + (N_of_ascii b3 - 0x80), r)
         | _ => None
         end)%N
  end.

Definition isBase64Digit (c : ascii) : bool := includesChar c base64Alphabet.

Fixpoint indexOf (c : ascii) (s : string) : nat :=
  match s with
  | EmptyString => 0
  | String a rest => if Ascii.eqb a c then 0 else S (indexOf c rest)
  end.

Definition notColon (c : ascii) : bool := negb (Ascii.eqb c ":").

Definition isNumChar (c : ascii) : bool := isDigit c || Ascii.eqb c "-".

(** One quoted character, read back. *)
Definition hexValue (c : ascii) : nat := indexOf c "0123456789abcdef".

Definition unquoteChar (s : string) : option (ascii * string) :=
  match s with
  | EmptyString => None
  | String c r =>
      if Ascii.eqb c (chr 34) then None
      else if Ascii.eqb c "\" then
        match r with
        | String e r' =>
            if Ascii.eqb e "u" then
              match r' with
              | String _ (String _ (String h1 (String h2 r''))) =>
                  Some (ascii_of_nat (16 * hexValue h1 + hexValue h2), r'')
              | _ => None
              end
            else if Ascii.eqb e "b" then Some (chr 8, r')
            else if Ascii.eqb e "f" then Some (chr 12, r')
            else if Ascii.eqb e "n" then Some (chr 10, r')
            else if Ascii.eqb e "r" then Some (chr 13, r')
            else if Ascii.eqb e "t" then Some (chr 9, r')
            else Some (e, r')
        | EmptyString => None
        end
      else Some (c, r)
  end.

Definition follow (k : string) : Prop := headFails isNumChar k.

(** A printer is prefix-free at [x] when the text of [x], followed by
    anything that does not continue a number, determines [x]. *)
Definition prefixFree {A} (pr : A -> string) (x : A) : Prop :=
  forall y k1 k2, follow k1 -> follow k2 ->
    pr x ++ k1 = pr y ++ k2 -> x = y /\ k1 = k2.

Definition headTag (s : string) : nat :=
  match s with
  | EmptyString => 0
  | String c _ =>
      if Ascii.eqb c "n" then 1
      else if Ascii.eqb c "t" then 2
      else if Ascii.eqb c "f" then 3
      else if isNumChar c then 4
      else if Ascii.eqb c (chr 34) then 5
      else if Ascii.eqb c "[" then 6
      else if Ascii.eqb c "{" then 7
      else 8
  end.

Definition tagOf (v : json) : nat :=
  match v with
  | JNull => 1
  | JBool true => 2
  | JBool false => 3
  | JNum _ => 4
  | JStr _ => 5
  | JArr _ => 6
  | JObj _ => 7
  end.

(** The printer of [JSON.stringify] on a value whose objects list their
    properties in the order of enumeration. *)
Fixpoint printJSON (v : json) : string :=
  match v with
  | JNull => "null"
  | JBool true => "true"
  | JBool false => "false"
  | JNum n => Z_to_string n
  | JStr s => quote s
  | JArr items => "[" ++ join "," (map printJSON items) ++ "]"
  | JObj props =>
      "{" ++ join "," (map (fun kv => quote (fst kv) ++ ":" ++ printJSON (snd kv))
                           props) ++ "}"
  end.

Definition entryText (kv : string * json) : string :=
  quote (fst kv) ++ ":" ++ printJSON (snd kv).


(** The writes to the cache store among the events of a request. *)
Fixpoint cacheWrites (t : list event) : list (string * string * Z) :=
  match t with
  | [] => []
  | RedisSet key value ttl :: rest => (key, value, ttl) :: cacheWrites rest
  | _ :: rest => cacheWrites rest
  end.

(** The clips of the screenshots among the events of a request. *)
Fixpoint screenshots (t : list event) : list Clip :=
  match t with
  | [] => []
  | Screenshot clip :: rest => clip :: screenshots rest
  | _ :: rest => screenshots rest
  end.

(** The documents handed to the page among the events of a request. *)
Fixpoint contents (t : list event) : list string :=
  match t with
  | [] => []
  | SetContent html :: rest => html :: contents rest
  | _ :: rest => contents rest
  end.

(** A text with each tab written as four spaces. *)
Definition expandTabs (s : string) : string := replaceAll TAB "    " s.

Definition notTab (c : ascii) : bool := negb (Ascii.eqb c TAB).

(** One token of an escaped text, read back. *)
Definition unescape1 (s : string) : option (ascii * string) :=
  match s with
  | EmptyString => None
  | String c rest =>
      if Ascii.eqb c "&" then
        match stripPrefix "amp;" rest, stripPrefix "lt;" rest,
              stripPrefix "gt;" rest, stripPrefix "quot;" rest,
              stripPrefix "#039;" rest, stripPrefix "nbsp;" rest with
        | Some r, _, _, _, _, _ => Some ("&"%char, r)
        | _, Some r, _, _, _, _ => Some ("<"%char, r)
        | _, _, Some r, _, _, _ => Some (">"%char, r)
        | _, _, _, Some r, _, _ => Some (chr 34, r)
        | _, _, _, _, Some r, _ => Some ("'"%char, r)
        | _, _, _, _, _, Some r => Some (" "%char, r)
        | _, _, _, _, _, _ => None
        end
      else if Ascii.eqb c "<" then
        match stripPrefix "br>" rest with
        | Some r => Some (LF, r)
        | None => None
        end
      else Some (c, rest)
  end.



(** The characters of a sanitised file name that could end a quoted
    header value or a header line. *)
Definition endsHeaderValue (c : ascii) : bool :=
  Ascii.eqb c (chr 34) || Ascii.eqb c CR || Ascii.eqb c LF
  || Ascii.eqb c "/" || Ascii.eqb c "\".

(** A field of the request that is absent or holds a string. *)
Definition textOrAbsent (v : option json) : bool :=
  match v with
  | None | Some (JStr _) => true
  | Some _ => false
  end.

(** A field that is absent, or holds a string of which [ok] holds. *)
Definition absentOr (ok : string -> bool) (v : option json) : bool :=
  match v with
  | None => true
  | Some (JStr s) => ok s
  | Some _ => false
  end.

Definition isTheme (t : string) : bool :=
  existsb (String.eqb t) ["dark"; "light"; "solarized"].

Definition isPageOpened (e : event) : bool :=
  match e with
  | PageOpened => true
  | _ => false
  end.

Definition isRedisCall (e : event) : bool :=
  match e with
  | RedisGet _ | RedisSet _ _ _ => true
  | _ => false
  end.

Definition isObject (v : json) : bool :=
  match v with
  | JObj _ => true
  | _ => false
  end.

(* ------------------------------------------------------------------ *)
(** ** A base64 decoder                                                *)
(* ------------------------------------------------------------------ *)

(** [Buffer.from(text, 'base64')] as the platform documents it: the digits
    of the standard and of the URL-safe alphabet count, other characters
    are skipped, and the text ends at the first [=]. *)
Definition base64Value (c : ascii) : option nat :=
  if Ascii.eqb c "-" then Some 62%nat
  else if Ascii.eqb c "_" then Some 63%nat
  else if isBase64Digit c then Some (indexOf c base64Alphabet)
  else None.

Fixpoint sextets (text : string) : list nat :=
  match text with
  | EmptyString => []
  | String c rest =>
      if Ascii.eqb c "=" then []
      else match base64Value c with
           | Some v => v :: sextets rest
           | None => sextets rest
           end
  end.

Fixpoint bytesOfSextets (l : list nat) : list ascii :=
  match l with
  | a :: b :: c :: d :: rest =>
      ascii_of_nat (a * 4 + b / 16)
      :: ascii_of_nat ((b mod 16) * 16 + c / 4)
      :: ascii_of_nat ((c mod 4) * 64 + d)
      :: bytesOfSextets rest
  | [a; b; c] =>
      [ascii_of_nat (a * 4 + b / 16); ascii_of_nat ((b mod 16) * 16 + c / 4)]
  | [a; b] => [ascii_of_nat (a * 4 + b / 16)]
  | _ => []
  end.

Definition decodeBase64 (text : string) : list ascii :=
  bytesOfSextets (sextets text).

(* ------------------------------------------------------------------ *)
(** ** Closed scenarios                                                *)
(* ------------------------------------------------------------------ *)

(** Stand-ins for the two library functions the server takes as given. *)
Definition parseFails (text : string) : outcome json := Throw SyntaxError.

Definition emptyTexts (v : json) : string := "".

(** An entry as a former render left it in the store. *)
Definition storedEntry : json :=
  JObj [("success", JBool true);
        ("image", JStr "data:image/png;base64,iVBORw0KGgo=");
        ("dimensions", JObj [("width", JNum 900); ("height", JNum 300)]);
        ("cached", JBool false);
        ("timestamp", JStr "2024-05-01T12:00:00.000Z")].

Definition parseStored (text : string) : outcome json := Ok storedEntry.

(** A card 900 wide and a little over 2000 high. *)
Definition tallRect : DOMRect :=
  {| rect_x := 150; rect_y := 81 # 2; rect_width := 900; rect_height := 8001 # 4 |}.

(** Collaborators that answer without failing, up to the measurement of the
    card, which answers [measured]; the cache store and the browser are
    present or not. *)
Definition scenarioMeasuring (measured : outcome (option DOMRect))
    (withRedis withBrowser : bool) : Env :=
  {| redisClient := withRedis;
     redisGetRejects := fun _ => false;
     redisSetRejects := fun _ => false;
     isBrowserReady := withBrowser;
     browser := withBrowser;
     newPageRejects := false;
     setContentRejects := fun _ => false;
     waitForFunctionRejects := false;
     boundingRect := measured;
     screenshotResult := fun _ => Ok "iVBORw0KGgo=";
     closeRejects := false;
     clock := fun _ => "2024-06-01T08:00:00.000Z";
     development := false;
     engineMessage := fun _ => "" |}.

Definition scenario : bool -> bool -> Env :=
  scenarioMeasuring (Ok (Some tallRect)).

(** The kinds of the events of a trace, without their payloads. *)
Definition eventKind (e : event) : string :=
  match e with
  | RedisGet _ => "get"
  | RedisSet _ _ _ => "set"
  | ConsoleLog _ => "log"
  | ConsoleError _ => "error"
  | PageOpened => "newPage"
  | SetContent _ => "setContent"
  | WaitForFunction => "waitForFunction"
  | Evaluate => "evaluate"
  | Screenshot _ => "screenshot"
  | PageClose => "close"
  end.

Definition sampleCode : string := "console.log('hi')".

Definition sampleBody : json :=
  JObj [("code", JStr sampleCode); ("options", JObj [("theme", JStr "light")])].

Definition sampleHtml : string :=
  match generateHTMLTemplate upperAscii fixedMinHeight (Some (JStr sampleCode))
          (Some (JObj [("theme", JStr "light")])) with
  | Ok html => html
  | Throw _ => ""
  end.

Fixpoint repeatChar (c : ascii) (n : nat) : string :=
  match n with
  | O => EmptyString
  | S n' => String c (repeatChar c n')
  end.

Definition bodyOf (code : string) : json := JObj [("code", JStr code)].

Definition emptyStore (key : string) : option string := None.

Definition fullStore (key : string) : option string := Some "{}".

(** The eight bytes that start a PNG file; their base64 text is the
    screenshot of the scenarios. *)
Definition pngSignature : list ascii :=
  map ascii_of_nat [137; 80; 78; 71; 13; 10; 26; 10]%nat.

(** A request whose options are null. *)
Definition nullOptionsBody : json :=
  JObj [("code", JStr sampleCode); ("options", JNull)].
Section Server.

Variable toUpperCase : string -> string.
Variable lineMinHeight : string -> string -> string.

(** [JSON.parse], and the text express-validator hands to its standard
    validators for a value that is not a string: both are taken as
    given. *)
Variable JSON_parse : string -> outcome json.
Variable elementText : json -> string.

Variable env : Env.

(* ------------------------------------------------------------------ *)
(** *** Collaborators *)
(* ------------------------------------------------------------------ *)

Definition now : M string :=
  fun w => (Ok (clock env (ticks w)),
            {| store := store w; livePages := livePages w;
               ticks := S (ticks w); trace := trace w |}).

Definition redis_get (key : string) : M (option string) :=
  (emit (RedisGet key) ;;
   if redisGetRejects env key then throw (ExternalError "redis")
   else fun w => (Ok (store w key), w))%M.

Definition redis_set (key value : string) (ttl : Z) : M unit :=
  (emit (RedisSet key value ttl) ;;
   if redisSetRejects env key then throw (ExternalError "redis")
   else fun w =>
     (Ok tt, {| store := fun k => if k =? key then Some value else store w k;
                livePages := livePages w; ticks := ticks w;
                trace := trace w |}))%M.

Definition browser_newPage : M unit :=
  if newPageRejects env then throw (ExternalError "newPage")
  else fun w =>
    (Ok tt, {| store := store w; livePages := S (livePages w);
               ticks := ticks w; trace := (trace w ++ [PageOpened])%list |}).

Definition page_setContent (html : string) : M unit :=
  (emit (SetContent html) ;;
   if setContentRejects env html then throw (ExternalError "setContent")
   else ret tt)%M.

Definition page_waitForFunction : M unit :=
  (emit WaitForFunction ;;
   if waitForFunctionRejects env then throw (ExternalError "TimeoutError")
   else ret tt)%M.

(** The function evaluated in the page (lines 581-591). *)
Definition measure (element : option DOMRect) : option Dimensions :=
  match element with
  | None => None
  | Some rect =>
      Some {| dim_x := Qfloor (rect_x rect);
              dim_y := Qfloor (rect_y rect);
              dim_width := Qceiling (rect_width rect);
              dim_height := Qceiling (rect_height rect) |}
  end.

Definition page_evaluate : M (option Dimensions) :=
  (emit Evaluate ;;
   element <- lift (boundingRect env) ;;
   ret (measure element))%M.

(** [page.screenshot(options)].  Puppeteer checks the options before it
    asks the browser for the image: [quality] goes with the types jpeg and
    webp only, and the call is rejected when it is given with another
    type.  (The text of the error varies with the version of the
    library.) *)
Definition page_screenshot (options : ScreenshotOptions) : M string :=
  (emit (Screenshot (shot_clip options)) ;;
   match shot_quality options with
   | Some _ =>
       if (shot_type options =? "jpeg") || (shot_type options =? "webp")
       then lift (screenshotResult env (shot_clip options))
       else throw (Error ("options.quality is unsupported for the "
                          ++ shot_type options ++ " screenshots"))
   | None => lift (screenshotResult env (shot_clip options))
   end)%M.

Definition page_close : M unit :=
  (emit PageClose ;;
   if closeRejects env then throw (ExternalError "close")
   else fun w =>
     (Ok tt, {| store := store w; livePages := pred (livePages w);
                ticks := ticks w; trace := trace w |}))%M.

(* ------------------------------------------------------------------ *)
(** *** getFromCache, setToCache *)
(* ------------------------------------------------------------------ *)

(** The result is [JNull] where the source returns [null]. *)
Definition getFromCache (key : string) : M json :=
  if negb (redisClient env) then ret JNull
  else
    try_catch
      (cached <- redis_get key ;;
       match cached with
       | Some text => if text =? "" then ret JNull else lift (JSON_parse text)
       | None => ret JNull
       end)%M
      (fun error => emit (ConsoleError "Cache read error:") ;; ret JNull)%M.

Definition setToCache (key : string) (value : json) (ttl : Z) : M bool :=
  if negb (redisClient env) then ret false
  else
    try_catch
      (redis_set key (JSON_stringify value) ttl ;; ret true)%M
      (fun error => emit (ConsoleError "Cache write error:") ;; ret false)%M.

Definition defaultTtl : Z := 3600.

(* ------------------------------------------------------------------ *)
(** *** The validators of POST /api/generate *)
(* ------------------------------------------------------------------ *)

(** The values a standard validator checks for a field: the elements of
    an array one by one, any other field as it is. *)
Definition itemsOf (v : option json) : list (option json) :=
  match v with
  | Some (JArr items) => map Some items
  | _ => [v]
  end.

(** The text a standard validator checks for a value. *)
Definition textOf (item : option json) : string :=
  match item with
  | None => ""
  | Some (JStr s) => s
  | Some other => elementText other
  end.

(** The errors of one standard validator: one for each value that fails,
    reported with that value. *)
Definition failing (path msg : string) (v : option json)
    (ok : string -> bool) : list FieldError :=
  flat_map (fun item => if ok (textOf item) then []
                        else [{| err_path := path; err_msg := msg;
                                 err_value := item |}])
           (itemsOf v).

(** [body('code').notEmpty()...isString()...isLength({ max: 10000 })...] *)
Definition validateCode (code : option json) : list FieldError :=
  (failing "code" "Code is required" code (fun t => negb (t =? ""))
   ++ match code with
      | Some (JStr _) => []
      | _ => [{| err_path := "code"; err_msg := "Code must be a string";
                 err_value := code |}]
      end
   ++ failing "code" "Code too long (max 10000 chars)" code
        (fun t => (String.length t <=? maxCodeLength)%nat))%list.

(** [.optional()]: an undefined field is not validated. *)
Definition validateOptional (path msg : string) (v : option json)
    (ok : string -> bool) : list FieldError :=
  match v with
  | None => []
  | Some _ => failing path msg v ok
  end.

(** The property [name] of the options of the body, when the options are
    an object that holds it. *)
Definition optionField (body : json) (name : string) : option json :=
  match getProp body "options" with
  | Some options => getProp options name
  | None => None
  end.

(** The field a chain [body('options.' + name)] validates.
    express-validator reads it with lodash's [get], which takes the whole
    path for a property name when the body has a property of that name,
    and follows the path through [options] otherwise. *)
Definition validatedField (body : json) (name : string) : option json :=
  match getProp body ("options." ++ name) with
  | Some v => Some v
  | None => optionField body name
  end.

(** The three chains on [options.theme], [options.fontSize] and
    [options.padding]. *)
Definition validateOptions (body : json) : list FieldError :=
  (validateOptional "options.theme" "Invalid theme"
     (validatedField body "theme")
     (fun t => existsb (String.eqb t) ["dark"; "light"; "solarized"])
   ++ validateOptional "options.fontSize" "Invalid font size format"
        (validatedField body "fontSize") matchesCssLength
   ++ validateOptional "options.padding" "Invalid padding format"
        (validatedField body "padding") matchesCssLength)%list.

Definition validationResult (body : json) : list FieldError :=
  (validateCode (getProp body "code") ++ validateOptions body)%list.

(* ------------------------------------------------------------------ *)
(** *** POST /api/generate *)
(* ------------------------------------------------------------------ *)

Definition unavailable : Response :=
  {| status := 503;
     body := JObj [("success", JBool false);
                   ("error", JStr "Image generation service is temporarily unavailable");
                   ("fallback", JBool true)] |}.

Definition renderResult (screenshot : string) (dimensions : Dimensions)
    (timestamp : string) : json :=
  JObj [("success", JBool true);
        ("image", JStr ("data:image/png;base64," ++ screenshot));
        ("dimensions", JObj [("width", JNum (dim_width dimensions));
                             ("height", JNum (dim_height dimensions))]);
        ("cached", JBool false);
        ("timestamp", JStr timestamp)].

(** The [clip] of the screenshot (lines 601-606). *)
Definition clipOf (dimensions : Dimensions) : Clip :=
  {| clip_x := dim_x dimensions;
     clip_y := dim_y dimensions;
     clip_width := Z.min (dim_width dimensions) 1920;
     clip_height := Z.min (dim_height dimensions) 1080 |}.

(** The argument of [page.screenshot] (lines 598-609). *)
Definition screenshotOptions (dimensions : Dimensions) : ScreenshotOptions :=
  {| shot_type := "png";
     shot_encoding := "base64";
     shot_clip := clipOf dimensions;
     shot_omitBackground := false;
     shot_quality := Some 100%Z |}.

(** Lines 563-633: the page is declared before the inner [try]; when
    [newPage] rejects it is still undefined and the [catch] block only
    rethrows. *)
Definition renderPage (code : string) (options : json) (key : string)
  : M Response :=
  (p <- try_catch (browser_newPage ;; ret (@None exn))
                  (fun e => ret (Some e)) ;;
   match p with
   | Some pageError => throw pageError
   | None =>
     try_catch
       (html <- lift (generateHTMLTemplate toUpperCase lineMinHeight
                        (Some (JStr code)) (Some options)) ;;
        page_setContent html ;;
        page_waitForFunction ;;
        dimensions <- page_evaluate ;;
        match dimensions with
        | None => throw (Error "Could not find code container")
        | Some dimensions =>
            screenshot <- page_screenshot (screenshotOptions dimensions) ;;
            page_close ;;
            timestamp <- now ;;
            let result := renderResult screenshot dimensions timestamp in
            setToCache key result defaultTtl ;;
            ret {| status := 200; body := result |}
        end)
       (fun pageError =>
          try_catch page_close (fun _ => ret tt) ;;
          throw pageError)
   end)%M.

Definition internalError (error : exn) (timestamp : string) : Response :=
  {| status := 500;
     body := JObj ([("success", JBool false);
                    ("error", JStr "Failed to generate image")]
                   ++ (if development env
                       then [("message", JStr (engineMessage env error))]
                       else [])
                   ++ [("timestamp", JStr timestamp)])%list |}.

(** [options] of [const { code, options = {} } = req.body]. *)
Definition optionsOf (reqBody : json) : json :=
  match getProp reqBody "options" with
  | Some o => o
  | None => JObj []
  end.

Definition generate (reqBody : json) : M Response :=
  try_catch
    (let errors := validationResult reqBody in
     match errors with
     | _ :: _ =>
         ret {| status := 400;
                body := JObj [("success", JBool false);
                              ("errors", JArr (map errorJson errors))] |}
     | [] =>
         let options := optionsOf reqBody in
         match getProp reqBody "code" with
         | Some (JStr code) =>
             let key := cacheKey code options in
             cached <- getFromCache key ;;
             if truthy cached then
               timestamp <- now ;;
               ret {| status := 200;
                      body := JObj (setProp "timestamp" (JStr timestamp)
                                      (setProp "cached" (JBool true)
                                         (ownEntries cached))) |}
             else if negb (isBrowserReady env) || negb (browser env) then
               ret unavailable
             else
               emit (ConsoleLog ("Generating image for code ("
                                 ++ Z_to_string (Z.of_nat (String.length code))
                                 ++ " chars)")) ;;
               renderPage code options key
         | _ =>
             (* not reached: a body that passes validation has a string code *)
             throw TypeError
         end
     end)%M
    (fun error =>
       emit (ConsoleError "Generation error:") ;;
       timestamp <- now ;;
       ret (internalError error timestamp))%M.

(* ------------------------------------------------------------------ *)
(** *** POST /api/generate/fallback *)
(* ------------------------------------------------------------------ *)

Definition fallback (reqBody : json) : M Response :=
  let code := getProp reqBody "code" in
  if negb (truthy_opt code) then
    ret {| status := 400;
           body := JObj [("success", JBool false);
                         ("error", JStr "Code is required")] |}
  else
    match code with
    | Some (JStr code) =>
        (timestamp <- now ;;
         ret {| status := 200;
                body := JObj [("success", JBool true);
                              ("message", JStr "Fallback mode active. Install Puppeteer for image generation.");
                              ("codePreview",
                               JStr (take 200 code
                                     ++ (if (200 <? String.length code)%nat
                                         then "..." else "")));
                              ("length", JNum (Z.of_nat (String.length code)));
                              ("timestamp", JStr timestamp)] |})%M
    | _ => throw TypeError   (* code.substring is not a function *)
    end.

(** What the cache answers for a key in a world. *)
Definition cachedValue (key : string) (w : World) : json :=
  match fst (getFromCache key w) with
  | Ok v => v
  | Throw _ => JNull
  end.

(* ------------------------------------------------------------------ *)
(** *** GET /api/health *)
(* ------------------------------------------------------------------ *)

Definition health : M Response :=
  (timestamp <- now ;;
   ret {| status := 200;
          body := JObj [("status", JStr "OK");
                        ("timestamp", JStr timestamp);
                        ("service", JStr "carbon-generator");
                        ("version", JStr "1.0.0");
                        ("browser", JStr (if isBrowserReady env
                                          then "ready" else "not-ready"));
                        ("cache", JStr (if redisClient env
                                        then "connected" else "disabled"))] |})%M.

(* ------------------------------------------------------------------ *)
(** *** The global error handler *)
(* ------------------------------------------------------------------ *)

(** Lines 732-742.  [NODE_ENV] is the variable of the environment,
    [errStatus] is [err.status] ([None] when the error has none, as an
    error thrown by the engine). *)
Definition errorHandler (NODE_ENV : option string) (errStatus : option Z)
    (err : exn) : M Response :=
  (emit (ConsoleError "Unhandled error:") ;;
   timestamp <- now ;;
   ret {| status := match errStatus with
                    | Some n => if (n =? 0)%Z then 500 else Z.to_nat n
                    | None => 500
                    end;
          body := JObj [("success", JBool false);
                        ("error",
                         JStr (match NODE_ENV with
                               | Some mode =>
                                   if mode =? "production"
                                   then "Internal server error"
                                   else engineMessage env err
                               | None => engineMessage env err
                               end));
                        ("timestamp", JStr timestamp)] |})%M.

(** A synchronous handler as the application runs it: what it throws is
    handed to the error handler. *)
Definition dispatched (NODE_ENV : option string) (handler : M Response)
  : M Response :=
  try_catch handler (fun err => errorHandler NODE_ENV None err).

(* ------------------------------------------------------------------ *)
(** *** Properties of the cache helpers and of the handlers *)
(* ------------------------------------------------------------------ *)

(** Unfolds a handler down to the answers of its collaborators. *)
Ltac unfold_M :=
  unfold generate, renderPage, getFromCache, setToCache,
    redis_get, redis_set,
    browser_newPage, page_setContent, page_waitForFunction, page_evaluate,
    page_screenshot, page_close, now, emit, try_catch, bind, ret, throw, lift
    in *;
  cbn [screenshotOptions shot_quality shot_type shot_clip
       String.eqb Ascii.eqb Bool.eqb orb] in *.

(** Splits on the next answer the goal depends on. *)
Ltac branch :=
  match goal with
  | |- context [match ?x with _ => _ end] =>
      lazymatch type of x with
      | prod _ _ => fail
      | _ => idtac
      end;
      lazymatch x with
      | context [trace] => fail
      | _ => destruct x eqn:?
      end
  end.

(** Runs the handler down every path, leaving one goal for each. *)
Ltac every_path reqBody :=
  unfold_M;
  let Hv := fresh "Hv" in
  let Hc := fresh "Hc" in
  destruct (validationResult reqBody) eqn:Hv;
    [destruct (getProp reqBody "code") as [[| | |?code| |]|] eqn:Hc|];
  repeat (branch; cbn [fst snd store livePages ticks trace] in * );
  try match goal with
      | H : truthy JNull = true |- _ => discriminate H
      end.

(** C3: whatever the collaborators answer, the handler returns a
    response; in the events of the request every opening of a page is
    followed by a call of [page.close()], and when that call fulfils, as
    many pages are live after the request as before it. *)
Theorem page_closed_on_every_path (reqBody : json) (w : World) :
  exists response w' events,
    generate reqBody w = (Ok response, w')
    /\ trace w' = (trace w ++ events)%list
    /\ closedAfterOpen events = true
    /\ (closeRejects env = false -> livePages w' = livePages w).
Proof.
  unfold_M.
  destruct (validationResult reqBody) eqn:Hv;
    [destruct (getProp reqBody "code") as [[| | |code| |]|] eqn:Hc|].
  all: repeat (branch; cbn [fst snd store livePages ticks trace] in * ).
  all: try match goal with
           | H : truthy JNull = true |- _ => discriminate H
           end.
  all: rewrite <- ?List.app_assoc.
  all: eexists; eexists; eexists.
  all: (split; [reflexivity|]).
  all: cbn [fst snd store livePages ticks trace].
  all: split; [first [reflexivity | symmetry; apply List.app_nil_r]|].
  all: split; [reflexivity|].
  all: intros Hclose; try discriminate Hclose; try reflexivity.
Qed.

(** A body that passes validation carries a non-empty string of at most
    10000 characters as its code: the last branch of the handler's match
    on the code is never taken. *)
Lemma valid_code (reqBody : json) :
  validationResult reqBody = [] ->
  exists code, getProp reqBody "code" = Some (JStr code)
               /\ code <> "" /\ (String.length code <= maxCodeLength)%nat.
Proof.
  unfold validationResult, validateCode. intros H.
  apply app_eq_nil in H. destruct H as [H _].
  apply app_eq_nil in H. destruct H as [H1 H].
  apply app_eq_nil in H. destruct H as [H2 H3].
  destruct (getProp reqBody "code") as [[| | |code| |]|]; try discriminate H2.
  exists code. split; [reflexivity|].
  unfold failing in H1, H3. cbn [itemsOf textOf flat_map] in H1, H3.
  rewrite List.app_nil_r in H1, H3. split.
  - intros ->. discriminate H1.
  - destruct (String.length code <=? maxCodeLength)%nat eqn:E; [|discriminate H3].
    now apply Nat.leb_le.
Qed.

Lemma lookup_setProp_eq (k : string) (v : json) (props : list (string * json)) :
  lookup k (setProp k v props) = Some v.
Proof.
  induction props as [|[k' v'] props IH]; cbn [setProp lookup].
  - now rewrite String.eqb_refl.
  - destruct (k' =? k) eqn:E; cbn [lookup].
    + now rewrite String.eqb_refl.
    + now rewrite E.
Qed.

Lemma lookup_setProp_neq (k k2 : string) (v : json) (props : list (string * json)) :
  k <> k2 -> lookup k2 (setProp k v props) = lookup k2 props.
Proof.
  intros Hne. apply String.eqb_neq in Hne.
  induction props as [|[k' v'] props IH]; cbn [setProp lookup].
  - now rewrite Hne.
  - destruct (k' =? k) eqn:E; cbn [lookup].
    + apply String.eqb_eq in E. subst k'. now rewrite Hne.
    + now rewrite IH.
Qed.

(** The cache helpers always return. *)
Lemma getFromCache_returns (key : string) (w : World) :
  exists v w', getFromCache key w = (Ok v, w')
               /\ store w' = store w /\ livePages w' = livePages w
               /\ ticks w' = ticks w.
Proof.
  unfold_M. repeat (branch; cbn [fst snd store livePages ticks trace] in * );
    eexists; eexists; (split; [reflexivity|]); repeat split.
Qed.

Lemma setToCache_returns (key : string) (value : json) (ttl : Z) (w : World) :
  exists b w', setToCache key value ttl w = (Ok b, w').
Proof.
  unfold_M. repeat (branch; cbn [fst snd store livePages ticks trace] in * );
    eexists; eexists; reflexivity.
Qed.

Lemma bind_ok {A B} (m : M A) (k : A -> M B) (w w' : World) (a : A) :
  m w = (Ok a, w') -> bind m k w = k a w'.
Proof. unfold bind. now intros ->. Qed.

Lemma try_catch_ok {A} (m : M A) (h : exn -> M A) (w w' : World) (a : A) :
  m w = (Ok a, w') -> try_catch m h w = (Ok a, w').
Proof. unfold try_catch. now intros ->. Qed.

Lemma getFromCache_value (key : string) (w : World) :
  exists w', getFromCache key w = (Ok (cachedValue key w), w')
             /\ store w' = store w /\ livePages w' = livePages w
             /\ ticks w' = ticks w.
Proof.
  destruct (getFromCache_returns key w) as (v & w' & E & H).
  exists w'. unfold cachedValue. rewrite E. now split.
Qed.

(** The events of a read of the cache: no page, no document. *)
Lemma getFromCache_events (key : string) (w w' : World) (v : json) :
  getFromCache key w = (Ok v, w') ->
  exists events,
    trace w' = (trace w ++ events)%list
    /\ existsb isPageOpened events = false
    /\ contents events = []
    /\ screenshots events = []
    /\ cacheWrites events = [].
Proof.
  unfold_M.
  repeat (branch; cbn [fst snd store livePages ticks trace] in * );
    intros Hread; injection Hread as _ <-; cbn [trace];
    rewrite <- ?List.app_assoc;
    first [ exists []; split; [symmetry; apply List.app_nil_r|];
            repeat split; reflexivity
          | eexists; split; [reflexivity|]; repeat split; reflexivity ].
Qed.

Lemma screenshots_app (a b : list event) :
  screenshots (a ++ b) = (screenshots a ++ screenshots b)%list.
Proof.
  induction a as [|e a IH]; [reflexivity|].
  destruct e; cbn [screenshots List.app]; now rewrite IH.
Qed.

(** A valid request that misses the cache while the browser is ready and
    every step before the screenshot succeeds: the screenshot is asked
    for, refused, and the request fails. *)
Lemma generate_stops_at_the_screenshot (reqBody : json) (w : World)
    (code html : string) (rect : DOMRect) :
  validationResult reqBody = [] ->
  getProp reqBody "code" = Some (JStr code) ->
  truthy (cachedValue (cacheKey code (optionsOf reqBody)) w) = false ->
  isBrowserReady env = true -> browser env = true ->
  newPageRejects env = false ->
  generateHTMLTemplate toUpperCase lineMinHeight (Some (JStr code))
    (Some (optionsOf reqBody)) = Ok html ->
  setContentRejects env html = false ->
  waitForFunctionRejects env = false ->
  boundingRect env = Ok (Some rect) ->
  exists w' events,
    generate reqBody w
    = (Ok (internalError
             (Error "options.quality is unsupported for the png screenshots")
             (clock env (ticks w))), w')
    /\ trace w' = (trace w ++ events)%list
    /\ screenshots events
       = [{| clip_x := Qfloor (rect_x rect);
             clip_y := Qfloor (rect_y rect);
             clip_width := Z.min (Qceiling (rect_width rect)) 1920;
             clip_height := Z.min (Qceiling (rect_height rect)) 1080 |}]
    /\ store w' = store w.
Proof.
  intros Hv Hc Hmiss Hready Hbrowser Hnew Hhtml Hset Hwait Hrect.
  destruct (getFromCache_value (cacheKey code (optionsOf reqBody)) w)
    as (w1 & Hget & Hstore & _ & Hticks).
  destruct (getFromCache_events _ _ _ _ Hget)
    as (evs & Htrace & _ & _ & Hshots & _).
  unfold generate. rewrite Hv, Hc. cbv zeta.
  unfold try_catch at 1. rewrite (bind_ok _ _ _ _ _ Hget).
  rewrite Hmiss, Hready, Hbrowser. cbn [negb orb].
  unfold renderPage, browser_newPage, page_setContent, page_waitForFunction,
    page_evaluate, page_screenshot, page_close, now, emit, try_catch, bind,
    ret, throw, lift.
  rewrite Hnew, Hhtml. cbn [fst snd store livePages ticks trace].
  rewrite Hset, Hwait, Hrect.
  cbn [fst snd store livePages ticks trace measure screenshotOptions
       shot_quality shot_type shot_clip String.eqb Ascii.eqb Bool.eqb orb
       append].
  destruct (closeRejects env);
    cbn [fst snd store livePages ticks trace];
    rewrite Hticks, Htrace, <- !List.app_assoc;
    eexists; eexists; (split; [reflexivity|]); (split; [reflexivity|]);
    (split; [|exact Hstore]);
    rewrite screenshots_app, Hshots; reflexivity.
Qed.

(** C5: the cache helpers never throw.  A read that fails, or that finds a
    text [JSON.parse] refuses, gives null; a write that fails gives false
    and leaves the store as it was; without a store the read gives null
    and the write gives false with no effect at all.  What follows for a
    render is not what the handler does: without a store every request is
    answered without a call of the store, but no answer is a render and
    none carries [cached]; the answer is 400, 503 or 500, because the
    screenshot of a render is always refused. *)
Theorem cache_errors_never_propagate (key : string) (value : json) (ttl : Z)
    (w : World) :
  (exists v w', getFromCache key w = (Ok v, w'))
  /\ (exists b w', setToCache key value ttl w = (Ok b, w'))
  /\ (redisClient env = true -> redisGetRejects env key = true ->
      exists w', getFromCache key w = (Ok JNull, w') /\ store w' = store w)
  /\ (redisClient env = true -> redisGetRejects env key = false ->
      forall text e, store w key = Some text -> JSON_parse text = Throw e ->
      exists w', getFromCache key w = (Ok JNull, w') /\ store w' = store w)
  /\ (redisClient env = true -> redisSetRejects env key = true ->
      exists w', setToCache key value ttl w = (Ok false, w')
                 /\ store w' = store w)
  /\ (redisClient env = false ->
      getFromCache key w = (Ok JNull, w)
      /\ setToCache key value ttl w = (Ok false, w))
  /\ (redisClient env = false ->
      forall reqBody,
      exists response w' events,
        generate reqBody w = (Ok response, w')
        /\ trace w' = (trace w ++ events)%list
        /\ existsb isRedisCall events = false
        /\ In (status response) [400; 500; 503]
        /\ getProp (body response) "cached" = None).
Proof.
  split; [|split; [|split; [|split; [|split; [|split]]]]].
  - destruct (getFromCache_returns key w) as (v & w' & E & _). eauto.
  - apply setToCache_returns.
  - intros Hc Hr. unfold getFromCache, redis_get, try_catch, bind, emit, throw, ret.
    rewrite Hc, Hr. cbn [negb fst snd]. eexists. split; reflexivity.
  - intros Hc Hr text e Htext Hparse.
    unfold getFromCache, redis_get, try_catch, bind, emit, throw, ret, lift.
    rewrite Hc, Hr. cbn [negb fst snd store]. rewrite Htext.
    destruct (text =? ""); [eexists; split; reflexivity|].
    rewrite Hparse. eexists. split; reflexivity.
  - intros Hc Hr. unfold setToCache, redis_set, try_catch, bind, emit, throw, ret.
    rewrite Hc, Hr. cbn [negb fst snd]. eexists. split; reflexivity.
  - intros Hc. unfold getFromCache, setToCache, ret.
    rewrite Hc. now split.
  - intros Hclient reqBody. unfold_M. rewrite Hclient. cbn [negb].
    destruct (validationResult reqBody) eqn:Hv;
      [destruct (getProp reqBody "code") as [[| | |code| |]|] eqn:Hc|].
    all: repeat (branch; cbn [fst snd store livePages ticks trace] in * ).
    all: try match goal with
             | H : truthy JNull = true |- _ => discriminate H
             end.
    all: rewrite <- ?List.app_assoc.
    all: eexists; eexists; eexists; (split; [reflexivity|]).
    all: cbn [status body store livePages ticks trace].
    all: (split; [first [reflexivity | symmetry; apply List.app_nil_r]|]).
    all: (split; [reflexivity|]).
    all: (split; [cbn [In];
                  first [ left; reflexivity
                        | right; left; reflexivity
                        | right; right; left; reflexivity ]|]).
    all: unfold internalError, unavailable; cbn [body];
      try destruct (development env); reflexivity.
Qed.

(** C6: while the browser is not ready a valid request that the cache
    does not answer gets 503 with [success: false] and [fallback: true],
    and the fallback route answers the same body with 200 and a preview
    made of the first 200 characters of the code, followed by three dots
    exactly when the code is longer. *)
Theorem unavailable_then_fallback (reqBody : json) (code : string) (w w2 : World) :
  validationResult reqBody = [] ->
  getProp reqBody "code" = Some (JStr code) ->
  isBrowserReady env = false ->
  truthy (cachedValue (cacheKey code (optionsOf reqBody)) w) = false ->
  (exists w',
     generate reqBody w
     = (Ok {| status := 503;
              body := JObj [("success", JBool false);
                            ("error", JStr "Image generation service is temporarily unavailable");
                            ("fallback", JBool true)] |}, w'))
  /\ (exists fields w2',
        fallback reqBody w2 = (Ok {| status := 200; body := JObj fields |}, w2')
        /\ lookup "codePreview" fields
           = Some (JStr (take 200 code
                         ++ (if (200 <? String.length code)%nat then "..." else "")))).
Proof.
  intros Hv Hc Hready Hmiss. split.
  - destruct (getFromCache_value (cacheKey code (optionsOf reqBody)) w)
      as (w1 & Hget & _).
    exists w1. unfold generate. rewrite Hv, Hc. cbv zeta.
    apply try_catch_ok. rewrite (bind_ok _ _ _ _ _ Hget).
    rewrite Hmiss, Hready. reflexivity.
  - destruct (valid_code reqBody Hv) as (code' & Hc' & Hne & _).
    rewrite Hc in Hc'. injection Hc' as <-.
    unfold fallback. rewrite Hc. cbn [truthy_opt truthy].
    apply String.eqb_neq in Hne. rewrite Hne. cbn [negb].
    unfold bind, now, ret. eexists. eexists. split; reflexivity.
Qed.

(** C7: the handler does not reach the answer of a successful render.
    It asks for the screenshot with [type: 'png'] and [quality: 100]
    (lines 598-609), an argument the library refuses.  So every request
    whose page gets as far as the screenshot is answered 500; a valid
    request that misses the cache while the browser is ready and every
    step before the screenshot succeeds is one of them, whatever the
    browser would have captured; and an answer 200 is always an entry of
    the cache, never the result of a render. *)
Theorem render_stops_at_the_screenshot (reqBody : json) (w : World) :
  exists response w' events,
    generate reqBody w = (Ok response, w')
    /\ trace w' = (trace w ++ events)%list
    /\ (screenshots events <> [] ->
        status response = 500
        /\ getProp (body response) "error"
           = Some (JStr "Failed to generate image")
        /\ getProp (body response) "image" = None)
    /\ (status response = 200 ->
        getProp (body response) "cached" = Some (JBool true)
        /\ existsb isPageOpened events = false)
    /\ (forall code html rect,
          validationResult reqBody = [] ->
          getProp reqBody "code" = Some (JStr code) ->
          truthy (cachedValue (cacheKey code (optionsOf reqBody)) w) = false ->
          isBrowserReady env = true -> browser env = true ->
          newPageRejects env = false ->
          generateHTMLTemplate toUpperCase lineMinHeight (Some (JStr code))
            (Some (optionsOf reqBody)) = Ok html ->
          setContentRejects env html = false ->
          waitForFunctionRejects env = false ->
          boundingRect env = Ok (Some rect) ->
          screenshots events <> [] /\ status response = 500).
Proof.
  assert (H : exists response w' events,
             generate reqBody w = (Ok response, w')
             /\ trace w' = (trace w ++ events)%list
             /\ (screenshots events <> [] ->
                 status response = 500
                 /\ getProp (body response) "error"
                    = Some (JStr "Failed to generate image")
                 /\ getProp (body response) "image" = None)
             /\ (status response = 200 ->
                 getProp (body response) "cached" = Some (JBool true)
                 /\ existsb isPageOpened events = false)).
  { every_path reqBody.
    all: rewrite <- ?List.app_assoc.
    all: eexists; eexists; eexists; (split; [reflexivity|]).
    all: cbn [status body store livePages ticks trace].
    all: (split; [first [reflexivity | symmetry; apply List.app_nil_r]|]).
    all: cbn [screenshots List.app].
    all: (split; [intros Hshot; try (now contradiction Hshot);
                  unfold internalError; cbn [body];
                  destruct (development env); repeat split; reflexivity|]).
    all: intros Hs; try discriminate Hs.
    all: (split; [|reflexivity]).
    all: cbn [getProp]; rewrite lookup_setProp_neq by discriminate;
      apply lookup_setProp_eq. }
  destruct H as (response & w' & events & Hrun & Htrace & Hshot & Hhit).
  exists response, w', events. repeat (split; [assumption|]).
  intros code html rect Hv Hc Hmiss Hready Hbrowser Hnew Hhtml Hset Hwait Hrect.
  destruct (generate_stops_at_the_screenshot reqBody w code html rect
              Hv Hc Hmiss Hready Hbrowser Hnew Hhtml Hset Hwait Hrect)
    as (w2 & events2 & Hrun2 & Htrace2 & Hshots2 & _).
  rewrite Hrun in Hrun2. injection Hrun2 as -> ->.
  rewrite Htrace in Htrace2. apply List.app_inv_head in Htrace2. subst events2.
  split; [|reflexivity]. rewrite Hshots2. discriminate.
Qed.

(** C8: a code of exactly 10000 characters raises no error on the code
    field, so the request is rejected only if an option is; a code of
    10001 characters is answered 400 with the list of field errors,
    among them the one on [code], and nothing else happens: no cache
    access, no page, no log. *)
Theorem code_length_boundary (reqBody : json) (code : string) (w : World) :
  getProp reqBody "code" = Some (JStr code) ->
  (String.length code = 10000%nat ->
     validateCode (Some (JStr code)) = []
     /\ validationResult reqBody = validateOptions reqBody)
  /\ (String.length code = 10001%nat ->
      exists errors,
        generate reqBody w
        = (Ok {| status := 400;
                 body := JObj [("success", JBool false);
                               ("errors", JArr (map errorJson errors))] |}, w)
        /\ In {| err_path := "code";
                 err_msg := "Code too long (max 10000 chars)";
                 err_value := Some (JStr code) |} errors).
Proof.
  intros Hc. split; intros Hlen.
  - assert (E : validateCode (Some (JStr code)) = []).
    { unfold validateCode, failing. cbn [itemsOf textOf flat_map].
      rewrite Hlen. destruct code as [|c code]; [discriminate Hlen|].
      reflexivity. }
    split; [exact E|]. unfold validationResult. rewrite Hc, E. reflexivity.
  - assert (E : validateCode (Some (JStr code))
                = [{| err_path := "code";
                      err_msg := "Code too long (max 10000 chars)";
                      err_value := Some (JStr code) |}]).
    { unfold validateCode, failing. cbn [itemsOf textOf flat_map].
      rewrite Hlen. destruct code as [|c code]; [discriminate Hlen|].
      reflexivity. }
    exists (validationResult reqBody).
    unfold generate, validationResult. rewrite Hc, E.
    split; [reflexivity | now left].
Qed.

(** C10: a request answered from the cache gets the stored properties
    with [cached] set to true and [timestamp] set to the clock at the time
    of the answer, whatever the entry holds for the two; the store is
    left as it was and nothing is written to it. *)
Theorem cache_hit_response (reqBody : json) (code : string) (w w1 : World)
    (cached : json) :
  validationResult reqBody = [] ->
  getProp reqBody "code" = Some (JStr code) ->
  getFromCache (cacheKey code (optionsOf reqBody)) w = (Ok cached, w1) ->
  truthy cached = true ->
  exists fields w',
    generate reqBody w = (Ok {| status := 200; body := JObj fields |}, w')
    /\ lookup "cached" fields = Some (JBool true)
    /\ lookup "timestamp" fields = Some (JStr (clock env (ticks w1)))
    /\ (forall k, k <> "cached" -> k <> "timestamp" ->
                   lookup k fields = lookup k (ownEntries cached))
    /\ store w' = store w
    /\ trace w' = trace w1.
Proof.
  intros Hv Hc Hget Hhit.
  destruct (getFromCache_returns (cacheKey code (optionsOf reqBody)) w)
    as (v & w1' & E & Hstore & _).
  rewrite Hget in E. injection E as <- <-.
  eexists. eexists. split.
  - unfold generate. rewrite Hv, Hc. cbv zeta.
    apply try_catch_ok. rewrite (bind_ok _ _ _ _ _ Hget).
    rewrite Hhit. unfold bind, now, ret. reflexivity.
  - cbn [store trace]. repeat split.
    + rewrite lookup_setProp_neq by discriminate. apply lookup_setProp_eq.
    + apply lookup_setProp_eq.
    + intros k H1 H2. rewrite !lookup_setProp_neq by congruence. reflexivity.
    + exact Hstore.
Qed.

(* ------------------------------------------------------------------ *)
(** *** Further properties of POST /api/generate *)
(* ------------------------------------------------------------------ *)

(** X1: The handler answers every request, with one of four statuses: 400
    exactly when a validator reports an error, and then with the list of the
    errors and without having touched the cache, the browser, the clock or
    the console; 503 only when the browser is not ready, and then without
    having opened a page. *)
Theorem generate_statuses (reqBody : json) (w : World) :
  exists response w',
    generate reqBody w = (Ok response, w')
    /\ In (status response) [200; 400; 500; 503]
    /\ (status response = 400 <-> validationResult reqBody <> [])
    /\ (status response = 400 ->
        w' = w
        /\ body response
           = JObj [("success", JBool false);
                   ("errors", JArr (map errorJson (validationResult reqBody)))])
    /\ (status response = 503 ->
        (isBrowserReady env = false \/ browser env = false)
        /\ response = unavailable
        /\ store w' = store w /\ livePages w' = livePages w
        /\ ticks w' = ticks w).
Proof.
  every_path reqBody.
  all: eexists; eexists; (split; [reflexivity|]).
  all: cbn [status body store livePages ticks trace].
  all: (split; [cbn [In];
                first [ left; reflexivity
                      | right; left; reflexivity
                      | right; right; left; reflexivity
                      | right; right; right; left; reflexivity ]|]).
  all: (split; [split; [intros H; try discriminate H; discriminate
                       | intros H; try reflexivity; now contradiction H]|]).
  all: split; intros H; try discriminate H.
  all: try (split; reflexivity).
  all: match goal with
       | H : _ || _ = true |- _ =>
           apply orb_true_iff in H; rewrite !negb_true_iff in H
       end.
  all: split; [assumption|]; repeat split; reflexivity.
Qed.


(** X8: The browser is used for one document and one picture at most: the
    only document a page is given is the one the builder makes of the code
    and the options of the request, and the only screenshot is clipped at
    the measured card, cut down to 1920 by 1080. *)
Theorem page_gets_the_built_document (reqBody : json) (w : World) :
  exists response w' events,
    generate reqBody w = (Ok response, w')
    /\ trace w' = (trace w ++ events)%list
    /\ (List.length (contents events) <= 1)%nat
    /\ (List.length (screenshots events) <= 1)%nat
    /\ (forall html, In html (contents events) ->
        exists code,
          getProp reqBody "code" = Some (JStr code)
          /\ generateHTMLTemplate toUpperCase lineMinHeight
               (Some (JStr code)) (Some (optionsOf reqBody)) = Ok html)
    /\ (forall clip, In clip (screenshots events) ->
        contents events <> []
        /\ (clip_width clip <= 1920)%Z /\ (clip_height clip <= 1080)%Z
        /\ exists rect dimensions,
             boundingRect env = Ok (Some rect)
             /\ measure (Some rect) = Some dimensions
             /\ clip = clipOf dimensions).
Proof.
  every_path reqBody.
  all: rewrite <- ?List.app_assoc.
  all: eexists; eexists; eexists; (split; [reflexivity|]).
  all: cbn [status body store livePages ticks trace].
  all: (split; [first [reflexivity | symmetry; apply List.app_nil_r]|]).
  all: cbn [contents screenshots List.length List.app In].
  all: (split; [lia|]); (split; [lia|]).
  all: (split; [first [ intros html Hin; contradiction Hin
                      | intros html [<- | Hin];
                        [exists code; split; [reflexivity | assumption]
                        | contradiction Hin] ]|]).
  all: try (intros clip Hin; contradiction Hin).
  all: intros clip [<- | Hin]; [|contradiction Hin].
  all: (split; [discriminate|]).
  all: cbn [clipOf clip_width clip_height].
  all: (split; [lia|]); (split; [lia|]).
  all: match goal with
       | H : measure ?o = Some ?d |- _ =>
           destruct o as [rect|]; [|discriminate H];
           exists rect, d; split; [reflexivity | split; [exact H | reflexivity]]
       end.
Qed.

(** X9: An answer 500 says no more than that the generation failed, with the
    time of the answer, unless the server runs in development mode, where it
    adds the message of the error; the failure is logged, and nothing was
    written to the cache. *)
Theorem failure_is_reported_without_details (reqBody : json) (w : World) :
  exists response w' events,
    generate reqBody w = (Ok response, w')
    /\ trace w' = (trace w ++ events)%list
    /\ (status response = 500 ->
        (exists error, response = internalError error (clock env (ticks w)))
        /\ (development env = false ->
            body response
            = JObj [("success", JBool false);
                    ("error", JStr "Failed to generate image");
                    ("timestamp", JStr (clock env (ticks w)))])
        /\ In (ConsoleError "Generation error:") events
        /\ store w' = store w
        /\ ticks w' = S (ticks w)).
Proof.
  every_path reqBody.
  all: rewrite <- ?List.app_assoc.
  all: eexists; eexists; eexists; (split; [reflexivity|]).
  all: cbn [status body store livePages ticks trace].
  all: (split; [first [reflexivity | symmetry; apply List.app_nil_r]|]).
  all: intros H; try discriminate H.
  all: (split; [eexists; reflexivity|]).
  all: (split; [intros Hd; unfold internalError; rewrite Hd; reflexivity|]).
  all: (split; [cbn [List.app In];
                repeat (first [left; reflexivity | right])|]).
  all: split; reflexivity.
Qed.

(* ------------------------------------------------------------------ *)
(** *** The cache, written and read back *)
(* ------------------------------------------------------------------ *)

Lemma JSON_stringify_nonempty (v : json) : (JSON_stringify v =? "") = false.
Proof.
  destruct v as [|[]|n|s|l|props]; try reflexivity.
  cbn [JSON_stringify]. destruct (Z_to_string n) eqn:E; [|reflexivity].
  unfold Z_to_string, NilZero.string_of_int, NilZero.string_of_uint in E.
  destruct (Z.to_int n) as [d|d]; destruct d; discriminate E.
Qed.

(** X6: A value written with [setToCache] is what [getFromCache] returns for
    the same key afterwards, as far as [JSON.parse] reads back what
    [JSON.stringify] wrote; the entries of the other keys are as they were. *)
Theorem stored_value_is_read_back (key : string) (value : json) (ttl : Z)
    (w : World) :
  redisClient env = true ->
  redisSetRejects env key = false ->
  redisGetRejects env key = false ->
  JSON_parse (JSON_stringify value) = Ok value ->
  exists w1 w2,
    setToCache key value ttl w = (Ok true, w1)
    /\ getFromCache key w1 = (Ok value, w2)
    /\ store w2 key = Some (JSON_stringify value)
    /\ forall other, other <> key -> store w2 other = store w other.
Proof.
  intros Hclient Hset Hget Hparse.
  unfold setToCache, getFromCache, redis_set, redis_get, try_catch, bind,
    emit, throw, ret, lift.
  rewrite Hclient, Hset, Hget. cbn [negb fst snd store livePages ticks trace].
  eexists. eexists. split; [reflexivity|].
  cbn [negb fst snd store livePages ticks trace].
  rewrite String.eqb_refl, JSON_stringify_nonempty, Hparse.
  split; [reflexivity|].
  cbn [store]. rewrite String.eqb_refl. split; [reflexivity|].
  intros other Hne. apply String.eqb_neq in Hne. now rewrite Hne.
Qed.

Lemma cachedValue_of_store (key : string) (w w' : World) :
  store w' = store w -> cachedValue key w' = cachedValue key w.
Proof.
  intros Hs. unfold cachedValue. unfold_M.
  destruct (redisClient env); [|reflexivity].
  cbn [negb]. destruct (redisGetRejects env key); [reflexivity|].
  cbn [fst snd store]. rewrite Hs.
  destruct (store w key) as [text|]; [|reflexivity].
  destruct (text =? ""); [reflexivity|].
  destruct (JSON_parse text); reflexivity.
Qed.

(** X7: No request fills the cache.  The only write of the handler comes
    after the screenshot, which is always refused, so whatever a request
    is answered the store is left as it was, and a request that comes
    again finds in the cache what the first one found: when the first was
    not answered from the cache, neither is the second, and the page is
    rendered again. *)
Theorem cache_is_never_filled (reqBody : json) (w : World) :
  exists response w' events,
    generate reqBody w = (Ok response, w')
    /\ trace w' = (trace w ++ events)%list
    /\ cacheWrites events = []
    /\ store w' = store w
    /\ (forall key, cachedValue key w' = cachedValue key w)
    /\ (forall clip, In clip (screenshots events) ->
        status response = 500
        /\ existsb isPageClose events = true).
Proof.
  assert (H : exists response w' events,
             generate reqBody w = (Ok response, w')
             /\ trace w' = (trace w ++ events)%list
             /\ cacheWrites events = []
             /\ store w' = store w
             /\ (forall clip, In clip (screenshots events) ->
                 status response = 500
                 /\ existsb isPageClose events = true)).
  { every_path reqBody.
    all: rewrite <- ?List.app_assoc.
    all: eexists; eexists; eexists; (split; [reflexivity|]).
    all: cbn [status body store livePages ticks trace].
    all: (split; [first [reflexivity | symmetry; apply List.app_nil_r]|]).
    all: (split; [reflexivity|]); (split; [reflexivity|]).
    all: cbn [screenshots List.app In].
    all: intros clip Hin; try contradiction Hin.
    all: split; reflexivity. }
  destruct H as (response & w' & events & Hrun & Htrace & Hw & Hs & Hshot).
  exists response, w', events. repeat (split; [assumption|]).
  split; [|exact Hshot].
  intros key. now apply cachedValue_of_store.
Qed.

(* ------------------------------------------------------------------ *)
(** *** The validators *)
(* ------------------------------------------------------------------ *)

Lemma failing_text (path msg : string) (s : string) (ok : string -> bool) :
  failing path msg (Some (JStr s)) ok = []  <-> ok s = true.
Proof.
  unfold failing. cbn [itemsOf textOf flat_map]. destruct (ok s); split;
    intros H; try reflexivity; discriminate H.
Qed.

Lemma validateOptional_text (path msg : string) (v : option json)
    (ok : string -> bool) :
  textOrAbsent v = true ->
  (validateOptional path msg v ok = [] <-> absentOr ok v = true).
Proof.
  destruct v as [[| | |s| |]|]; intros H; try discriminate H.
  - apply failing_text.
  - split; reflexivity.
Qed.

(** X2: When the three validated fields are absent or strings, a request
    passes the validators exactly when its code is a non-empty string of at
    most 10000 characters, its theme, if any, is dark, light or solarized,
    and its font size and its padding, if any, are digits followed by px, em
    or rem.  The theme, the font size and the padding are the fields as
    the validators select them, [validatedField]. *)
Theorem validation_of_text_fields (reqBody : json) :
  textOrAbsent (validatedField reqBody "theme") = true ->
  textOrAbsent (validatedField reqBody "fontSize") = true ->
  textOrAbsent (validatedField reqBody "padding") = true ->
  (validationResult reqBody = []
   <-> (exists code, getProp reqBody "code" = Some (JStr code)
                     /\ code <> "" /\ (String.length code <= 10000)%nat)
       /\ absentOr isTheme (validatedField reqBody "theme") = true
       /\ absentOr matchesCssLength (validatedField reqBody "fontSize") = true
       /\ absentOr matchesCssLength (validatedField reqBody "padding") = true).
Proof.
  intros Ht Hf Hp. split.
  - intros Hv. split; [exact (valid_code reqBody Hv)|].
    unfold validationResult, validateOptions in Hv.
    apply app_eq_nil in Hv. destruct Hv as [_ Hv].
    apply app_eq_nil in Hv. destruct Hv as [H1 Hv].
    apply app_eq_nil in Hv. destruct Hv as [H2 H3].
    apply (validateOptional_text _ _ _ _ Ht) in H1.
    apply (validateOptional_text _ _ _ _ Hf) in H2.
    apply (validateOptional_text _ _ _ _ Hp) in H3.
    repeat split; assumption.
  - intros ((code & Hc & Hne & Hlen) & H1 & H2 & H3).
    unfold validationResult, validateOptions.
    apply (validateOptional_text "options.theme" "Invalid theme" _ _ Ht) in H1.
    apply (validateOptional_text "options.fontSize" "Invalid font size format"
             _ _ Hf) in H2.
    apply (validateOptional_text "options.padding" "Invalid padding format"
             _ _ Hp) in H3.
    unfold isTheme in H1. rewrite H1, H2, H3, Hc.
    unfold validateCode, failing. cbn [itemsOf textOf flat_map List.app].
    apply String.eqb_neq in Hne. rewrite Hne.
    apply Nat.leb_le in Hlen. unfold maxCodeLength. rewrite Hlen. reflexivity.
Qed.

(** X24: A request without a code is answered 400 with two errors on the
    code, in this order: that it is required and that it must be a string,
    neither carrying a value; a request whose code is the empty string is
    answered 400 with the first of the two alone. (Errors on the options, if
    any, follow.) *)
Theorem missing_code_is_reported (reqBody : json) (w : World) :
  (getProp reqBody "code" = None ->
   generate reqBody w
   = (Ok {| status := 400;
            body := JObj [("success", JBool false);
                          ("errors",
                           JArr (JObj [("type", JStr "field");
                                       ("msg", JStr "Code is required");
                                       ("path", JStr "code");
                                       ("location", JStr "body")]
                                 :: JObj [("type", JStr "field");
                                          ("msg", JStr "Code must be a string");
                                          ("path", JStr "code");
                                          ("location", JStr "body")]
                                 :: map errorJson (validateOptions reqBody)))] |},
      w))
  /\ (getProp reqBody "code" = Some (JStr "") ->
      generate reqBody w
      = (Ok {| status := 400;
               body := JObj [("success", JBool false);
                             ("errors",
                              JArr (JObj [("type", JStr "field");
                                          ("value", JStr "");
                                          ("msg", JStr "Code is required");
                                          ("path", JStr "code");
                                          ("location", JStr "body")]
                                    :: map errorJson (validateOptions reqBody)))] |},
         w)).
Proof.
  split; intros Hc; unfold generate, validationResult; rewrite Hc; reflexivity.
Qed.

(** X4: A theme that is a string and has passed the validators names one of
    the three palettes of the builder, so every colour role of the document
    is a colour of that palette.  The theme of the options is the one the
    validators have seen when the body has no property named
    [options.theme] beside its options. *)
Theorem validated_theme_has_a_palette (reqBody : json) (theme : string) :
  validationResult reqBody = [] ->
  getProp reqBody "options.theme" = None ->
  optionField reqBody "theme" = Some (JStr theme) ->
  exists palette,
    In palette [theme_dark; theme_light; theme_solarized]
    /\ themes theme = Colors palette
    /\ resolveTheme theme = Colors palette
    /\ forall r, role r (resolveTheme theme) = r palette.
Proof.
  intros Hv Hkey Ht.
  unfold validationResult, validateOptions, validatedField in Hv.
  apply app_eq_nil in Hv. destruct Hv as [_ Hv].
  apply app_eq_nil in Hv. destruct Hv as [H1 _].
  change ("options." ++ "theme") with "options.theme" in H1.
  rewrite Hkey, Ht in H1. apply failing_text in H1.
  cbn [existsb] in H1. unfold resolveTheme, themes.
  destruct (theme =? "dark") eqn:E1;
    [exists theme_dark; split; [now left | repeat split]|].
  destruct (theme =? "light") eqn:E2;
    [exists theme_light; split; [now right; left | repeat split]|].
  destruct (theme =? "solarized") eqn:E3;
    [exists theme_solarized; split; [now right; right; left | repeat split]|].
  discriminate H1.
Qed.

(* ------------------------------------------------------------------ *)
(** *** Options that are not an object *)
(* ------------------------------------------------------------------ *)

Lemma contents_app (a b : list event) :
  contents (a ++ b) = (contents a ++ contents b)%list.
Proof.
  induction a as [|e a IH]; [reflexivity|].
  destruct e; cbn [contents List.app]; now rewrite IH.
Qed.

Lemma closedAfterOpen_app (a b : list event) :
  existsb isPageOpened a = false ->
  closedAfterOpen (a ++ b) = closedAfterOpen b.
Proof.
  induction a as [|e a IH]; [reflexivity|].
  destruct e; cbn [existsb isPageOpened orb closedAfterOpen List.app];
    intros H; try discriminate H; now apply IH.
Qed.

(** X10: The validators and the builder read [options: null] differently:
    the request passes the validators as if it had no options (when the
    body has no property whose name is the path of an option), but the
    builder cannot take its options from null, so once a page is open the
    request fails with 500, the page being closed and no document handed to
    it. Options that are a number, a boolean, a string or an array are read
    by the builder as no options at all. *)
Theorem options_that_are_not_an_object (reqBody : json) (code : string)
    (w : World) :
  getProp reqBody "code" = Some (JStr code) ->
  (forall options, getProp reqBody "options" = Some options ->
     isObject options = false ->
     (forall name, getProp reqBody ("options." ++ name) = None) ->
     validateOptions reqBody = [])
  /\ (forall options, options <> JNull -> isObject options = false ->
      generateHTMLTemplate toUpperCase lineMinHeight (Some (JStr code))
        (Some options)
      = generateHTMLTemplate toUpperCase lineMinHeight (Some (JStr code)) None)
  /\ (getProp reqBody "options" = Some JNull ->
      validationResult reqBody = [] ->
      truthy (cachedValue (cacheKey code JNull) w) = false ->
      isBrowserReady env = true -> browser env = true ->
      newPageRejects env = false ->
      exists w' events,
        generate reqBody w
        = (Ok (internalError TypeError (clock env (ticks w))), w')
        /\ trace w' = (trace w ++ events)%list
        /\ existsb isPageOpened events = true
        /\ closedAfterOpen events = true
        /\ contents events = []).
Proof.
  intros Hc. split; [|split].
  - intros options Ho Hne Hkeys.
    unfold validateOptions, validatedField, optionField.
    rewrite !Hkeys, Ho. destruct options; try reflexivity. discriminate Hne.
  - intros options Hnull Hobj.
    destruct options; try reflexivity.
    + now contradiction Hnull.
    + discriminate Hobj.
  - intros Ho Hv Hmiss Hready Hbrowser Hnew.
    assert (Hopt : optionsOf reqBody = JNull) by (unfold optionsOf; now rewrite Ho).
    destruct (getFromCache_value (cacheKey code JNull) w)
      as (w0 & Hread & _ & _ & Hticks).
    destruct (getFromCache_events _ _ _ _ Hread)
      as (evs & Htrace & Hno & Hcontents & _).
    unfold generate. rewrite Hv, Hc, Hopt. cbv zeta.
    unfold try_catch at 1. rewrite (bind_ok _ _ _ _ _ Hread).
    rewrite Hmiss, Hready, Hbrowser. cbn [negb orb].
    unfold renderPage, browser_newPage, page_close, now, emit, try_catch,
      bind, ret, throw, lift.
    rewrite Hnew. cbn [generateHTMLTemplate fst snd store livePages ticks trace].
    destruct (closeRejects env);
      cbn [fst snd store livePages ticks trace];
      rewrite Hticks, Htrace, <- !List.app_assoc;
      eexists; eexists; (split; [reflexivity|]); (split; [reflexivity|]);
      rewrite !existsb_app, Hno, contents_app, Hcontents,
        (closedAfterOpen_app _ _ Hno);
      repeat split; reflexivity.
Qed.

(* ------------------------------------------------------------------ *)
(** *** POST /api/generate/fallback *)
(* ------------------------------------------------------------------ *)

Lemma length_take (n : nat) (s : string) :
  String.length (take n s) = Nat.min n (String.length s).
Proof.
  revert s. induction n as [|n IH]; intros [|c s]; cbn [take String.length];
    try reflexivity.
  now rewrite IH.
Qed.

(** X14: The fallback route has three outcomes, by the code of the request:
    a missing or falsy code is refused with 400; a non-empty string is
    answered 200 with its length and a preview of at most 203 characters;
    any other code (a number, [true], an array, an object) makes the handler
    throw a TypeError, which nothing in the handler catches. The cache and
    the browser are not used. *)
Theorem fallback_outcomes (reqBody : json) (w : World) :
  (truthy_opt (getProp reqBody "code") = false ->
   fallback reqBody w
   = (Ok {| status := 400;
            body := JObj [("success", JBool false);
                          ("error", JStr "Code is required")] |}, w))
  /\ (forall code, getProp reqBody "code" = Some (JStr code) -> code <> "" ->
      exists preview w',
        fallback reqBody w
        = (Ok {| status := 200;
                 body := JObj [("success", JBool true);
                               ("message", JStr "Fallback mode active. Install Puppeteer for image generation.");
                               ("codePreview", JStr preview);
                               ("length", JNum (Z.of_nat (String.length code)));
                               ("timestamp", JStr (clock env (ticks w)))] |}, w')
        /\ String.length preview
           = (Nat.min 200 (String.length code)
              + (if (200 <? String.length code)%nat then 3 else 0))%nat
        /\ (String.length preview <= 203)%nat
        /\ store w' = store w /\ trace w' = trace w
        /\ livePages w' = livePages w)
  /\ (truthy_opt (getProp reqBody "code") = true ->
      textOrAbsent (getProp reqBody "code") = false ->
      fallback reqBody w = (Throw TypeError, w)).
Proof.
  unfold fallback. split; [|split].
  - intros H. now rewrite H.
  - intros code Hc Hne. rewrite Hc. cbn [truthy_opt truthy].
    apply String.eqb_neq in Hne. rewrite Hne. cbn [negb].
    unfold bind, now, ret. eexists. eexists. split; [reflexivity|].
    cbn [store trace livePages].
    assert (E : String.length
                  (take 200 code
                   ++ (if (200 <? String.length code)%nat then "..." else ""))
                = (Nat.min 200 (String.length code)
                   + (if (200 <? String.length code)%nat then 3 else 0))%nat).
    { assert (L : forall a b : string,
                String.length (a ++ b)
                = (String.length a + String.length b)%nat).
      { induction a as [|x a IH]; intros b; cbn [append String.length];
          [reflexivity | now rewrite IH]. }
      rewrite L, length_take.
      now destruct (200 <? String.length code)%nat. }
    split; [exact E|]. split; [|repeat split; reflexivity].
    rewrite E. destruct (200 <? String.length code)%nat; lia.
  - intros Ht Hs. rewrite Ht. cbn [negb].
    destruct (getProp reqBody "code") as [[| | |s| |]|];
      try reflexivity; discriminate Hs.
Qed.

(** X26: A fallback request whose code is truthy and not a string is
    answered by the global error handler: status 500, the failure
    logged, and a body that gives the message of the error, or only
    [Internal server error] when NODE_ENV is production; a request the
    handler answers itself is not touched by the error handler. *)
Theorem fallback_failure_reaches_the_error_handler
    (NODE_ENV : option string) (reqBody : json) (w : World) :
  (truthy_opt (getProp reqBody "code") = true ->
   textOrAbsent (getProp reqBody "code") = false ->
   exists message w',
     dispatched NODE_ENV (fallback reqBody) w
     = (Ok {| status := 500;
              body := JObj [("success", JBool false);
                            ("error", JStr message);
                            ("timestamp", JStr (clock env (ticks w)))] |}, w')
     /\ trace w' = (trace w ++ [ConsoleError "Unhandled error:"])%list
     /\ (NODE_ENV = Some "production" -> message = "Internal server error")
     /\ (NODE_ENV <> Some "production" ->
         message = engineMessage env TypeError))
  /\ (forall response w',
        fallback reqBody w = (Ok response, w') ->
        dispatched NODE_ENV (fallback reqBody) w = (Ok response, w')).
Proof.
  split.
  - intros Ht Hs.
    assert (E : fallback reqBody w = (Throw TypeError, w)).
    { unfold fallback. rewrite Ht. cbn [negb].
      destruct (getProp reqBody "code") as [[| | |s| |]|];
        try reflexivity; discriminate Hs. }
    unfold dispatched, try_catch. rewrite E.
    unfold errorHandler, bind, emit, now, ret.
    eexists. eexists. split; [reflexivity|]. split; [reflexivity|]. split.
    + intros ->. reflexivity.
    + intros Hne. destruct NODE_ENV as [mode|]; [|reflexivity].
      destruct (mode =? "production") eqn:Em; [|reflexivity].
      apply String.eqb_eq in Em. subst mode. now contradiction Hne.
  - intros response w' E. unfold dispatched, try_catch. now rewrite E.
Qed.

(* ------------------------------------------------------------------ *)
(** *** GET /api/health and the state of the instance *)
(* ------------------------------------------------------------------ *)

(** The handler goes to the browser only when both flags of the instance
    are set, and to the store only when there is a client. *)
Lemma generate_respects_the_flags (reqBody : json) (w : World) :
  exists response w' events,
    generate reqBody w = (Ok response, w')
    /\ trace w' = (trace w ++ events)%list
    /\ (status response = 503 ->
        isBrowserReady env = false \/ browser env = false)
    /\ (existsb isPageOpened events = true ->
        isBrowserReady env = true /\ browser env = true)
    /\ (redisClient env = false -> existsb isRedisCall events = false).
Proof.
  every_path reqBody.
  all: rewrite <- ?List.app_assoc.
  all: eexists; eexists; eexists; (split; [reflexivity|]).
  all: cbn [status body store livePages ticks trace].
  all: (split; [first [reflexivity | symmetry; apply List.app_nil_r]|]).
  all: cbn [List.app existsb isPageOpened isRedisCall orb].
  all: repeat match goal with
              | H : negb _ = false |- _ => apply negb_false_iff in H
              | H : negb _ = true |- _ => apply negb_true_iff in H
              | H : _ || _ = false |- _ =>
                  apply orb_false_iff in H; destruct H
              | H : _ || _ = true |- _ =>
                  apply orb_true_iff in H; rewrite !negb_true_iff in H
              end.
  all: split; [intros Hs; try discriminate Hs; assumption|].
  all: split; [intros Hs; try discriminate Hs; split; assumption|].
  all: intros Hs; first [reflexivity | congruence].
Qed.

(** X19: What /api/health reports is what /api/generate does, on an instance
    the two initialisations have left: while it reports the browser ready no
    request is answered 503, while it reports it not ready no request opens
    a page, and while it reports the cache disabled no request calls the
    store. *)
Theorem health_report_matches_generate
    (REDIS_URL : option string) (createClientThrows connectRejects : bool)
    (puppeteer launchRejects : bool) (reqBody : json) (w : World) :
  serves (fst (initBrowser puppeteer launchRejects
                 (fst (initRedis REDIS_URL createClientThrows connectRejects
                         constructed)))) env ->
  exists report w1 response w' events,
    health w = (Ok report, w1)
    /\ status report = 200
    /\ generate reqBody w = (Ok response, w')
    /\ trace w' = (trace w ++ events)%list
    /\ (getProp (body report) "browser" = Some (JStr "ready") ->
        status response <> 503)
    /\ (getProp (body report) "browser" = Some (JStr "not-ready") ->
        existsb isPageOpened events = false)
    /\ (getProp (body report) "cache" = Some (JStr "disabled") ->
        existsb isRedisCall events = false).
Proof.
  intros (Hclient & Hbrowser & Hready).
  assert (Hinv : isBrowserReady env = browser env).
  { rewrite Hbrowser, Hready. unfold initBrowser, initRedis, constructed.
    destruct puppeteer, launchRejects, REDIS_URL as [url|];
      try destruct (url =? ""); try destruct createClientThrows;
      try destruct connectRejects; reflexivity. }
  clear Hclient Hbrowser Hready.
  destruct (generate_respects_the_flags reqBody w)
    as (response & w' & events & Hrun & Htrace & H503 & Hpage & Hredis).
  unfold health, bind, now, ret.
  eexists. eexists. exists response, w', events.
  split; [reflexivity|]. split; [reflexivity|].
  split; [exact Hrun|]. split; [exact Htrace|].
  cbn [body getProp lookup String.eqb Ascii.eqb Bool.eqb].
  split; [|split].
  - intros Hr Hs. destruct (isBrowserReady env) eqn:E; [|discriminate Hr].
    destruct (H503 Hs) as [H | H]; [discriminate H|].
    rewrite <- Hinv in H. discriminate H.
  - intros Hr. destruct (isBrowserReady env) eqn:E; [discriminate Hr|].
    destruct (existsb isPageOpened events); [|reflexivity].
    destruct (Hpage eq_refl) as [H _]. discriminate H.
  - intros Hr. destruct (redisClient env) eqn:E; [discriminate Hr|].
    now apply Hredis.
Qed.

(** X20: When the connection to the store fails the server warns that it
    uses a memory cache, but the client it made stays in place: /api/health
    reports the cache connected and every read of the cache still goes to
    the store. *)
Theorem failed_connect_keeps_the_client (url key : string) (w : World) :
  url <> "" ->
  serves (fst (initRedis (Some url) false true constructed)) env ->
  snd (initRedis (Some url) false true constructed)
  = [Warned "Redis connection failed, using memory cache"]
  /\ (exists report w1,
        health w = (Ok report, w1)
        /\ getProp (body report) "cache" = Some (JStr "connected"))
  /\ (exists v w' events,
        getFromCache key w = (Ok v, w')
        /\ trace w' = (trace w ++ RedisGet key :: events)%list).
Proof.
  intros Hne (Hclient & _). apply String.eqb_neq in Hne.
  unfold initRedis in *. rewrite Hne in *. cbn [fst snd this_redisClient] in *.
  split; [reflexivity|]. split.
  - unfold health, bind, now, ret. eexists. eexists. split; [reflexivity|].
    rewrite Hclient. reflexivity.
  - unfold_M. rewrite Hclient. cbn [negb].
    repeat (branch; cbn [fst snd store livePages ticks trace] in * );
      rewrite <- ?List.app_assoc;
      eexists; eexists; eexists; (split; [reflexivity|]); reflexivity.
Qed.

End Server.
(* ================================================================== *)
(** * Properties                                                       *)
(* ================================================================== *)

Ltac Zify.zify_post_hook ::= Z.to_euclidean_division_equations.

(* ------------------------------------------------------------------ *)
(** ** Escaping                                                        *)
(* ------------------------------------------------------------------ *)

Lemma append_assoc (a b c : string) : (a ++ b) ++ c = a ++ (b ++ c).
Proof. induction a as [|x a IH]; simpl; [reflexivity | now rewrite IH]. Qed.

Lemma append_nil_r (a : string) : a ++ "" = a.
Proof. induction a as [|x a IH]; simpl; [reflexivity | now rewrite IH]. Qed.

Lemma length_append (a b : string) :
  String.length (a ++ b) = String.length a + String.length b.
Proof. induction a as [|x a IH]; simpl; [reflexivity | now rewrite IH]. Qed.

Lemma flat_map_string_app (f : ascii -> string) (a b : string) :
  flat_map_string f (a ++ b) = flat_map_string f a ++ flat_map_string f b.
Proof.
  induction a as [|c a IH]; simpl; [reflexivity|].
  now rewrite IH, append_assoc.
Qed.

Lemma flat_map_string_ext (f g : ascii -> string) (s : string) :
  (forall c, f c = g c) -> flat_map_string f s = flat_map_string g s.
Proof.
  intros H; induction s as [|c s IH]; simpl; [reflexivity|].
  now rewrite H, IH.
Qed.

Lemma flat_map_string_compose (f g : ascii -> string) (s : string) :
  flat_map_string g (flat_map_string f s)
  = flat_map_string (fun c => flat_map_string g (f c)) s.
Proof.
  induction s as [|c s IH]; simpl; [reflexivity|].
  now rewrite flat_map_string_app, IH.
Qed.

(** A global replace of one character is a character-wise substitution. *)
Lemma replaceAll_flat_map (c : ascii) (rep s : string) :
  replaceAll c rep s
  = flat_map_string (fun a => if Ascii.eqb a c then rep else String a "") s.
Proof.
  induction s as [|a s IH]; simpl; [reflexivity|].
  rewrite IH. now destruct (Ascii.eqb a c).
Qed.

(** The eight passes never touch what an earlier pass wrote, so together
    they are one substitution. *)
Lemma escapeText_charwise (s : string) :
  escapeText s = flat_map_string escapeChar s.
Proof.
  unfold escapeText.
  rewrite !replaceAll_flat_map, !flat_map_string_compose.
  apply flat_map_string_ext.
  intros c. destruct c as [[] [] [] [] [] [] [] []]; reflexivity.
Qed.



Lemma unescape1_escapeChar (c : ascii) (r : string) :
  notTab c = true -> unescape1 (escapeChar c ++ r) = Some (c, r).
Proof.
  destruct c as [[] [] [] [] [] [] [] []]; intros H;
    try discriminate H; reflexivity.
Qed.

Lemma escapeText_cons (c : ascii) (s : string) :
  escapeText (String c s) = escapeChar c ++ escapeText s.
Proof. now rewrite !escapeText_charwise. Qed.

Lemma escapeText_app (a b : string) :
  escapeText (a ++ b) = escapeText a ++ escapeText b.
Proof. rewrite !escapeText_charwise. apply flat_map_string_app. Qed.

Lemma escapeText_injective_without_tabs (a b : string) :
  forallb_string notTab a = true -> forallb_string notTab b = true ->
  escapeText a = escapeText b -> a = b.
Proof.
  revert b. induction a as [|c a IH]; intros [|d b] Ha Hb H.
  - reflexivity.
  - cbn [forallb_string] in Hb. apply andb_true_iff in Hb. destruct Hb as [Hd _].
    rewrite escapeText_cons in H. apply (f_equal unescape1) in H.
    rewrite unescape1_escapeChar in H by exact Hd. discriminate H.
  - cbn [forallb_string] in Ha. apply andb_true_iff in Ha. destruct Ha as [Hc _].
    rewrite escapeText_cons in H. apply (f_equal unescape1) in H.
    rewrite unescape1_escapeChar in H by exact Hc. discriminate H.
  - cbn [forallb_string] in Ha, Hb.
    apply andb_true_iff in Ha. destruct Ha as [Hc Ha].
    apply andb_true_iff in Hb. destruct Hb as [Hd Hb].
    rewrite !escapeText_cons in H. apply (f_equal unescape1) in H.
    rewrite !unescape1_escapeChar in H by assumption.
    injection H as -> H. f_equal. now apply IH.
Qed.

Lemma expandTabs_without_tabs (s : string) :
  forallb_string notTab (expandTabs s) = true.
Proof.
  unfold expandTabs. induction s as [|c s IH]; [reflexivity|].
  cbn [replaceAll]. destruct (Ascii.eqb c TAB) eqn:E.
  - cbn. exact IH.
  - cbn [forallb_string]. unfold notTab at 1. now rewrite E, IH.
Qed.

Lemma escapeText_expandTabs (s : string) :
  escapeText (expandTabs s) = escapeText s.
Proof.
  unfold expandTabs.
  rewrite !escapeText_charwise, replaceAll_flat_map, flat_map_string_compose.
  apply flat_map_string_ext.
  intros c. destruct c as [[] [] [] [] [] [] [] []]; reflexivity.
Qed.

Lemma escapeChar_length (c : ascii) :
  (1 <= String.length (escapeChar c) <= 24)%nat.
Proof. destruct c as [[] [] [] [] [] [] [] []]; cbn; lia. Qed.





(* ------------------------------------------------------------------ *)
(** ** The template builder                                            *)
(* ------------------------------------------------------------------ *)

Lemma text_before_code :
  exists t, text_368_373 = t ++ "<pre><code>".
Proof.
  exists (take (String.length text_368_373 - 11) text_368_373).
  vm_compute. reflexivity.
Qed.

Lemma text_after_code :
  exists t, text_373_385 = "</code></pre>" ++ t.
Proof.
  exists (substring 13 (String.length text_373_385 - 13) text_373_385).
  vm_compute. reflexivity.
Qed.

Lemma optionOr_hasType (props : list (string * json)) (name : string) (dflt : json) :
  wellTyped (Some (JObj props)) = true ->
  In name optionNames ->
  hasType name dflt = true ->
  hasType name (optionOr (JObj props) name dflt) = true.
Proof.
  intros Hw Hin Hd. unfold wellTyped in Hw.
  rewrite forallb_forall in Hw. specialize (Hw name Hin).
  unfold optionOr, getProp. now destruct (lookup name props).
Qed.

Ltac field_shape H x E :=
  match type of H with
  | hasType _ ?v = true =>
      destruct v as [|x|x|x| |] eqn:E; try discriminate H; clear H
  end.

Section BuilderFacts.

Variable toUpperCase : string -> string.
Variable lineMinHeight : string -> string -> string.

Lemma document_slot
    (fontFamily fontFamilyCSS backgroundColor_s fontSize_s lineHeight_s
     padding_s tabSize_s language_s language_upper showLineNumbers_s : string)
    (isDark : bool) (themeColors : themeEntry)
    (showWindowControls showLineNumbers : json) :
  exists pre post, forall escaped,
    document lineMinHeight fontFamily fontFamilyCSS backgroundColor_s
      fontSize_s lineHeight_s padding_s tabSize_s language_s language_upper
      showLineNumbers_s isDark themeColors showWindowControls
      showLineNumbers escaped
    = pre ++ "<pre><code>" ++ escaped ++ "</code></pre>" ++ post.
Proof.
  destruct text_before_code as [before Hb].
  destruct text_after_code as [after Ha].
  unfold document. rewrite Hb, Ha.
  eexists.
  exists (after ++ language_s ++ text_385_426 ++ showLineNumbers_s ++ text_426_443).
  intros escaped.
  rewrite (append_assoc "</code></pre>").
  rewrite (append_assoc before "<pre><code>").
  set (slot := "<pre><code>" ++ _). clearbody slot.
  repeat rewrite <- append_assoc.
  reflexivity.
Qed.


(** On options of the documented types every conversion of the builder
    succeeds: what is left is the escaping of the code and the filling of
    the template. *)
Lemma generateHTMLTemplate_typed (options : option json) :
  wellTyped options = true ->
  exists theme fontFamily fontFamilyCSS backgroundColor fontSize lineHeight
         padding tabSize language showLineNumbers_s
         showWindowControls showLineNumbers,
    forall code,
      generateHTMLTemplate toUpperCase lineMinHeight code options
      = obind (escapeHTML code) (fun escaped =>
          Ok (document lineMinHeight fontFamily fontFamilyCSS backgroundColor
                fontSize lineHeight padding tabSize language
                (if truthy showWindowControls then toUpperCase language else "")
                showLineNumbers_s (theme =? "dark") (resolveTheme theme)
                showWindowControls showLineNumbers escaped)).
Proof.
  intros Hw.
  assert (Hobj : exists props, wellTyped (Some (JObj props)) = true /\
            forall code,
              generateHTMLTemplate toUpperCase lineMinHeight code options
              = generateHTMLTemplate toUpperCase lineMinHeight code
                  (Some (JObj props))).
  { destruct options as [[| | | | |props]|]; try discriminate Hw.
    - exists props. now split.
    - exists []. now split. }
  destruct Hobj as [props [Hp Heq]]. clear Hw.
  pose proof (optionOr_hasType props "theme" (JStr "dark") Hp) as H1.
  pose proof (optionOr_hasType props "backgroundColor" (JStr "#262424") Hp) as H2.
  pose proof (optionOr_hasType props "fontFamily" (JStr "Fira Code") Hp) as H3.
  pose proof (optionOr_hasType props "fontSize" (JStr "14px") Hp) as H4.
  pose proof (optionOr_hasType props "language" (JStr "auto") Hp) as H5.
  pose proof (optionOr_hasType props "showLineNumbers" (JBool true) Hp) as H6.
  pose proof (optionOr_hasType props "showWindowControls" (JBool true) Hp) as H7.
  pose proof (optionOr_hasType props "padding" (JStr "40px") Hp) as H8.
  pose proof (optionOr_hasType props "lineHeight" (JStr "1.6") Hp) as H9.
  pose proof (optionOr_hasType props "tabSize" (JNum 2) Hp) as H10.
  specialize (H1 ltac:(simpl; tauto) eq_refl).
  specialize (H2 ltac:(simpl; tauto) eq_refl).
  specialize (H3 ltac:(simpl; tauto) eq_refl).
  specialize (H4 ltac:(simpl; tauto) eq_refl).
  specialize (H5 ltac:(simpl; tauto) eq_refl).
  specialize (H6 ltac:(simpl; tauto) eq_refl).
  specialize (H7 ltac:(simpl; tauto) eq_refl).
  specialize (H8 ltac:(simpl; tauto) eq_refl).
  specialize (H9 ltac:(simpl; tauto) eq_refl).
  specialize (H10 ltac:(simpl; tauto) eq_refl).
  field_shape H1 theme E1. field_shape H2 backgroundColor E2.
  field_shape H3 fontFamily E3. field_shape H4 fontSize E4.
  field_shape H5 language E5. field_shape H6 showLineNumbers E6.
  field_shape H7 showWindowControls E7. field_shape H8 padding E8.
  field_shape H10 tabSize E10.
  assert (H9' : exists lh, ToString (optionOr (JObj props) "lineHeight" (JStr "1.6")) = Ok lh).
  { destruct (optionOr (JObj props) "lineHeight" (JStr "1.6"));
      try discriminate H9; simpl; eauto. }
  destruct H9' as [lineHeight E9]. clear H9.
  exists theme, fontFamily,
    (if includesChar " " fontFamily then "'" ++ fontFamily ++ "'" else fontFamily),
    backgroundColor, fontSize, lineHeight, padding, (Z_to_string tabSize),
    language, (if showLineNumbers then "true" else "false"),
    (JBool showWindowControls), (JBool showLineNumbers).
  intros code. rewrite Heq.
  unfold generateHTMLTemplate. cbv zeta.
  rewrite E1, E2, E3, E4, E5, E6, E7, E8, E9, E10.
  cbn [obind ToString truthy].
  destruct showWindowControls, showLineNumbers; cbn [obind];
    destruct (escapeHTML code); reflexivity.
Qed.


Lemma generateHTMLTemplate_slot (options : option json) :
  wellTyped options = true ->
  exists pre post, forall code,
    generateHTMLTemplate toUpperCase lineMinHeight code options
    = obind (escapeHTML code) (fun escaped =>
        Ok (pre ++ "<pre><code>" ++ escaped ++ "</code></pre>" ++ post)).
Proof.
  intros Hw.
  destruct (generateHTMLTemplate_typed options Hw)
    as (theme & ff & ffc & bg & fs & lh & pad & ts & lang & sln_s & swc & sln & H).
  destruct (document_slot ff ffc bg fs lh pad ts lang
              (if truthy swc then toUpperCase lang else "") sln_s
              (theme =? "dark") (resolveTheme theme) swc sln)
    as (pre & post & Hd).
  exists pre, post. intros code. rewrite H.
  destruct (escapeHTML code); simpl; [now rewrite Hd | reflexivity].
Qed.

(** The builder does not throw on options of the documented types and a
    code that is a string or falsy. *)
Lemma generateHTMLTemplate_never_throws (options : option json) (code : option json) :
  wellTyped options = true ->
  (truthy_opt code = false \/ exists s, code = Some (JStr s)) ->
  exists html, generateHTMLTemplate toUpperCase lineMinHeight code options = Ok html.
Proof.
  intros Hw Hc.
  destruct (generateHTMLTemplate_slot options Hw) as (pre & post & H).
  rewrite H. unfold escapeHTML.
  destruct Hc as [Hc | [s Hc]].
  - rewrite Hc. simpl. eauto.
  - subst code. destruct s; simpl; eauto.
Qed.

(** C9: [escapeHTML] answers the empty string for every falsy argument
    (undefined, null, the empty string, 0, false), so the builder, given
    such a code and options of the documented types, returns a document
    whose code block is empty. *)
Theorem escapeHTML_falsy_gives_empty_block (str : option json) :
  truthy_opt str = false ->
  escapeHTML str = Ok "" /\
  forall options, wellTyped options = true ->
    exists pre post,
      generateHTMLTemplate toUpperCase lineMinHeight str options
      = Ok (pre ++ "<pre><code></code></pre>" ++ post).
Proof.
  intros Hf.
  assert (He : escapeHTML str = Ok "") by (unfold escapeHTML; now rewrite Hf).
  split; [exact He|].
  intros options Hw.
  destruct (generateHTMLTemplate_slot options Hw) as (pre & post & H).
  exists pre, post. rewrite H, He. reflexivity.
Qed.


End BuilderFacts.

Lemma resolveTheme_unknown (theme : string) :
  theme <> "dark" -> theme <> "light" -> theme <> "solarized" ->
  existsb (String.eqb theme) objectPrototypeNames = false ->
  resolveTheme theme = Colors theme_dark.
Proof.
  intros H1 H2 H3 H4. unfold resolveTheme, themes.
  apply String.eqb_neq in H1, H2, H3. now rewrite H1, H2, H3, H4.
Qed.

Lemma escapeHTML_falsy_witness :
  truthy_opt None = false /\
  (escapeHTML None = Ok "" /\
   forall options, wellTyped options = true ->
     exists pre post,
       generateHTMLTemplate upperAscii fixedMinHeight None options
       = Ok (pre ++ "<pre><code></code></pre>" ++ post)).
Proof.
  split; [reflexivity|].
  apply (escapeHTML_falsy_gives_empty_block upperAscii fixedMinHeight None).
  reflexivity.
Defined.

(** C4 at the theme [constructor]: the options are of the documented
    types and the builder returns a document, but [themes[theme]] finds the
    member that the object literal inherits, the dark palette is not
    substituted, and each of the twelve colour declarations of the document
    reads [color: undefined;].  An unknown theme such as [neon] does get
    the dark palette. *)
Lemma theme_constructor_is_not_dark :
  wellTyped constructorOptions = true /\
  resolveTheme "neon" = Colors theme_dark /\
  resolveTheme "constructor" = Inherited /\
  exists html,
    generateHTMLTemplate upperAscii fixedMinHeight (Some (JStr "x")) constructorOptions
    = Ok html
    /\ occurrences "color: undefined;" html = 12
    /\ occurrences ("color: " ++ c_text theme_dark ++ ";") html = 0.
Proof.
  repeat split.
  eexists. split; [vm_compute; reflexivity|].
  split; vm_compute; reflexivity.
Qed.



(* ------------------------------------------------------------------ *)
(** ** The cache key                                                   *)
(* ------------------------------------------------------------------ *)

(** A run of characters of one class, followed by a character outside the
    class, is determined by the text it starts. *)
Lemma span_unique (p : ascii -> bool) (a b k1 k2 : string) :
  forallb_string p a = true -> forallb_string p b = true ->
  headFails p k1 -> headFails p k2 ->
  a ++ k1 = b ++ k2 -> a = b /\ k1 = k2.
Proof.
  revert b. induction a as [|x a IH]; intros b Ha Hb H1 H2 H.
  - destruct b as [|y b]; [now split|].
    simpl in *. apply andb_true_iff in Hb. destruct Hb as [Hy _].
    subst k1. simpl in H1. congruence.
  - simpl in Ha. apply andb_true_iff in Ha. destruct Ha as [Hx Ha].
    destruct b as [|y b].
    + simpl in H. subst k2. simpl in H2. congruence.
    + simpl in Hb. apply andb_true_iff in Hb. destruct Hb as [Hy Hb].
      simpl in H. injection H as -> H.
      destruct (IH b Ha Hb H1 H2 H) as [-> ->]. now split.
Qed.

Lemma append_inv_head (a x y : string) : a ++ x = a ++ y -> x = y.
Proof. induction a; simpl; intros H; [exact H | injection H; auto]. Qed.

(** *** UTF-8 *)

Lemma N_of_ascii_of_N (n : N) : (n < 256)%N -> N_of_ascii (ascii_of_N n) = n.
Proof. apply N_ascii_embedding. Qed.

Lemma utf8Decode1_scalar (p : N) (r : list ascii) :
  isScalar p -> utf8Decode1 (utf8Scalar p ++ r)%list = Some (p, r).
Proof.
  unfold isScalar, utf8Scalar. intros Hp.
  destruct (N.ltb_spec p 0x80) as [H1|H1].
  - cbn [List.app utf8Decode1]. cbv zeta.
    rewrite N_of_ascii_of_N by lia.
    destruct (N.ltb_spec p 0x80); [reflexivity | lia].
  - destruct (N.ltb_spec p 0x800) as [H2|H2].
    + cbn [List.app utf8Decode1]. cbv zeta.
      rewrite !N_of_ascii_of_N by lia.
      destruct (N.ltb_spec (0xC0 + p / 0x40) 0x80); [lia|].
      destruct (N.ltb_spec (0xC0 + p / 0x40) 0xE0); [|lia].
      f_equal. f_equal. lia.
    + destruct (N.ltb_spec p 0x10000) as [H3|H3].
      * cbn [List.app utf8Decode1]. cbv zeta.
        rewrite !N_of_ascii_of_N by lia.
        destruct (N.ltb_spec (0xE0 + p / 0x1000) 0x80); [lia|].
        destruct (N.ltb_spec (0xE0 + p / 0x1000) 0xE0); [lia|].
        destruct (N.ltb_spec (0xE0 + p / 0x1000) 0xF0); [|lia].
        f_equal. f_equal. lia.
      * cbn [List.app utf8Decode1]. cbv zeta.
        rewrite !N_of_ascii_of_N by lia.
        destruct (N.ltb_spec (0xF0 + p / 0x40000) 0x80); [lia|].
        destruct (N.ltb_spec (0xF0 + p / 0x40000) 0xE0); [lia|].
        destruct (N.ltb_spec (0xF0 + p / 0x40000) 0xF0); [lia|].
        f_equal. f_equal. lia.
Qed.

Lemma utf8Scalar_nonempty (p : N) (r : list ascii) :
  (utf8Scalar p ++ r)%list <> [].
Proof.
  unfold utf8Scalar.
  destruct (_ <? _)%N; [discriminate|].
  destruct (_ <? _)%N; [discriminate|].
  destruct (_ <? _)%N; discriminate.
Qed.

Lemma utf8Scalars_injective (l1 l2 : list N) :
  Forall isScalar l1 -> Forall isScalar l2 ->
  flat_map utf8Scalar l1 = flat_map utf8Scalar l2 -> l1 = l2.
Proof.
  intros H1. revert l2.
  induction H1 as [|p l1 Hp _ IH]; intros l2 H2 H;
    destruct H2 as [|q l2 Hq H2]; cbn [flat_map] in H.
  - reflexivity.
  - symmetry in H. now apply utf8Scalar_nonempty in H.
  - now apply utf8Scalar_nonempty in H.
  - apply (f_equal utf8Decode1) in H.
    rewrite !utf8Decode1_scalar in H by assumption.
    injection H as -> H. f_equal. now apply IH.
Qed.

Lemma scalars_are_scalars (units : list N) :
  wellFormedUnits units = true -> Forall isScalar (scalars units).
Proof.
  unfold wellFormedUnits, isScalar.
  assert (P : forall n units, (List.length units <= n)%nat ->
              forallb (fun u => (u <? 65536)%N) units = true ->
              Forall (fun p => (p < 0x110000)%N) (scalars units)).
  { induction n as [|n IH]; intros [|u rest] Hlen Hall;
      try constructor; cbn [List.length] in Hlen; try lia.
    cbn [forallb] in Hall. apply andb_true_iff in Hall.
    destruct Hall as [Hu Hrest]. apply N.ltb_lt in Hu.
    cbn [scalars].
    destruct (isHighSurrogate u) eqn:Eh.
    - destruct rest as [|v rest']; [repeat constructor; lia|].
      cbn [forallb] in Hrest. pose proof Hrest as Hrest0.
      apply andb_true_iff in Hrest. destruct Hrest as [Hv Hrest'].
      apply N.ltb_lt in Hv.
      destruct (isLowSurrogate v) eqn:El.
      + constructor.
        * unfold isHighSurrogate, isLowSurrogate in *.
          apply andb_true_iff in Eh, El.
          rewrite !N.leb_le in Eh, El. lia.
        * apply IH; [cbn [List.length] in Hlen; lia | exact Hrest'].
      + constructor; [lia|].
        apply IH; [cbn [List.length] in *; lia | exact Hrest0].
    - destruct (isLowSurrogate u).
      + constructor; [lia|]. apply IH; [lia | exact Hrest].
      + constructor; [lia|]. apply IH; [lia | exact Hrest]. }
  apply (P (List.length units)). lia.
Qed.

(** The bytes of a code determine its code points, and nothing more. *)
Lemma utf8Units_injective (c1 c2 : list N) :
  wellFormedUnits c1 = true -> wellFormedUnits c2 = true ->
  utf8Units c1 = utf8Units c2 -> scalars c1 = scalars c2.
Proof.
  intros H1 H2. apply utf8Scalars_injective; now apply scalars_are_scalars.
Qed.

(** A string of the model holds no surrogate: its code points are its
    code units. *)
Lemma scalars_unitsOf (s : string) : scalars (unitsOf s) = unitsOf s.
Proof.
  unfold unitsOf. induction s as [|c s IH]; [reflexivity|].
  cbn [list_ascii_of_string map scalars].
  assert (Hc : (N_of_ascii c < 256)%N) by apply N_ascii_bounded.
  unfold isHighSurrogate, isLowSurrogate.
  destruct (N.leb_spec 0xD800 (N_of_ascii c)); [lia|].
  destruct (N.leb_spec 0xDC00 (N_of_ascii c)); [lia|].
  cbn [andb]. now rewrite IH.
Qed.

Lemma wellFormed_unitsOf (s : string) : wellFormedUnits (unitsOf s) = true.
Proof.
  unfold wellFormedUnits, unitsOf. induction s as [|c s IH]; [reflexivity|].
  cbn [list_ascii_of_string map forallb]. rewrite IH, andb_true_r.
  apply N.ltb_lt. pose proof (N_ascii_bounded c). lia.
Qed.

Lemma unitsOf_injective (s1 s2 : string) : unitsOf s1 = unitsOf s2 -> s1 = s2.
Proof.
  unfold unitsOf. revert s2.
  induction s1 as [|c1 s1 IH]; intros [|c2 s2] H;
    cbn [list_ascii_of_string map] in H; try discriminate H; [reflexivity|].
  injection H as Hc H. f_equal; [|now apply IH].
  rewrite <- (ascii_N_embedding c1), <- (ascii_N_embedding c2).
  now rewrite Hc.
Qed.

(** *** Base64 *)

Lemma base64Digit_index (n : nat) :
  n < 64 -> indexOf (base64Digit n) base64Alphabet = n
            /\ isBase64Digit (base64Digit n) = true.
Proof.
  intros H.
  do 64 (destruct n as [|n]; [split; reflexivity|]). lia.
Qed.

Lemma base64Digit_injective (n m : nat) :
  n < 64 -> m < 64 -> base64Digit n = base64Digit m -> n = m.
Proof.
  intros Hn Hm H.
  destruct (base64Digit_index n Hn) as [<- _].
  destruct (base64Digit_index m Hm) as [<- _]. now rewrite H.
Qed.

Lemma base64Digit_not_pad (n : nat) : n < 64 -> base64Digit n <> "="%char.
Proof.
  intros Hn H. destruct (base64Digit_index n Hn) as [_ Hd].
  rewrite H in Hd. discriminate Hd.
Qed.

Lemma list_ind3 {A} (P : list A -> Prop) :
  P [] -> (forall a, P [a]) -> (forall a b, P [a; b]) ->
  (forall a b c l, P l -> P (a :: b :: c :: l)) ->
  forall l, P l.
Proof.
  intros H0 H1 H2 H3.
  fix rec 1. intros [|a [|b [|c l]]];
    [apply H0 | apply H1 | apply H2 | apply H3, rec].
Qed.

Lemma nat_of_ascii_lt (a : ascii) : nat_of_ascii a < 256.
Proof. apply nat_ascii_bounded. Qed.

Lemma nat_of_ascii_injective (a b : ascii) :
  nat_of_ascii a = nat_of_ascii b -> a = b.
Proof.
  intros H. rewrite <- (ascii_nat_embedding a), <- (ascii_nat_embedding b).
  now rewrite H.
Qed.

Lemma String_inj (a b : ascii) (s t : string) :
  String a s = String b t -> a = b /\ s = t.
Proof. intros H. injection H. auto. Qed.

Ltac string_inj H :=
  repeat (let H1 := fresh "Hc" in
          apply String_inj in H; destruct H as [H1 H]).

Lemma base64_injective (l1 l2 : list ascii) : base64 l1 = base64 l2 -> l1 = l2.
Proof.
  revert l2. induction l1 as [|a|a b|a b c l1 IH] using list_ind3;
    intros l2; destruct l2 as [|a' [|b' [|c' l2]]]; intros H;
    try discriminate H; try reflexivity.
  all: cbn [base64] in H; cbv zeta in H.
  all: pose proof (nat_of_ascii_lt a); pose proof (nat_of_ascii_lt a').
  all: try pose proof (nat_of_ascii_lt b); try pose proof (nat_of_ascii_lt b').
  all: try pose proof (nat_of_ascii_lt c); try pose proof (nat_of_ascii_lt c').
  all: string_inj H.
  all: repeat match goal with
         | H : base64Digit ?n = "="%char |- _ =>
             exfalso; apply (base64Digit_not_pad n); [ lia | exact H ]
         | H : "="%char = base64Digit ?n |- _ => symmetry in H
         | H : base64Digit ?n = base64Digit ?m |- _ =>
             apply base64Digit_injective in H; [ | lia | lia ]
         end.
  - f_equal. apply nat_of_ascii_injective. lia.
  - assert (nat_of_ascii a = nat_of_ascii a' /\ nat_of_ascii b = nat_of_ascii b')
      as [Ea Eb] by lia.
    apply nat_of_ascii_injective in Ea, Eb. now subst.
  - assert (nat_of_ascii a = nat_of_ascii a' /\ nat_of_ascii b = nat_of_ascii b'
            /\ nat_of_ascii c = nat_of_ascii c')
      as (Ea & Eb & Ec) by lia.
    apply nat_of_ascii_injective in Ea, Eb, Ec. subst.
    f_equal. f_equal. f_equal. now apply IH.
Qed.

Lemma base64Digit_notColon (n : nat) : notColon (base64Digit n) = true.
Proof.
  destruct (Nat.lt_ge_cases n 64) as [H|H].
  - do 64 (destruct n as [|n]; [reflexivity|]). lia.
  - unfold base64Digit.
    replace (String.get n base64Alphabet) with (@None ascii); [reflexivity|].
    do 64 (destruct n as [|n]; [lia|]). reflexivity.
Qed.

Lemma base64_notColon (l : list ascii) :
  forallb_string notColon (base64 l) = true.
Proof.
  induction l as [|a|a b|a b c l IH] using list_ind3;
    cbn [base64 forallb_string]; cbv zeta; cbn [forallb_string];
    rewrite ?base64Digit_notColon, ?IH; reflexivity.
Qed.

(** The key determines the base64 text and the JSON text it is made of. *)
Lemma cacheKey_parts (c1 c2 : list N) (o1 o2 : json) :
  cacheKeyOf c1 o1 = cacheKeyOf c2 o2 ->
  base64 (utf8Units c1) = base64 (utf8Units c2)
  /\ JSON_stringify o1 = JSON_stringify o2.
Proof.
  unfold cacheKeyOf. intros H. apply append_inv_head in H.
  apply (span_unique notColon) in H;
    try apply base64_notColon; try reflexivity.
  destruct H as [Hb Hj]. split; [exact Hb|].
  now apply (append_inv_head ":") in Hj.
Qed.

(** *** JSON.stringify *)

Lemma string_of_uint_digits (d : Decimal.uint) :
  forallb_string isNumChar (NilEmpty.string_of_uint d) = true.
Proof. induction d; simpl; auto. Qed.

Lemma Z_to_string_numeric (n : Z) :
  forallb_string isNumChar (Z_to_string n) = true.
Proof.
  unfold Z_to_string, NilZero.string_of_int, NilZero.string_of_uint.
  destruct (Z.to_int n) as [d|d]; destruct d; simpl;
    try reflexivity; apply string_of_uint_digits.
Qed.

Lemma Z_to_string_nonempty (n : Z) :
  exists c rest, Z_to_string n = String c rest /\ isNumChar c = true.
Proof.
  pose proof (Z_to_string_numeric n) as H.
  destruct (Z_to_string n) as [|c rest] eqn:E.
  - exfalso. unfold Z_to_string, NilZero.string_of_int, NilZero.string_of_uint in E.
    destruct (Z.to_int n) as [d|d]; destruct d; discriminate E.
  - simpl in H. apply andb_true_iff in H. destruct H as [H _]. eauto.
Qed.

Lemma Z_to_string_injective (n m : Z) : Z_to_string n = Z_to_string m -> n = m.
Proof.
  intros H. apply DecimalZ.to_int_inj.
  assert (P : forall z, NilZero.int_of_string (Z_to_string z) = Some (Z.to_int z)).
  { intros z. unfold Z_to_string. apply NilZero.isi.
    - destruct z; simpl; try discriminate.
      intros E. injection E as E. now apply DecimalPos.Unsigned.to_uint_nonnil in E.
    - destruct z; simpl; try discriminate.
      intros E. injection E as E. now apply DecimalPos.Unsigned.to_uint_nonnil in E. }
  pose proof (P n) as Hn. rewrite H, P in Hn. now injection Hn.
Qed.

Lemma unquoteChar_quoteChar (c : ascii) (r : string) :
  unquoteChar (quoteChar c ++ r) = Some (c, r).
Proof. destruct c as [[] [] [] [] [] [] [] []]; reflexivity. Qed.

Lemma quoted_injective (s1 s2 k1 k2 : string) :
  flat_map_string quoteChar s1 ++ dq ++ k1
  = flat_map_string quoteChar s2 ++ dq ++ k2 ->
  s1 = s2 /\ k1 = k2.
Proof.
  revert s2. induction s1 as [|c1 s1 IH]; intros [|c2 s2] H; simpl in H.
  - injection H as H. now split.
  - rewrite append_assoc in H. apply (f_equal unquoteChar) in H.
    rewrite unquoteChar_quoteChar in H. discriminate H.
  - rewrite append_assoc in H. apply (f_equal unquoteChar) in H.
    rewrite unquoteChar_quoteChar in H. discriminate H.
  - rewrite !append_assoc in H. apply (f_equal unquoteChar) in H.
    rewrite !unquoteChar_quoteChar in H. injection H as -> H.
    destruct (IH s2 H) as [-> ->]. now split.
Qed.

Lemma quote_injective (s1 s2 k1 k2 : string) :
  quote s1 ++ k1 = quote s2 ++ k2 -> s1 = s2 /\ k1 = k2.
Proof.
  unfold quote. rewrite !append_assoc. intros H.
  apply append_inv_head in H.
  now apply quoted_injective.
Qed.

Lemma stringify_arr (l : list json) :
  printJSON (JArr l) = "[" ++ join "," (map printJSON l) ++ "]".
Proof. reflexivity. Qed.

Lemma stringify_obj (props : list (string * json)) :
  printJSON (JObj props) = "{" ++ join "," (map entryText props) ++ "}".
Proof. reflexivity. Qed.

Lemma headTag_numeric (c : ascii) (r : string) :
  isNumChar c = true -> headTag (String c r) = 4.
Proof.
  destruct c as [[] [] [] [] [] [] [] []]; vm_compute; congruence.
Qed.

Lemma headTag_stringify (v : json) (k : string) :
  headTag (printJSON v ++ k) = tagOf v.
Proof.
  destruct v as [|[]|n|s|l|props]; try reflexivity.
  destruct (Z_to_string_nonempty n) as (c & r & E & Hc).
  change (headTag (Z_to_string n ++ k) = 4). rewrite E.
  change (String c r ++ k) with (String c (r ++ k)).
  now apply headTag_numeric.
Qed.

Lemma json_ind_nested (P : json -> Prop) :
  P JNull -> (forall b, P (JBool b)) -> (forall n, P (JNum n)) ->
  (forall s, P (JStr s)) ->
  (forall items, Forall P items -> P (JArr items)) ->
  (forall props, Forall (fun kv => P (snd kv)) props -> P (JObj props)) ->
  forall v, P v.
Proof.
  intros Hnull Hbool Hnum Hstr Harr Hobj.
  fix rec 1. intros [|b|n|s|items|props].
  - exact Hnull.
  - apply Hbool.
  - apply Hnum.
  - apply Hstr.
  - apply Harr. induction items as [|x items IH]; constructor; [apply rec | exact IH].
  - apply Hobj. induction props as [|[k x] props IH]; constructor;
      [apply rec | exact IH].
Qed.

Lemma follow_joinTail (close : ascii) (l : list string) (k : string) :
  isNumChar close = false -> follow (joinTail "," l ++ String close k).
Proof. intros H. destruct l; simpl; [exact H | reflexivity]. Qed.

Lemma joinTail_injective {A} (pr : A -> string) (close : ascii)
    (l1 l2 : list A) (k1 k2 : string) :
  Forall (prefixFree pr) l1 ->
  isNumChar close = false -> close <> ","%char ->
  joinTail "," (map pr l1) ++ String close k1
  = joinTail "," (map pr l2) ++ String close k2 ->
  l1 = l2 /\ k1 = k2.
Proof.
  intros Hall Hc Hcomma. revert l2.
  induction Hall as [|x l1 Hx Hall IH]; intros [|y l2] H; simpl in H.
  - injection H as H. now split.
  - injection H as H _. contradiction.
  - injection H as H _. symmetry in H. contradiction.
  - injection H as H. rewrite !append_assoc in H.
    apply Hx in H; try (now apply follow_joinTail).
    destruct H as [-> H]. destruct (IH l2 H) as [-> ->]. now split.
Qed.

Lemma join_injective {A} (pr : A -> string) (close : ascii)
    (l1 l2 : list A) (k1 k2 : string) :
  Forall (prefixFree pr) l1 ->
  isNumChar close = false -> close <> ","%char ->
  (forall y k, exists c r, pr y ++ k = String c r /\ c <> close) ->
  join "," (map pr l1) ++ String close k1
  = join "," (map pr l2) ++ String close k2 ->
  l1 = l2 /\ k1 = k2.
Proof.
  intros Hall Hc Hcomma Hhead H.
  destruct l1 as [|x l1], l2 as [|y l2]; simpl in H.
  - injection H as H. now split.
  - destruct (Hhead y (joinTail "," (map pr l2) ++ String close k2))
      as (c & r & E & Hne).
    rewrite append_assoc in H. rewrite E in H. injection H as H _.
    symmetry in H. contradiction.
  - destruct (Hhead x (joinTail "," (map pr l1) ++ String close k1))
      as (c & r & E & Hne).
    rewrite append_assoc in H. rewrite E in H. injection H as H _.
    contradiction.
  - rewrite !append_assoc in H. inversion Hall as [|? ? Hx Hrest]; subst.
    apply Hx in H; try (now apply follow_joinTail).
    destruct H as [-> H].
    destruct (joinTail_injective pr close l1 l2 k1 k2 Hrest Hc Hcomma H)
      as [-> ->].
    now split.
Qed.

Lemma stringify_head (close : ascii) (y : json) (k : string) :
  headTag (String close "") = 8 ->
  exists c r, printJSON y ++ k = String c r /\ c <> close.
Proof.
  intros Hclose. pose proof (headTag_stringify y k) as H.
  destruct (printJSON y ++ k) as [|c r] eqn:E.
  - destruct y as [|[]| | | |]; discriminate H.
  - exists c, r. split; [reflexivity|]. intros ->.
    simpl in H, Hclose. rewrite Hclose in H.
    destruct y as [|[]| | | |]; discriminate H.
Qed.

Lemma entryText_head (y : string * json) (k : string) :
  exists c r, entryText y ++ k = String c r /\ c <> "}"%char.
Proof.
  unfold entryText, quote. simpl. eexists. eexists. split; [reflexivity|].
  discriminate.
Qed.

Lemma entryText_prefixFree (kv : string * json) :
  prefixFree printJSON (snd kv) -> prefixFree entryText kv.
Proof.
  intros Hv [k' v'] k1 k2 F1 F2 H. destruct kv as [k v].
  unfold entryText in H. cbn [fst snd] in *. rewrite !append_assoc in H.
  apply quote_injective in H. destruct H as [-> H].
  apply (append_inv_head ":") in H. apply Hv in H; auto.
  destruct H as [-> ->]. now split.
Qed.

(** The printer is prefix-free, hence injective. *)
Lemma stringify_prefixFree (v : json) : prefixFree printJSON v.
Proof.
  induction v as [|b|n|s|items IH|props IH] using json_ind_nested;
    intros y k1 k2 F1 F2 H;
    pose proof (f_equal headTag H) as Htag;
    rewrite !headTag_stringify in Htag;
    destruct y as [|b'|n'|s'|items'|props']; try destruct b;
    try destruct b'; try discriminate Htag; clear Htag.
  - simpl in H. apply (append_inv_head "null") in H. now split.
  - simpl in H. apply (append_inv_head "true") in H. now split.
  - simpl in H. apply (append_inv_head "false") in H. now split.
  - simpl in H.
    apply (span_unique isNumChar) in H; auto using Z_to_string_numeric.
    destruct H as [H ->]. apply Z_to_string_injective in H. now subst.
  - simpl in H. apply quote_injective in H. destruct H as [-> ->]. now split.
  - rewrite !stringify_arr, !append_assoc in H.
    apply (append_inv_head "[") in H.
    change ("]" ++ k1) with (String "]" k1) in H.
    change ("]" ++ k2) with (String "]" k2) in H.
    apply join_injective in H; auto; try discriminate.
    + destruct H as [-> ->]. now split.
    + intros y k. now apply stringify_head.
  - rewrite !stringify_obj, !append_assoc in H.
    apply (append_inv_head "{") in H.
    change ("}" ++ k1) with (String "}" k1) in H.
    change ("}" ++ k2) with (String "}" k2) in H.
    apply join_injective in H; auto; try discriminate.
    + destruct H as [-> ->]. now split.
    + clear H. induction IH as [|kv props Hkv _ IHp]; constructor; auto.
      now apply entryText_prefixFree.
    + intros y k. apply entryText_head.
Qed.

Lemma printJSON_injective (v1 v2 : json) :
  printJSON v1 = printJSON v2 -> v1 = v2.
Proof.
  intros H.
  destruct (stringify_prefixFree v1 v2 "" "" I I) as [E _]; [|exact E].
  now rewrite !append_nil_r.
Qed.

(** *** The order of enumeration *)

Lemma insertByIndex_map {A B} (g : string -> A -> B) (kv : string * A)
    (l : list (string * A)) :
  insertByIndex (fst kv, g (fst kv) (snd kv))
    (map (fun x => (fst x, g (fst x) (snd x))) l)
  = map (fun x => (fst x, g (fst x) (snd x))) (insertByIndex kv l).
Proof.
  induction l as [|x l IH]; [reflexivity|].
  cbn [map insertByIndex fst].
  destruct (indexOfName (fst kv) <=? indexOfName (fst x))%N; [reflexivity|].
  cbn [map]. now rewrite IH.
Qed.

Lemma filter_map_entries {A B} (g : string -> A -> B)
    (keep : string -> bool) (l : list (string * A)) :
  filter (fun kv => keep (fst kv)) (map (fun x => (fst x, g (fst x) (snd x))) l)
  = map (fun x => (fst x, g (fst x) (snd x)))
      (filter (fun kv => keep (fst kv)) l).
Proof.
  induction l as [|x l IH]; [reflexivity|].
  cbn [map filter fst]. destruct (keep (fst x)); cbn [map]; now rewrite IH.
Qed.

Lemma ownOrder_map {A B} (g : string -> A -> B) (l : list (string * A)) :
  ownOrder (map (fun x => (fst x, g (fst x) (snd x))) l)
  = map (fun x => (fst x, g (fst x) (snd x))) (ownOrder l).
Proof.
  unfold ownOrder. rewrite List.map_app. f_equal.
  - change (@isIndexed B)
      with (fun kv : string * B =>
              (fun k => match arrayIndex k with Some _ => true | None => false end)
                (fst kv)).
    change (@isIndexed A)
      with (fun kv : string * A =>
              (fun k => match arrayIndex k with Some _ => true | None => false end)
                (fst kv)).
    rewrite filter_map_entries.
    induction (filter _ l) as [|x l' IH]; [reflexivity|].
    cbn [map fold_right]. rewrite IH. apply insertByIndex_map.
  - change (fun kv : string * B => negb (isIndexed kv))
      with (fun kv : string * B =>
              (fun k => negb match arrayIndex k with Some _ => true | None => false end)
                (fst kv)).
    change (fun kv : string * A => negb (isIndexed kv))
      with (fun kv : string * A =>
              (fun k => negb match arrayIndex k with Some _ => true | None => false end)
                (fst kv)).
    apply filter_map_entries.
Qed.

Lemma In_insertByIndex {A} (x kv : string * A) (l : list (string * A)) :
  In x (insertByIndex kv l) -> x = kv \/ In x l.
Proof.
  induction l as [|y l IH]; cbn [insertByIndex In].
  - intros [<- | []]. now left.
  - destruct (_ <=? _)%N; cbn [In].
    + intros [<- | [<- | H]]; auto.
    + intros [<- | H]; auto. destruct (IH H); auto.
Qed.

Lemma In_ownOrder {A} (x : string * A) (l : list (string * A)) :
  In x (ownOrder l) -> In x l.
Proof.
  unfold ownOrder. intros H. apply in_app_or in H. destruct H as [H|H].
  - induction l as [|y l IH]; [contradiction H|].
    cbn [filter] in H. destruct (isIndexed y).
    + cbn [fold_right] in H. apply In_insertByIndex in H.
      destruct H as [-> | H]; [now left | right; now apply IH].
    + right. now apply IH.
  - apply filter_In in H. exact (proj1 H).
Qed.

(** [JSON.stringify] prints a value as the engine enumerates it. *)
Lemma JSON_stringify_enumerated (v : json) :
  JSON_stringify v = printJSON (enumerated v).
Proof.
  induction v as [|b|n|s|items IH|props IH] using json_ind_nested;
    try reflexivity.
  - cbn [JSON_stringify enumerated printJSON]. rewrite List.map_map.
    do 3 f_equal. apply map_ext_in. intros x Hx.
    rewrite Forall_forall in IH. now apply IH.
  - cbn [JSON_stringify enumerated printJSON].
    rewrite (ownOrder_map (fun k x => quote k ++ ":" ++ JSON_stringify x)).
    rewrite (ownOrder_map (fun _ x => enumerated x)).
    rewrite !List.map_map. cbn [fst snd].
    do 3 f_equal. apply map_ext_in. intros x Hx.
    apply In_ownOrder in Hx. rewrite Forall_forall in IH.
    now rewrite (IH x Hx).
Qed.

Lemma JSON_stringify_injective (v1 v2 : json) :
  JSON_stringify v1 = JSON_stringify v2 <-> enumerated v1 = enumerated v2.
Proof.
  rewrite !JSON_stringify_enumerated. split.
  - apply printJSON_injective.
  - now intros ->.
Qed.


(** For the codes of the model, which hold no surrogate, the key
    determines the code itself. *)
Lemma cacheKey_of_model_codes (c1 c2 : string) (o1 o2 : json) :
  cacheKey c1 o1 = cacheKey c2 o2 <-> c1 = c2 /\ enumerated o1 = enumerated o2.
Proof.
  change (cacheKey c1 o1) with (cacheKeyOf (unitsOf c1) o1).
  change (cacheKey c2 o2) with (cacheKeyOf (unitsOf c2) o2).
  split.
  - intros H. apply cacheKey_parts in H. destruct H as [Hb Hj]. split.
    + apply base64_injective, utf8Units_injective in Hb;
        try apply wellFormed_unitsOf.
      rewrite !scalars_unitsOf in Hb. now apply unitsOf_injective.
    + now apply JSON_stringify_injective.
  - intros [-> Ho]. apply JSON_stringify_injective in Ho.
    unfold cacheKeyOf. now rewrite Ho.
Qed.


(** Codes that differ only in surrogates that are not half of a pair have
    one key: [Buffer.from] writes U+FFFD for each of them. *)
Lemma cacheKey_of_lone_surrogates :
  wellFormedUnits [0x61; 0xD800]%N = true
  /\ wellFormedUnits [0x61; 0xDFFF]%N = true
  /\ cacheKeyOf [0x61; 0xD800]%N (JObj [])
     = cacheKeyOf [0x61; 0xDFFF]%N (JObj [])
  /\ cacheKeyOf [0x61; 0xD800]%N (JObj []) = "carbon:Ye+/vQ==:{}".
Proof. repeat split. Qed.

(** Properties whose names are array indices are enumerated first,
    whatever the order in which the object received them: the two objects
    have one text, hence one key. *)
Lemma cacheKey_lists_index_names_first :
  JSON_stringify (JObj [("b", JNum 1); ("2", JNum 3)])
  = "{" ++ dq ++ "2" ++ dq ++ ":3," ++ dq ++ "b" ++ dq ++ ":1}"
  /\ cacheKey "x" (JObj [("b", JNum 1); ("2", JNum 3)])
     = cacheKey "x" (JObj [("2", JNum 3); ("b", JNum 1)])
  /\ JSON_stringify (JObj [("10", JNull); ("9", JNull); ("01", JNull)])
     = "{" ++ dq ++ "9" ++ dq ++ ":null," ++ dq ++ "10" ++ dq ++ ":null,"
       ++ dq ++ "01" ++ dq ++ ":null}".
Proof. repeat split. Qed.

(* ------------------------------------------------------------------ *)
(** ** Closed instances                                                *)
(* ------------------------------------------------------------------ *)

Lemma sampleHtml_built :
  generateHTMLTemplate upperAscii fixedMinHeight (Some (JStr sampleCode))
    (Some (optionsOf sampleBody)) = Ok sampleHtml.
Proof. vm_compute. reflexivity. Qed.

(** The key of the sample request. *)
Lemma cacheKey_of_sample :
  cacheKey sampleCode (optionsOf sampleBody)
  = "carbon:Y29uc29sZS5sb2coJ2hpJyk=:{" ++ dq ++ "theme" ++ dq ++ ":"
    ++ dq ++ "light" ++ dq ++ "}".
Proof. vm_compute. reflexivity. Qed.



Lemma unavailable_then_fallback_witness :
  validationResult emptyTexts sampleBody = []
  /\ getProp sampleBody "code" = Some (JStr sampleCode)
  /\ isBrowserReady (scenario false false) = false
  /\ truthy (cachedValue parseFails (scenario false false)
               (cacheKey sampleCode (optionsOf sampleBody))
               (freshWorld emptyStore)) = false
  /\ (exists w',
        generate upperAscii fixedMinHeight parseFails emptyTexts
          (scenario false false) sampleBody (freshWorld emptyStore)
        = (Ok unavailable, w'))
  /\ (exists fields w',
        fallback (scenario false false) sampleBody (freshWorld emptyStore)
        = (Ok {| status := 200; body := JObj fields |}, w')
        /\ lookup "codePreview" fields = Some (JStr sampleCode)).
Proof.
  assert (H1 : validationResult emptyTexts sampleBody = []) by reflexivity.
  assert (H2 : getProp sampleBody "code" = Some (JStr sampleCode)) by reflexivity.
  assert (H3 : isBrowserReady (scenario false false) = false) by reflexivity.
  assert (H4 : truthy (cachedValue parseFails (scenario false false)
               (cacheKey sampleCode (optionsOf sampleBody))
               (freshWorld emptyStore)) = false) by reflexivity.
  repeat (split; [assumption|]).
  exact (unavailable_then_fallback upperAscii fixedMinHeight parseFails
           emptyTexts (scenario false false) sampleBody sampleCode
           (freshWorld emptyStore) (freshWorld emptyStore) H1 H2 H3 H4).
Defined.

Lemma code_length_boundary_witness :
  getProp (bodyOf (repeatChar "a" 10001)) "code"
  = Some (JStr (repeatChar "a" 10001))
  /\ exists errors,
       generate upperAscii fixedMinHeight parseFails emptyTexts
         (scenario true true) (bodyOf (repeatChar "a" 10001))
         (freshWorld emptyStore)
       = (Ok {| status := 400;
                body := JObj [("success", JBool false);
                              ("errors", JArr (map errorJson errors))] |},
          freshWorld emptyStore)
       /\ In {| err_path := "code";
                err_msg := "Code too long (max 10000 chars)";
                err_value := Some (JStr (repeatChar "a" 10001)) |} errors.
Proof.
  assert (H : getProp (bodyOf (repeatChar "a" 10001)) "code"
              = Some (JStr (repeatChar "a" 10001))) by reflexivity.
  split; [exact H|].
  apply (code_length_boundary upperAscii fixedMinHeight parseFails emptyTexts
           (scenario true true) (bodyOf (repeatChar "a" 10001))
           (repeatChar "a" 10001) (freshWorld emptyStore) H).
  vm_compute. reflexivity.
Defined.

(** The boundary on concrete requests: 10000 characters pass validation,
    10001 are refused. *)
Lemma code_of_10000_is_valid :
  String.length (repeatChar "a" 10000) = 10000%nat
  /\ validationResult emptyTexts (bodyOf (repeatChar "a" 10000)) = [].
Proof. split; vm_compute; reflexivity. Qed.

Lemma code_of_10001_is_refused :
  String.length (repeatChar "a" 10001) = 10001%nat
  /\ List.length (validationResult emptyTexts (bodyOf (repeatChar "a" 10001))) = 1%nat.
Proof. split; vm_compute; reflexivity. Qed.

Lemma cache_hit_response_witness :
  exists w1,
    validationResult emptyTexts sampleBody = []
    /\ getProp sampleBody "code" = Some (JStr sampleCode)
    /\ getFromCache parseStored (scenario true true)
         (cacheKey sampleCode (optionsOf sampleBody)) (freshWorld fullStore)
       = (Ok storedEntry, w1)
    /\ truthy storedEntry = true
    /\ exists fields w',
         generate upperAscii fixedMinHeight parseStored emptyTexts
           (scenario true true) sampleBody (freshWorld fullStore)
         = (Ok {| status := 200; body := JObj fields |}, w')
         /\ lookup "cached" fields = Some (JBool true)
         /\ lookup "timestamp" fields = Some (JStr "2024-06-01T08:00:00.000Z")
         /\ store w' = fullStore.
Proof.
  eexists.
  assert (H1 : validationResult emptyTexts sampleBody = []) by reflexivity.
  assert (H2 : getProp sampleBody "code" = Some (JStr sampleCode)) by reflexivity.
  assert (H4 : truthy storedEntry = true) by reflexivity.
  split; [exact H1|]. split; [exact H2|].
  split; [vm_compute; reflexivity|]. split; [exact H4|].
  destruct (cache_hit_response upperAscii fixedMinHeight parseStored emptyTexts
              (scenario true true) sampleBody sampleCode (freshWorld fullStore)
              _ storedEntry H1 H2 eq_refl H4)
    as (fields & w' & E & Hc & Ht & _ & Hs & _).
  exists fields, w'. repeat split; assumption.
Defined.

(** C7 at a valid request that misses the cache while the browser is
    ready and every collaborator answers: the page is opened, given the
    document, measured, and the screenshot is asked for with the clip of
    the card cut at a height of 1080; the library refuses the call, the
    page is closed and the request is answered 500, without an image. *)
Lemma fresh_render_is_answered_500 :
  exists w',
    generate upperAscii fixedMinHeight parseFails emptyTexts
      (scenario true true) sampleBody (freshWorld emptyStore)
    = (Ok {| status := 500;
             body := JObj [("success", JBool false);
                           ("error", JStr "Failed to generate image");
                           ("timestamp", JStr "2024-06-01T08:00:00.000Z")] |},
       w')
    /\ map eventKind (trace w')
       = ["get"; "log"; "newPage"; "setContent"; "waitForFunction"; "evaluate";
          "screenshot"; "close"; "error"]
    /\ screenshots (trace w')
       = [{| clip_x := 150; clip_y := 40; clip_width := 900;
             clip_height := 1080 |}]
    /\ store w' = emptyStore.
Proof.
  eexists. split; [vm_compute; reflexivity|].
  repeat split.
Qed.

(** C5 at the same request without a cache store: the store is neither
    read nor written, and the answer is 500, without [cached]. *)
Lemma request_without_cache_store :
  exists response w',
    generate upperAscii fixedMinHeight parseFails emptyTexts
      (scenario false true) sampleBody (freshWorld emptyStore)
    = (Ok response, w')
    /\ status response = 500
    /\ getProp (body response) "cached" = None
    /\ existsb isRedisCall (trace w') = false.
Proof.
  eexists. eexists. split; [vm_compute; reflexivity|].
  repeat split.
Qed.

(** The order of events on three paths of the pipeline: a screenshot that
    is refused, a card that is not found, and an evaluation that
    rejects. *)
Lemma refused_screenshot_closes_page :
  exists response w',
    generate upperAscii fixedMinHeight parseFails emptyTexts
      (scenario false true) sampleBody (freshWorld emptyStore)
    = (Ok response, w')
    /\ status response = 500
    /\ map eventKind (trace w')
       = ["log"; "newPage"; "setContent"; "waitForFunction"; "evaluate";
          "screenshot"; "close"; "error"]
    /\ livePages w' = 0%nat.
Proof.
  eexists. eexists. split; [vm_compute; reflexivity|].
  repeat split.
Qed.

Lemma missing_card_closes_page :
  exists response w',
    generate upperAscii fixedMinHeight parseFails emptyTexts
      (scenarioMeasuring (Ok None) false true) sampleBody (freshWorld emptyStore)
    = (Ok response, w')
    /\ status response = 500
    /\ map eventKind (trace w')
       = ["log"; "newPage"; "setContent"; "waitForFunction"; "evaluate";
          "close"; "error"]
    /\ livePages w' = 0%nat.
Proof.
  eexists. eexists. split; [vm_compute; reflexivity|].
  repeat split.
Qed.

Lemma rejected_evaluation_closes_page :
  exists response w',
    generate upperAscii fixedMinHeight parseFails emptyTexts
      (scenarioMeasuring (Throw (ExternalError "Execution context was destroyed"))
         true true)
      sampleBody (freshWorld emptyStore)
    = (Ok response, w')
    /\ status response = 500
    /\ map eventKind (trace w')
       = ["get"; "log"; "newPage"; "setContent"; "waitForFunction"; "evaluate";
          "close"; "error"]
    /\ livePages w' = 0%nat.
Proof.
  eexists. eexists. split; [vm_compute; reflexivity|].
  repeat split.
Qed.

(* ================================================================== *)
(** * Further properties                                               *)
(* ================================================================== *)

(* ------------------------------------------------------------------ *)
(** ** What escaping keeps of the code                                 *)
(* ------------------------------------------------------------------ *)

(** X12: Escaping loses the difference between a tab and four spaces, and
    nothing else: two codes have the same escaped text exactly when they are
    equal once every tab is written as four spaces. *)
Theorem escapeText_loses_only_tabs (a b : string) :
  escapeText a = escapeText b <-> expandTabs a = expandTabs b.
Proof.
  split; intros H.
  - apply escapeText_injective_without_tabs;
      try apply expandTabs_without_tabs.
    now rewrite !escapeText_expandTabs.
  - rewrite <- (escapeText_expandTabs a), <- (escapeText_expandTabs b).
    now rewrite H.
Qed.

Lemma includesChar_app (c : ascii) (a b : string) :
  includesChar c (a ++ b) = includesChar c a || includesChar c b.
Proof.
  induction a as [|x a IH]; [reflexivity|].
  cbn [append includesChar]. now rewrite IH, orb_assoc.
Qed.

Lemma includesChar_flat_map (c : ascii) (f : ascii -> string) (s : string) :
  (forall x, includesChar c (f x) = false) ->
  includesChar c (flat_map_string f s) = false.
Proof.
  intros H. induction s as [|x s IH]; [reflexivity|].
  cbn [flat_map_string]. now rewrite includesChar_app, H, IH.
Qed.

(** X13: The escaped text is made piece by piece: escaping a concatenation
    gives the concatenation of the escaped texts. Whatever the code, it
    holds no double quote, apostrophe, space, tab or line feed, and it is at
    least as long as the code and at most 24 times as long. *)
Theorem escapeText_shape (a b : string) :
  escapeText (a ++ b) = escapeText a ++ escapeText b
  /\ (forall c, In c [chr 34; "'"%char; " "%char; TAB; LF] ->
      includesChar c (escapeText a) = false)
  /\ (String.length a <= String.length (escapeText a) <= 24 * String.length a)%nat.
Proof.
  split; [apply escapeText_app|]. split.
  - intros c Hc. rewrite escapeText_charwise.
    apply includesChar_flat_map. intros x.
    cbn [In] in Hc.
    destruct Hc as [<- | [<- | [<- | [<- | [<- | []]]]]];
      destruct x as [[] [] [] [] [] [] [] []]; reflexivity.
  - rewrite escapeText_charwise.
    induction a as [|c a IH]; [cbn; lia|].
    cbn [flat_map_string String.length].
    rewrite length_append. pose proof (escapeChar_length c). lia.
Qed.

(* ------------------------------------------------------------------ *)
(** ** The format of a font size and of a padding                      *)
(* ------------------------------------------------------------------ *)

Lemma dropDigits_split (t : string) :
  exists digits, t = digits ++ dropDigits t
                 /\ forallb_string isDigit digits = true.
Proof.
  induction t as [|c t (d & E & Hd)]; [exists ""; now split|].
  cbn [dropDigits]. destruct (isDigit c) eqn:Ec.
  - exists (String c d). cbn [append forallb_string].
    rewrite Ec, Hd. split; [now f_equal | reflexivity].
  - exists "". now split.
Qed.

Lemma dropDigits_app (digits cssUnit : string) :
  forallb_string isDigit digits = true ->
  headFails isDigit cssUnit ->
  dropDigits (digits ++ cssUnit) = cssUnit.
Proof.
  induction digits as [|c d IH]; intros Hd Hu.
  - destruct cssUnit as [|u cssUnit]; [reflexivity|].
    cbn [append dropDigits]. cbn [headFails] in Hu. now rewrite Hu.
  - cbn [forallb_string] in Hd. apply andb_true_iff in Hd.
    destruct Hd as [Hc Hd]. cbn [append dropDigits]. rewrite Hc. now apply IH.
Qed.

(** X3: The texts the validators accept as a font size or a padding are
    exactly one or more ASCII digits followed by px, em or rem: no sign, no
    decimal point, no white space, no other unit and nothing after the unit. *)
Theorem matchesCssLength_spec (t : string) :
  matchesCssLength t = true
  <-> exists digits cssUnit,
        t = digits ++ cssUnit
        /\ digits <> ""
        /\ forallb_string isDigit digits = true
        /\ In cssUnit ["px"; "em"; "rem"].
Proof.
  split.
  - intros H. unfold matchesCssLength in H.
    destruct t as [|c t]; [discriminate H|].
    apply andb_true_iff in H. destruct H as [Hc Hu].
    destruct (dropDigits_split (String c t)) as (d & E & Hd).
    exists d, (dropDigits (String c t)). split; [exact E|]. split; [|split].
    + intros ->. cbn [append] in E. rewrite <- E in Hu.
      apply orb_true_iff in Hu. destruct Hu as [Hu | Hu];
        [apply orb_true_iff in Hu; destruct Hu as [Hu | Hu]|];
        apply String.eqb_eq in Hu; injection Hu as -> _; discriminate Hc.
    + exact Hd.
    + cbn [In].
      apply orb_true_iff in Hu. destruct Hu as [Hu | Hu];
        [apply orb_true_iff in Hu; destruct Hu as [Hu | Hu]|];
        apply String.eqb_eq in Hu; rewrite Hu; tauto.
  - intros (d & u & -> & Hne & Hd & Hu).
    assert (Hdrop : dropDigits (d ++ u) = u).
    { apply dropDigits_app; [exact Hd|].
      cbn [In] in Hu. destruct Hu as [<- | [<- | [<- | []]]]; reflexivity. }
    unfold matchesCssLength. rewrite Hdrop.
    destruct d as [|c d]; [now contradiction Hne|].
    cbn [append forallb_string] in *. apply andb_true_iff in Hd.
    destruct Hd as [Hc _]. rewrite Hc.
    cbn [In] in Hu. destruct Hu as [<- | [<- | [<- | []]]]; reflexivity.
Qed.

(* ------------------------------------------------------------------ *)
(** ** Splitting at a separator                                        *)
(* ------------------------------------------------------------------ *)

Lemma split_cons (c : ascii) (s : string) :
  exists piece more, split c s = piece :: more.
Proof.
  induction s as [|a s (p & m & IH)]; [now exists "", []|].
  cbn [split]. destruct (Ascii.eqb a c); [now eexists; eexists|].
  rewrite IH. now eexists; eexists.
Qed.

Lemma join_split (c : ascii) (s : string) :
  join (String c "") (split c s) = s.
Proof.
  induction s as [|a s IH]; [reflexivity|].
  cbn [split]. destruct (Ascii.eqb a c) eqn:E.
  - apply Ascii.eqb_eq in E. subst a.
    destruct (split_cons c s) as (p & m & Hs). rewrite Hs in *.
    cbn [join joinTail append] in *. now rewrite IH.
  - destruct (split_cons c s) as (p & m & Hs). rewrite Hs in *.
    cbn [join append] in *. now rewrite IH.
Qed.

Lemma split_pieces (c : ascii) (s : string) :
  Forall (fun piece => includesChar c piece = false) (split c s).
Proof.
  induction s as [|a s IH]; [repeat constructor|].
  cbn [split]. destruct (Ascii.eqb a c) eqn:E.
  - constructor; [reflexivity | exact IH].
  - destruct (split_cons c s) as (p & m & Hs). rewrite Hs in *.
    inversion IH as [|? ? Hp Hm]; subst. constructor; [|exact Hm].
    cbn [includesChar]. now rewrite E, Hp.
Qed.

Lemma split_piece_then_sep (c : ascii) (piece rest : string) :
  includesChar c piece = false ->
  split c (piece ++ String c rest) = piece :: split c rest.
Proof.
  induction piece as [|a p IH]; intros H.
  - cbn [append split]. now rewrite Ascii.eqb_refl.
  - cbn [includesChar] in H. apply orb_false_iff in H. destruct H as [Ha Hp].
    cbn [append split]. rewrite Ha, (IH Hp). reflexivity.
Qed.

Lemma split_last_piece (c : ascii) (piece : string) :
  includesChar c piece = false -> split c piece = [piece].
Proof.
  induction piece as [|a p IH]; intros H; [reflexivity|].
  cbn [includesChar] in H. apply orb_false_iff in H. destruct H as [Ha Hp].
  cbn [split]. now rewrite Ha, (IH Hp).
Qed.

Lemma split_join (c : ascii) (piece : string) (more : list string) :
  Forall (fun p => includesChar c p = false) (piece :: more) ->
  split c (join (String c "") (piece :: more)) = piece :: more.
Proof.
  revert piece. induction more as [|q more IH]; intros piece H.
  - inversion H; subst. cbn [join joinTail]. rewrite append_nil_r.
    now apply split_last_piece.
  - inversion H as [|? ? Hp Hm]; subst.
    cbn [join joinTail append]. rewrite split_piece_then_sep by exact Hp.
    f_equal. exact (IH q Hm).
Qed.

(** X23: The origins CORS admits are the pieces of CORS_ORIGIN between its
    commas, as they stand: joined with commas they give the variable back,
    so white space around a comma stays in the origin; a list of origins
    without commas is configured by joining it with commas. When the
    variable is unset or empty the two local origins are used. The list is
    never empty. *)
Theorem corsOrigins_spec (CORS_ORIGIN : option string) :
  corsOrigins CORS_ORIGIN <> []
  /\ (forall s, CORS_ORIGIN = Some s -> s <> "" ->
      join "," (corsOrigins CORS_ORIGIN) = s
      /\ Forall (fun origin => includesChar "," origin = false)
           (corsOrigins CORS_ORIGIN))
  /\ (forall origin more,
      Forall (fun o => includesChar "," o = false) (origin :: more) ->
      join "," (origin :: more) <> "" ->
      corsOrigins (Some (join "," (origin :: more))) = origin :: more)
  /\ (CORS_ORIGIN = None \/ CORS_ORIGIN = Some "" ->
      corsOrigins CORS_ORIGIN
      = ["http://localhost:3000"; "http://localhost:5500"]).
Proof.
  split; [|split; [|split]].
  - unfold corsOrigins. destruct CORS_ORIGIN as [s|]; [|discriminate].
    destruct (s =? ""); [discriminate|].
    destruct (split_cons "," s) as (p & m & ->). discriminate.
  - intros s -> Hne. unfold corsOrigins.
    apply String.eqb_neq in Hne. rewrite Hne.
    split; [apply join_split | apply split_pieces].
  - intros origin more Hf Hne. unfold corsOrigins.
    apply String.eqb_neq in Hne. rewrite Hne. now apply split_join.
  - intros [-> | ->]; reflexivity.
Qed.

(* ------------------------------------------------------------------ *)
(** ** The life of the server                                          *)
(* ------------------------------------------------------------------ *)

(** X21: The two initialisations touch different fields, so the order in
    which they finish does not matter. They leave the browser flagged ready
    exactly when puppeteer was loaded and the launch succeeded, and then the
    browser is set; the client of the store is set exactly when REDIS_URL is
    not empty and [createClient] returned, whether the connection succeeded
    or not. *)
Theorem initialisations (REDIS_URL : option string)
    (createClientThrows connectRejects puppeteer launchRejects : bool) :
  let this := fst (initBrowser puppeteer launchRejects
                     (fst (initRedis REDIS_URL createClientThrows
                             connectRejects constructed))) in
  this = fst (initRedis REDIS_URL createClientThrows connectRejects
                (fst (initBrowser puppeteer launchRejects constructed)))
  /\ this_isBrowserReady this = puppeteer && negb launchRejects
  /\ this_browser this = this_isBrowserReady this
  /\ this_redisClient this
     = match REDIS_URL with
       | Some url => negb (url =? "") && negb createClientThrows
       | None => false
       end.
Proof.
  unfold initBrowser, initRedis, constructed.
  destruct REDIS_URL as [url|]; [destruct (url =? "")|];
    destruct createClientThrows, connectRejects, puppeteer, launchRejects;
    repeat split; reflexivity.
Qed.

(** X22: Shutting down calls [close] on the browser if there is one, then
    [quit] on the client of the store if there is one, then exits with code
    0: a rejected [close] or [quit] changes what is written to the console
    and nothing else. *)
Theorem shutdown_always_exits (closeRejects quitRejects : bool)
    (this : Generator) :
  withoutConsole (shutdown closeRejects quitRejects this)
  = ((if this_browser this then [BrowserClosed] else [])
     ++ (if this_redisClient this then [RedisQuit] else [])
     ++ [Exited 0])%list.
Proof.
  unfold shutdown.
  destruct (this_browser this), (this_redisClient this),
    closeRejects, quitRejects; reflexivity.
Qed.

(* ------------------------------------------------------------------ *)
(** ** GET /api/download                                               *)
(* ------------------------------------------------------------------ *)

Lemma safeFilename_chars (filename : string) :
  forallb_string isFileNameChar (safeFilename filename) = true.
Proof.
  induction filename as [|c f IH]; [reflexivity|].
  cbn [safeFilename forallb_string]. rewrite IH.
  destruct (isFileNameChar c) eqn:E; [now rewrite E | reflexivity].
Qed.

(** X17: The name in the Content-Disposition header is the requested file
    name with every character other than a letter, a digit, a dot, an
    underscore and a hyphen replaced by an underscore: it has the length of
    the requested name, is the requested name itself exactly when that holds
    no such character, and holds no double quote, carriage return, line
    feed, slash or backslash. *)
Theorem safeFilename_is_safe (filename : string) :
  String.length (safeFilename filename) = String.length filename
  /\ forallb_string isFileNameChar (safeFilename filename) = true
  /\ (safeFilename filename = filename
      <-> forallb_string isFileNameChar filename = true)
  /\ (forall c, endsHeaderValue c = true ->
      includesChar c (safeFilename filename) = false).
Proof.
  split; [|split; [|split]].
  - induction filename as [|c f IH]; [reflexivity|].
    cbn [safeFilename String.length]. now rewrite IH.
  - apply safeFilename_chars.
  - split.
    + intros H. rewrite <- H. apply safeFilename_chars.
    + induction filename as [|c f IH]; [reflexivity|].
      cbn [safeFilename forallb_string]. intros H.
      apply andb_true_iff in H. destruct H as [Hc Hf].
      now rewrite Hc, (IH Hf).
  - intros c Hc. induction filename as [|x f IH]; [reflexivity|].
    cbn [safeFilename includesChar]. rewrite IH, orb_false_r.
    destruct (isFileNameChar x) eqn:Ex.
    + destruct (Ascii.eqb x c) eqn:E; [|reflexivity].
      apply Ascii.eqb_eq in E. subst x. exfalso. revert Hc Ex.
      destruct c as [[] [] [] [] [] [] [] []]; cbv; congruence.
    + revert Hc. destruct c as [[] [] [] [] [] [] [] []]; cbv; congruence.
Qed.

Lemma prefix_append (p rest : string) : prefix p (p ++ rest) = true.
Proof.
  induction p as [|a p IH].
  - now destruct rest.
  - cbn [append prefix]. now destruct (ascii_dec a a).
Qed.

Section DownloadFacts.

Variable fromBase64 : string -> list ascii.

(** X15: A download ends in one of three ways: a refusal 400 with one of
    three messages; a failure 500, logged, with nothing sent; or the sending
    of a buffer of at least eight bytes as image/png, never to be stored by
    a cache, with a Content-Length that is the number of bytes sent and a
    file name made of letters, digits, dots, underscores and hyphens. *)
Theorem download_outcomes (query : list (string * json)) :
  (exists message,
      In message ["Invalid image URL"; "Invalid base64 data";
                  "Invalid image data"]
      /\ download fromBase64 query = refusal message)
  \/ (exists calls,
        download fromBase64 query
        = (calls ++ [LogError "Download error:"; Status 500;
                     Json (JObj [("success", JBool false);
                                 ("error", JStr "Download failed")])])%list
        /\ (calls = [] \/ calls = [SetHeader "Content-Type" (JStr "image/png")])
        /\ sentBuffer (download fromBase64 query) = None)
  \/ (exists buffer name,
        download fromBase64 query
        = [SetHeader "Content-Type" (JStr "image/png");
           SetHeader "Content-Disposition"
             (JStr ("attachment; filename=" ++ dq ++ name ++ dq));
           SetHeader "Content-Length" (JNum (Z.of_nat (List.length buffer)));
           SetHeader "Cache-Control" (JStr "no-store");
           Send buffer]
        /\ (8 <= List.length buffer)%nat
        /\ forallb_string isFileNameChar name = true).
Proof.
  unfold download, downloadBody.
  destruct (negb (truthy_opt (lookup "url" query))) eqn:Hu.
  { left. exists "Invalid image URL". cbn [In]. tauto. }
  destruct (lookup "url" query) as [[| | |url| |]|];
    try (right; left; exists []; cbn [List.app sentBuffer]; tauto).
  destruct (negb (prefix imagePrefix url)).
  { left. exists "Invalid image URL". cbn [In]. tauto. }
  destruct (nth_error (split "," url) 1) as [data|].
  2:{ left. exists "Invalid base64 data". cbn [In]. tauto. }
  destruct (data =? "").
  { left. exists "Invalid base64 data". cbn [In]. tauto. }
  destruct (List.length (fromBase64 data) <? 8)%nat eqn:Hlen.
  { left. exists "Invalid image data". cbn [In]. tauto. }
  apply Nat.ltb_ge in Hlen.
  destruct (match lookup "filename" query with
            | Some v => v
            | None => JStr "carbon-code.png"
            end) as [| | |filename| |];
    try (right; left; exists [SetHeader "Content-Type" (JStr "image/png")];
         cbn [List.app sentBuffer]; tauto).
  right. right. exists (fromBase64 data), (safeFilename filename).
  split; [reflexivity|]. split; [exact Hlen | apply safeFilename_chars].
Qed.

(** X25: The download checks the form of the URL and the number of bytes,
    not the bytes: whenever the text after the comma is not empty, holds no
    comma and decodes to eight bytes or more, whatever they are, they are
    sent as image/png under the sanitised name. *)
Theorem download_sends_what_it_decodes (data filename : string) :
  data <> "" ->
  includesChar "," data = false ->
  (8 <= List.length (fromBase64 data))%nat ->
  download fromBase64
    [("url", JStr (imagePrefix ++ data)); ("filename", JStr filename)]
  = [SetHeader "Content-Type" (JStr "image/png");
     SetHeader "Content-Disposition"
       (JStr ("attachment; filename=" ++ dq ++ safeFilename filename ++ dq));
     SetHeader "Content-Length"
       (JNum (Z.of_nat (List.length (fromBase64 data))));
     SetHeader "Cache-Control" (JStr "no-store");
     Send (fromBase64 data)].
Proof.
  intros Hne Hcomma Hlen.
  unfold download, downloadBody.
  cbn [lookup String.eqb Ascii.eqb Bool.eqb].
  assert (Ht : truthy_opt (Some (JStr (imagePrefix ++ data))) = true)
    by reflexivity.
  rewrite Ht, prefix_append. cbn [negb].
  change (imagePrefix ++ data)
    with ("data:image/png;base64" ++ String "," data).
  rewrite split_piece_then_sep by reflexivity.
  rewrite split_last_piece by exact Hcomma. cbn [nth_error].
  apply String.eqb_neq in Hne. rewrite Hne.
  apply Nat.ltb_ge in Hlen. rewrite Hlen. reflexivity.
Qed.

(** X16: What is decoded and sent is the text between the first comma of the
    URL and the second one: whatever follows a second comma is ignored. *)
Theorem download_ignores_what_follows_a_second_comma (data junk : string)
    (others : list (string * json)) :
  includesChar "," data = false ->
  download fromBase64
    (("url", JStr (imagePrefix ++ data ++ "," ++ junk)) :: others)
  = download fromBase64 (("url", JStr (imagePrefix ++ data)) :: others).
Proof.
  intros Hd.
  assert (S1 : nth_error (split "," (imagePrefix ++ data ++ "," ++ junk)) 1
               = Some data).
  { change (imagePrefix ++ data ++ "," ++ junk)
      with ("data:image/png;base64" ++ String "," (data ++ String "," junk)).
    rewrite split_piece_then_sep by reflexivity.
    rewrite split_piece_then_sep by exact Hd. reflexivity. }
  assert (S2 : nth_error (split "," (imagePrefix ++ data)) 1 = Some data).
  { change (imagePrefix ++ data)
      with ("data:image/png;base64" ++ String "," data).
    rewrite split_piece_then_sep by reflexivity.
    rewrite split_last_piece by exact Hd. reflexivity. }
  unfold download, downloadBody.
  cbn [lookup String.eqb Ascii.eqb Bool.eqb truthy_opt truthy].
  rewrite !prefix_append, S1, S2. cbn [negb].
  reflexivity.
Qed.

End DownloadFacts.

Lemma base64Digit_not_comma (n : nat) :
  Ascii.eqb (base64Digit n) "," = false.
Proof.
  destruct (Nat.lt_ge_cases n 64) as [H|H].
  - do 64 (destruct n as [|n]; [reflexivity|]). lia.
  - unfold base64Digit.
    replace (String.get n base64Alphabet) with (@None ascii); [reflexivity|].
    do 64 (destruct n as [|n]; [lia|]). reflexivity.
Qed.

Lemma base64_without_comma (bytes : list ascii) :
  includesChar "," (base64 bytes) = false.
Proof.
  induction bytes as [|a|a b|a b c l IH] using list_ind3;
    cbn [base64 includesChar]; cbv zeta; cbn [includesChar];
    rewrite ?base64Digit_not_comma, ?IH; reflexivity.
Qed.

(* ------------------------------------------------------------------ *)
(** ** Base64, written and read back                                   *)
(* ------------------------------------------------------------------ *)

Lemma sextets_digit (n : nat) (rest : string) :
  (n < 64)%nat ->
  sextets (String (base64Digit n) rest) = n :: sextets rest.
Proof.
  intros H. do 64 (destruct n as [|n]; [reflexivity|]). lia.
Qed.

Lemma sextets_pad (rest : string) : sextets (String "=" rest) = [].
Proof. reflexivity. Qed.

(** X27: Base64 text is read back as the bytes it was written from, and
    it holds four characters for every three bytes, the last group
    filled up. *)
Theorem base64_is_read_back (bytes : list ascii) :
  decodeBase64 (base64 bytes) = bytes
  /\ String.length (base64 bytes) = (4 * ((List.length bytes + 2) / 3))%nat.
Proof.
  unfold decodeBase64.
  induction bytes as [|a|a b|a b c l [IH IHlen]] using list_ind3.
  - split; reflexivity.
  - pose proof (nat_of_ascii_lt a) as Ha.
    split; [|reflexivity].
    cbn [base64]. cbv zeta.
    rewrite !sextets_digit by lia. rewrite sextets_pad.
    cbn [bytesOfSextets].
    replace (nat_of_ascii a / 4 * 4 + nat_of_ascii a mod 4 * 16 / 16)%nat
      with (nat_of_ascii a) by lia.
    now rewrite ascii_nat_embedding.
  - pose proof (nat_of_ascii_lt a) as Ha. pose proof (nat_of_ascii_lt b) as Hb.
    split; [|reflexivity].
    cbn [base64]. cbv zeta.
    rewrite !sextets_digit by lia. rewrite sextets_pad.
    cbn [bytesOfSextets].
    replace (nat_of_ascii a / 4 * 4
             + (nat_of_ascii a mod 4 * 16 + nat_of_ascii b / 16) / 16)%nat
      with (nat_of_ascii a) by lia.
    replace ((nat_of_ascii a mod 4 * 16 + nat_of_ascii b / 16) mod 16 * 16
             + nat_of_ascii b mod 16 * 4 / 4)%nat
      with (nat_of_ascii b) by lia.
    now rewrite !ascii_nat_embedding.
  - pose proof (nat_of_ascii_lt a) as Ha. pose proof (nat_of_ascii_lt b) as Hb.
    pose proof (nat_of_ascii_lt c) as Hc.
    split.
    + cbn [base64]. cbv zeta.
      rewrite !sextets_digit by lia.
      cbn [bytesOfSextets]. rewrite IH.
      replace (nat_of_ascii a / 4 * 4
               + (nat_of_ascii a mod 4 * 16 + nat_of_ascii b / 16) / 16)%nat
        with (nat_of_ascii a) by lia.
      replace ((nat_of_ascii a mod 4 * 16 + nat_of_ascii b / 16) mod 16 * 16
               + (nat_of_ascii b mod 16 * 4 + nat_of_ascii c / 64) / 4)%nat
        with (nat_of_ascii b) by lia.
      replace ((nat_of_ascii b mod 16 * 4 + nat_of_ascii c / 64) mod 4 * 64
               + nat_of_ascii c mod 64)%nat
        with (nat_of_ascii c) by lia.
      now rewrite !ascii_nat_embedding.
    + cbn [base64]. cbv zeta. cbn [String.length List.length].
      rewrite IHlen. lia.
Qed.

Section GenerateThenDownload.

Variable toUpperCase : string -> string.
Variable lineMinHeight : string -> string -> string.
Variable JSON_parse : string -> outcome json.
Variable elementText : json -> string.
Variable env : Env.
Variable fromBase64 : string -> list ascii.

(** X18: The image of an answer served from the cache is a URL that
    /api/download accepts: when the entry of the request holds, as its
    image, the data URL of the base64 text of at least eight bytes, and
    the decoder of the platform reads that text back, the answer carries
    that URL and the download of it sends these bytes, under the name
    carbon-code.png. *)
Theorem cached_image_can_be_downloaded (reqBody : json) (w w1 : World)
    (code : string) (cached : json) (bytes : list ascii) :
  validationResult elementText reqBody = [] ->
  getProp reqBody "code" = Some (JStr code) ->
  getFromCache JSON_parse env (cacheKey code (optionsOf reqBody)) w
  = (Ok cached, w1) ->
  getProp cached "image" = Some (JStr (imagePrefix ++ base64 bytes)) ->
  fromBase64 (base64 bytes) = bytes ->
  (8 <= List.length bytes)%nat ->
  exists response w' url,
    generate toUpperCase lineMinHeight JSON_parse elementText env reqBody w
    = (Ok response, w')
    /\ status response = 200
    /\ getProp (body response) "image" = Some (JStr url)
    /\ download fromBase64 [("url", JStr url)]
       = [SetHeader "Content-Type" (JStr "image/png");
          SetHeader "Content-Disposition"
            (JStr ("attachment; filename=" ++ dq ++ "carbon-code.png" ++ dq));
          SetHeader "Content-Length" (JNum (Z.of_nat (List.length bytes)));
          SetHeader "Cache-Control" (JStr "no-store");
          Send bytes].
Proof.
  intros Hv Hc Hget Himage Hdecode Hlen.
  destruct cached as [| | | | |props]; try discriminate Himage.
  eexists. eexists. exists (imagePrefix ++ base64 bytes).
  split; [|split; [|split]].
  - unfold generate. rewrite Hv, Hc. cbv zeta.
    apply try_catch_ok. rewrite (bind_ok _ _ _ _ _ Hget).
    cbn [truthy]. unfold bind, now, ret. reflexivity.
  - reflexivity.
  - cbn [body getProp ownEntries].
    rewrite !lookup_setProp_neq by discriminate. exact Himage.
  - unfold download, downloadBody.
    cbn [lookup String.eqb Ascii.eqb Bool.eqb].
    assert (Ht : truthy_opt (Some (JStr (imagePrefix ++ base64 bytes))) = true)
      by reflexivity.
    rewrite Ht, prefix_append. cbn [negb].
    change (imagePrefix ++ base64 bytes)
      with ("data:image/png;base64" ++ String "," (base64 bytes)).
    rewrite split_piece_then_sep by reflexivity.
    rewrite split_last_piece by apply base64_without_comma. cbn [nth_error].
    assert (Hne : (base64 bytes =? "") = false).
    { destruct bytes as [|a [|b [|c l]]]; [cbn in Hlen; lia | reflexivity..]. }
    rewrite Hne, Hdecode.
    apply Nat.ltb_ge in Hlen. rewrite Hlen. reflexivity.
Qed.

End GenerateThenDownload.

(* ------------------------------------------------------------------ *)
(** ** The language option                                             *)
(* ------------------------------------------------------------------ *)

Lemma text_before_language :
  exists t, text_373_385 = t ++ "const language = '".
Proof.
  exists (take (String.length text_373_385 - 18) text_373_385).
  vm_compute. reflexivity.
Qed.

Lemma text_after_language :
  exists t, text_385_426 = "';" ++ t.
Proof.
  exists (substring 2 (String.length text_385_426 - 2) text_385_426).
  vm_compute. reflexivity.
Qed.

Section LanguageFacts.

Variable toUpperCase : string -> string.
Variable lineMinHeight : string -> string -> string.
Variable elementText : json -> string.

Lemma document_language
    (fontFamily fontFamilyCSS backgroundColor_s fontSize_s lineHeight_s
     padding_s tabSize_s language_s language_upper showLineNumbers_s : string)
    (isDark : bool) (themeColors : themeEntry)
    (showWindowControls showLineNumbers : json) (escaped : string) :
  exists pre post,
    document lineMinHeight fontFamily fontFamilyCSS backgroundColor_s
      fontSize_s lineHeight_s padding_s tabSize_s language_s language_upper
      showLineNumbers_s isDark themeColors showWindowControls
      showLineNumbers escaped
    = pre ++ "const language = '" ++ language_s ++ "';" ++ post.
Proof.
  destruct text_before_language as [before Hb].
  destruct text_after_language as [after Ha].
  unfold document. rewrite Hb, Ha.
  eexists.
  exists (after ++ showLineNumbers_s ++ text_426_443).
  rewrite (append_assoc "';").
  rewrite (append_assoc before "const language = '").
  set (slot := "const language = '" ++ _). clearbody slot.
  repeat rewrite <- append_assoc.
  reflexivity.
Qed.

(** X11: The language option reaches the page as it was sent: what the
    validators report depends on the code and on the theme, the font size
    and the padding only (the three fields as the validators select
    them), and for options of the documented types the builder writes the
    language between the quotes of a script statement without escaping
    it. *)
Theorem language_is_written_as_sent (code language : string)
    (props : list (string * json)) :
  wellTyped (Some (JObj props)) = true ->
  lookup "language" props = Some (JStr language) ->
  (forall reqBody reqBody',
      getProp reqBody "code" = getProp reqBody' "code" ->
      (forall name, In name ["theme"; "fontSize"; "padding"] ->
                    validatedField reqBody name = validatedField reqBody' name) ->
      validationResult elementText reqBody
      = validationResult elementText reqBody')
  /\ exists pre post,
       generateHTMLTemplate toUpperCase lineMinHeight (Some (JStr code))
         (Some (JObj props))
       = Ok (pre ++ "const language = '" ++ language ++ "';" ++ post).
Proof.
  intros Hp Hl. split.
  { intros reqBody reqBody' Hc Ho.
    unfold validationResult, validateOptions.
    rewrite Hc, !Ho by (cbn [In]; tauto). reflexivity. }
  pose proof (optionOr_hasType props "theme" (JStr "dark") Hp) as H1.
  pose proof (optionOr_hasType props "backgroundColor" (JStr "#262424") Hp) as H2.
  pose proof (optionOr_hasType props "fontFamily" (JStr "Fira Code") Hp) as H3.
  pose proof (optionOr_hasType props "fontSize" (JStr "14px") Hp) as H4.
  pose proof (optionOr_hasType props "showLineNumbers" (JBool true) Hp) as H6.
  pose proof (optionOr_hasType props "showWindowControls" (JBool true) Hp) as H7.
  pose proof (optionOr_hasType props "padding" (JStr "40px") Hp) as H8.
  pose proof (optionOr_hasType props "lineHeight" (JStr "1.6") Hp) as H9.
  pose proof (optionOr_hasType props "tabSize" (JNum 2) Hp) as H10.
  specialize (H1 ltac:(simpl; tauto) eq_refl).
  specialize (H2 ltac:(simpl; tauto) eq_refl).
  specialize (H3 ltac:(simpl; tauto) eq_refl).
  specialize (H4 ltac:(simpl; tauto) eq_refl).
  specialize (H6 ltac:(simpl; tauto) eq_refl).
  specialize (H7 ltac:(simpl; tauto) eq_refl).
  specialize (H8 ltac:(simpl; tauto) eq_refl).
  specialize (H9 ltac:(simpl; tauto) eq_refl).
  specialize (H10 ltac:(simpl; tauto) eq_refl).
  field_shape H1 theme E1. field_shape H2 backgroundColor E2.
  field_shape H3 fontFamily E3. field_shape H4 fontSize E4.
  field_shape H6 showLineNumbers E6.
  field_shape H7 showWindowControls E7. field_shape H8 padding E8.
  field_shape H10 tabSize E10.
  assert (H9' : exists lh, ToString (optionOr (JObj props) "lineHeight" (JStr "1.6")) = Ok lh).
  { destruct (optionOr (JObj props) "lineHeight" (JStr "1.6"));
      try discriminate H9; simpl; eauto. }
  destruct H9' as [lineHeight E9]. clear H9.
  assert (E5 : optionOr (JObj props) "language" (JStr "auto") = JStr language).
  { unfold optionOr, getProp. now rewrite Hl. }
  unfold generateHTMLTemplate. cbv zeta.
  rewrite E1, E2, E3, E4, E5, E6, E7, E8, E9, E10.
  unfold escapeHTML.
  destruct showWindowControls, showLineNumbers, code as [|c0 code];
    cbn [obind ToString truthy truthy_opt negb String.eqb];
    match goal with
    | |- exists pre post, Ok (document ?a ?b ?c ?d ?e ?f ?g ?h ?i ?j ?k ?l ?m ?n ?o ?p) = _ =>
        destruct (document_language b c d e f g h i j k l m n o p)
          as (pre & post & Hd); exists pre, post; now rewrite Hd
    end.
Qed.

End LanguageFacts.

(* ------------------------------------------------------------------ *)
(** ** Closed instances of the further properties                      *)
(* ------------------------------------------------------------------ *)

Lemma stored_value_is_read_back_witness :
  redisClient (scenario true true) = true
  /\ parseStored (JSON_stringify storedEntry) = Ok storedEntry
  /\ exists w1 w2,
       setToCache (scenario true true) "k" storedEntry 60
         (freshWorld emptyStore) = (Ok true, w1)
       /\ getFromCache parseStored (scenario true true) "k" w1
          = (Ok storedEntry, w2)
       /\ store w2 "k" = Some (JSON_stringify storedEntry).
Proof.
  split; [reflexivity|]. split; [reflexivity|].
  destruct (stored_value_is_read_back parseStored (scenario true true) "k"
              storedEntry 60 (freshWorld emptyStore)
              eq_refl eq_refl eq_refl eq_refl)
    as (w1 & w2 & H1 & H2 & H3 & _).
  exists w1, w2. repeat split; assumption.
Defined.

Lemma base64_of_pngSignature : base64 pngSignature = "iVBORw0KGgo=".
Proof. vm_compute. reflexivity. Qed.

Lemma validation_of_text_fields_witness :
  textOrAbsent (validatedField sampleBody "theme") = true
  /\ textOrAbsent (validatedField sampleBody "fontSize") = true
  /\ textOrAbsent (validatedField sampleBody "padding") = true
  /\ (validationResult emptyTexts sampleBody = []
      <-> (exists code, getProp sampleBody "code" = Some (JStr code)
                        /\ code <> "" /\ (String.length code <= 10000)%nat)
          /\ absentOr isTheme (validatedField sampleBody "theme") = true
          /\ absentOr matchesCssLength (validatedField sampleBody "fontSize") = true
          /\ absentOr matchesCssLength (validatedField sampleBody "padding") = true).
Proof.
  split; [reflexivity|]. split; [reflexivity|]. split; [reflexivity|].
  exact (validation_of_text_fields emptyTexts sampleBody eq_refl eq_refl eq_refl).
Defined.

Lemma validated_theme_has_a_palette_witness :
  validationResult emptyTexts sampleBody = []
  /\ getProp sampleBody "options.theme" = None
  /\ optionField sampleBody "theme" = Some (JStr "light")
  /\ exists palette,
       In palette [theme_dark; theme_light; theme_solarized]
       /\ themes "light" = Colors palette
       /\ resolveTheme "light" = Colors palette
       /\ forall r, role r (resolveTheme "light") = r palette.
Proof.
  split; [reflexivity|]. split; [reflexivity|]. split; [reflexivity|].
  exact (validated_theme_has_a_palette emptyTexts sampleBody "light"
           eq_refl eq_refl eq_refl).
Defined.

Lemma options_that_are_not_an_object_witness :
  getProp nullOptionsBody "code" = Some (JStr sampleCode)
  /\ validationResult emptyTexts nullOptionsBody = []
  /\ exists w' events,
       generate upperAscii fixedMinHeight parseFails emptyTexts
         (scenario false true) nullOptionsBody (freshWorld emptyStore)
       = (Ok (internalError (scenario false true) TypeError
                "2024-06-01T08:00:00.000Z"), w')
       /\ trace w' = events
       /\ existsb isPageOpened events = true
       /\ closedAfterOpen events = true
       /\ contents events = [].
Proof.
  assert (H1 : getProp nullOptionsBody "code" = Some (JStr sampleCode))
    by reflexivity.
  assert (H2 : validationResult emptyTexts nullOptionsBody = []) by reflexivity.
  split; [exact H1|]. split; [exact H2|].
  destruct (options_that_are_not_an_object upperAscii fixedMinHeight parseFails
              emptyTexts (scenario false true) nullOptionsBody sampleCode
              (freshWorld emptyStore) H1) as (_ & _ & H).
  destruct (H eq_refl H2 eq_refl eq_refl eq_refl eq_refl)
    as (w' & events & E & Ht & Ho & Hc & Hd).
  exists w', events. repeat split; assumption.
Defined.

Lemma health_report_matches_generate_witness :
  serves (fst (initBrowser true false
                 (fst (initRedis (Some "redis://cache:6379") false false
                         constructed))))
    (scenario true true)
  /\ exists report w1 response w' events,
       health (scenario true true) (freshWorld emptyStore) = (Ok report, w1)
       /\ status report = 200
       /\ generate upperAscii fixedMinHeight parseFails emptyTexts
            (scenario true true) sampleBody (freshWorld emptyStore)
          = (Ok response, w')
       /\ trace w' = events
       /\ (getProp (body report) "browser" = Some (JStr "ready") ->
           status response <> 503)
       /\ (getProp (body report) "browser" = Some (JStr "not-ready") ->
           existsb isPageOpened events = false)
       /\ (getProp (body report) "cache" = Some (JStr "disabled") ->
           existsb isRedisCall events = false).
Proof.
  assert (H : serves (fst (initBrowser true false
                             (fst (initRedis (Some "redis://cache:6379")
                                     false false constructed))))
                (scenario true true)) by (repeat split).
  split; [exact H|].
  exact (health_report_matches_generate upperAscii fixedMinHeight parseFails
           emptyTexts (scenario true true) (Some "redis://cache:6379")
           false false true false sampleBody (freshWorld emptyStore) H).
Defined.

Lemma failed_connect_keeps_the_client_witness :
  serves (fst (initRedis (Some "redis://cache:6379") false true constructed))
    (scenario true false)
  /\ (exists report w1,
        health (scenario true false) (freshWorld emptyStore) = (Ok report, w1)
        /\ getProp (body report) "cache" = Some (JStr "connected"))
  /\ (exists v w' events,
        getFromCache parseFails (scenario true false) "k" (freshWorld emptyStore)
        = (Ok v, w')
        /\ trace w' = RedisGet "k" :: events).
Proof.
  assert (H : serves (fst (initRedis (Some "redis://cache:6379") false true
                             constructed))
                (scenario true false)) by (repeat split).
  split; [exact H|].
  assert (Hne : "redis://cache:6379" <> "") by discriminate.
  exact (proj2 (failed_connect_keeps_the_client parseFails (scenario true false)
                  "redis://cache:6379" "k" (freshWorld emptyStore) Hne H)).
Defined.

Lemma download_ignores_what_follows_a_second_comma_witness :
  includesChar "," "iVBORw0KGgo=" = false
  /\ download decodeBase64
       [("url", JStr "data:image/png;base64,iVBORw0KGgo=,charset=x")]
     = download decodeBase64
         [("url", JStr "data:image/png;base64,iVBORw0KGgo=")]
  /\ sentBuffer (download decodeBase64
                   [("url", JStr "data:image/png;base64,iVBORw0KGgo=")])
     = Some pngSignature.
Proof.
  split; [reflexivity|]. split; [|reflexivity].
  exact (download_ignores_what_follows_a_second_comma decodeBase64
           "iVBORw0KGgo=" "charset=x" [] eq_refl).
Defined.

Lemma cached_image_can_be_downloaded_witness :
  validationResult emptyTexts sampleBody = []
  /\ getProp storedEntry "image"
     = Some (JStr (imagePrefix ++ base64 pngSignature))
  /\ decodeBase64 (base64 pngSignature) = pngSignature
  /\ (8 <= List.length pngSignature)%nat
  /\ exists response w' url,
       generate upperAscii fixedMinHeight parseStored emptyTexts
         (scenario true true) sampleBody (freshWorld fullStore)
       = (Ok response, w')
       /\ status response = 200
       /\ getProp (body response) "image" = Some (JStr url)
       /\ sentBuffer (download decodeBase64 [("url", JStr url)])
          = Some pngSignature.
Proof.
  split; [reflexivity|]. split; [reflexivity|].
  split; [reflexivity|]. split; [cbn; lia|].
  assert (Hlen : (8 <= List.length pngSignature)%nat) by (cbn; lia).
  destruct (cached_image_can_be_downloaded upperAscii fixedMinHeight
              parseStored emptyTexts (scenario true true) decodeBase64
              sampleBody (freshWorld fullStore) _ sampleCode storedEntry
              pngSignature eq_refl eq_refl eq_refl eq_refl eq_refl Hlen)
    as (response & w' & url & E1 & E2 & E3 & E4).
  exists response, w', url. split; [exact E1|]. split; [exact E2|].
  split; [exact E3|]. rewrite E4. reflexivity.
Defined.

Lemma language_is_written_as_sent_witness :
  wellTyped (Some (JObj [("language", JStr "';alert(1);'")])) = true
  /\ exists pre post,
       generateHTMLTemplate upperAscii fixedMinHeight (Some (JStr sampleCode))
         (Some (JObj [("language", JStr "';alert(1);'")]))
       = Ok (pre ++ "const language = '" ++ "';alert(1);'" ++ "';" ++ post).
Proof.
  split; [reflexivity|].
  exact (proj2 (language_is_written_as_sent upperAscii fixedMinHeight
                  emptyTexts sampleCode "';alert(1);'"
                  [("language", JStr "';alert(1);'")] eq_refl eq_refl)).
Defined.

Lemma download_sends_what_it_decodes_witness :
  (8 <= List.length (decodeBase64 "iVBORw0KGgo="))%nat
  /\ sentBuffer (download decodeBase64
                   [("url", JStr (imagePrefix ++ "iVBORw0KGgo="));
                    ("filename", JStr "../my image.png")])
     = Some (decodeBase64 "iVBORw0KGgo=")
  /\ headerOf "Content-Disposition"
       (download decodeBase64
          [("url", JStr (imagePrefix ++ "iVBORw0KGgo="));
           ("filename", JStr "../my image.png")])
     = Some (JStr ("attachment; filename=" ++ dq ++ ".._my_image.png" ++ dq)).
Proof.
  assert (Hlen : (8 <= List.length (decodeBase64 "iVBORw0KGgo="))%nat)
    by (cbn; lia).
  assert (Hne : "iVBORw0KGgo=" <> "") by discriminate.
  split; [exact Hlen|].
  rewrite (download_sends_what_it_decodes decodeBase64 "iVBORw0KGgo="
             "../my image.png" Hne eq_refl Hlen).
  split; reflexivity.
Defined.

(** A fallback request whose code is the number 5, in production. *)
Lemma fallback_of_a_number_fails :
  exists w',
    dispatched (scenario false false) (Some "production")
      (fallback (scenario false false) (JObj [("code", JNum 5)]))
      (freshWorld emptyStore)
    = (Ok {| status := 500;
             body := JObj [("success", JBool false);
                           ("error", JStr "Internal server error");
                           ("timestamp", JStr "2024-06-01T08:00:00.000Z")] |},
       w').
Proof. eexists. vm_compute. reflexivity. Qed.

(** A body that holds a property named [options.theme] beside its
    options: the validators read that property, the builder reads the
    theme of the options, which nothing has validated; and the property
    is validated even when the options are null. *)
Lemma validators_read_the_named_path :
  validationResult emptyTexts
    (JObj [("code", JStr "x"); ("options.theme", JStr "dark");
           ("options", JObj [("theme", JStr "constructor")])]) = []
  /\ optionField
       (JObj [("code", JStr "x"); ("options.theme", JStr "dark");
              ("options", JObj [("theme", JStr "constructor")])]) "theme"
     = Some (JStr "constructor")
  /\ resolveTheme "constructor" = Inherited
  /\ validateOptions emptyTexts
       (JObj [("code", JStr "x"); ("options.theme", JStr "neon");
              ("options", JNull)])
     = [{| err_path := "options.theme"; err_msg := "Invalid theme";
           err_value := Some (JStr "neon") |}].
Proof. repeat split. Qed.

